(** * Attachment transfer and rendering of jira-cli: a shallow embedding

    The development follows the Go packages of the repository:
    - [Go]: the few pieces of the Go runtime and standard library the code
      relies on (byte strings, [%d] and [%.2f] verbs, slicing, base64);
    - [Jira]: package [pkg/jira], the attachment transport
      ([applyAuth], [DownloadAttachment], [uploadAttachment],
      [deleteAttachment]);
    - [Api]: package [api], the installation-aware proxies;
    - [ListCmd]: package [internal/cmd/issue/attachment/list], the renderers;
    - [DownloadCmd]: package [internal/cmd/issue/attachment/download];
    - [ListTable], [ListRun], [DownloadArgs], [AddCmd], [RemoveCmd]: the
      aligned renderers, the argument parsers and the [list], [add] and
      [remove] commands, over the collaborators gathered in [Cli].

    Go strings are byte sequences: they are modelled by [string], whose
    elements are the 8-bit [ascii] values, and [String.length] is Go's
    [len]. *)

From Stdlib Require Import ZArith Strings.String Strings.Ascii Numbers.DecimalString Lia List.
From stdpp Require Import gmap strings list fin_maps.

Open Scope string_scope.
Open Scope Z_scope.

(** ** Go runtime and standard library *)

Module Go.

(** The line feed, Go's ['\n']. *)
Definition LF : ascii := ascii_of_nat 10.

(** The double quote character (byte 34). *)
Definition DQUOTE : ascii := ascii_of_nat 34.

Definition nl : string := String LF "".

Definition dquote : string := String DQUOTE "".

(** [fmt.Sprintf("%d", n)] for an integer [n]. *)
Definition Sprintf_d (n : Z) : string := NilZero.string_of_int (Z.to_int n).

(** The decimal digit [d], for [0 <= d <= 9]. *)
Definition digit (d : Z) : ascii := ascii_of_nat (48 + Z.to_nat d).

(** Nearest integer to [n / d] for [d > 0], ties to the even neighbour. *)
Definition round_half_even (n d : Z) : Z :=
  let q := n / d in
  let r := n mod d in
  if 2 * r <? d then q
  else if d <? 2 * r then q + 1
  else if Z.even q then q else q + 1.

(** [float64(n)] for an [int64] value [n >= 0]: the nearest binary64 number,
    ties to even.  Integers below [2^53] are represented exactly; above, the
    result keeps 53 significant bits.  The result is itself an integer, and
    is returned as such. *)
Definition float64_of_int64 (n : Z) : Z :=
  if n <? 2 ^ 53 then n
  else
    let ulp := 2 ^ (Z.log2 n - 52) in
    round_half_even n ulp * ulp.

(** [fmt.Sprintf("%.2f", x / d)] where [x >= 0] is a binary64 integer and
    [d] a power of two in the [int64] range.  The binary64 quotient of such
    operands is exact, and [strconv] prints the exact binary value rounded
    to the requested number of decimals, ties to even.  So the digits are
    those of the integer nearest to [100 * x / d]. *)
Definition Sprintf_2f_quot (x d : Z) : string :=
  let q := round_half_even (100 * x) d in
  Sprintf_d (q / 100)
  ++ "." ++ String (digit (q / 10 mod 10)) (String (digit (q mod 10)) "").

(** The slice expression [s[:n]]; [None] stands for the run-time panic of an
    out-of-range bound. *)
Definition slice_to (s : string) (n : nat) : option string :=
  if (n <=? String.length s)%nat then Some (substring 0 n s) else None.

(** An [io.Writer] that never fails (a [bytes.Buffer], the standard output)
    is the sequence of bytes written so far. *)
Definition Writer := string.

Definition Fprintf (w : Writer) (formatted : string) : Writer := w ++ formatted.

(** [encoding/base64], standard alphabet with padding. *)
Definition b64_alphabet : string :=
  "ABCDEFGHIJKLMNOPQRSTUVWXYZabcdefghijklmnopqrstuvwxyz0123456789+/".

Definition b64_char (n : N) : ascii :=
  match String.get (N.to_nat n) b64_alphabet with
  | Some c => c
  | None => "="%char
  end.

Fixpoint base64_EncodeToString (s : string) : string :=
  match s with
  | EmptyString => ""
  | String a EmptyString =>
      let x := N_of_ascii a in
      String (b64_char (x / 4)) (String (b64_char (x mod 4 * 16)) "==")
  | String a (String b EmptyString) =>
      let x := N_of_ascii a in
      let y := N_of_ascii b in
      String (b64_char (x / 4))
        (String (b64_char (x mod 4 * 16 + y / 16))
           (String (b64_char (y mod 16 * 4)) "="))
  | String a (String b (String c rest)) =>
      let x := N_of_ascii a in
      let y := N_of_ascii b in
      let z := N_of_ascii c in
      String (b64_char (x / 4))
        (String (b64_char (x mod 4 * 16 + y / 16))
           (String (b64_char (y mod 16 * 4 + z / 64))
              (String (b64_char (z mod 64)) (base64_EncodeToString rest))))
  end%N.

(** [net/http.Header]: a map from header names to the values set for them.
    The names the code uses are already in canonical form, so the
    canonicalisation of keys is the identity on them and is left out. *)
Abbreviation Header := (gmap string (list string)).

Definition Header_Set (h : Header) (key value : string) : Header :=
  <[key := [value]]> h.

Definition Header_Add (h : Header) (key value : string) : Header :=
  <[key := (default [] (h !! key) ++ [value])%list]> h.

Definition Header_Get (h : Header) (key : string) : string :=
  match h !! key with
  | Some (v :: _) => v
  | _ => ""
  end.

(** [net/http.Request], as far as the code fills it. *)
Record Request := {
  Method : string;
  URL : string;
  ReqHeader : Header;
  ReqBody : string
}.

Definition with_header (req : Request) (h : Header) : Request :=
  {| Method := Method req; URL := URL req; ReqHeader := h; ReqBody := ReqBody req |}.

(** The method [SetBasicAuth] of [http.Request]. *)
Definition SetBasicAuth (req : Request) (username password : string) : Request :=
  with_header req
    (Header_Set (ReqHeader req) "Authorization"
       ("Basic " ++ base64_EncodeToString (username ++ ":" ++ password))).

(** [net/http.Response], as far as the code reads it. *)
Record Response := {
  Status : string;
  StatusCode : Z;
  Body : string
}.

Definition StatusOK : Z := 200.
Definition StatusNoContent : Z := 204.

End Go.

(** ** Package [pkg/jira]: data model *)

Module Jira.
Import Go.

Record User := {
  DisplayName : string;
  AccountID : string;
  Name : string
}.

Record Attachment := {
  ID : string;
  Filename : string;
  Author : User;
  Created : string;
  Size : Z;
  MimeType : string;
  Content : string
}.

(** *** Errors

    Go's [error] values.  [LibError] is an error made by the standard
    library ([os], [io], [net/http], [encoding/json], [mime/multipart]); the
    code never inspects such a value, it only hands it on. *)
Inductive error :=
| ErrEmptyResponse
| ErrUnexpectedResponse (body : list string) (status : string) (statusCode : Z)
| Errorf (message : string)
| LibError (message : string).

Inductive result (A : Type) :=
| Ok (a : A)
| Err (e : error).
Arguments Ok {A} a.
Arguments Err {A} e.

(** *** The client *)

(** Modelled from the spec: the type [AuthType] and its three constants are
    declared outside the files at hand; the type is a string type and the
    specification names the modes basic, bearer and mutual-TLS. *)
Definition AuthTypeBasic : string := "basic".
Definition AuthTypeBearer : string := "bearer".
Definition AuthTypeMTLS : string := "mtls".

(** Modelled from the spec: the method [String] of [AuthType] is outside the
    files at hand; basic is the default when the mode is unset, so the empty
    mode reads as basic. *)
Definition AuthType_String (at_ : string) : string :=
  if String.eqb at_ "" then AuthTypeBasic else at_.

(** Modelled from the spec: the REST base paths and the API version tags are
    constants declared outside the files at hand; the specification gives
    [/rest/api/3] and [/rest/api/2] and calls the generations v3 and v2. *)
Definition baseURLv3 : string := "/rest/api/3".
Definition baseURLv2 : string := "/rest/api/2".
Definition apiVersion3 : string := "v3".
Definition apiVersion2 : string := "v2".

(** The fields of [Client] the attachment code reads or writes; [authType]
    is a pointer, [None] is [nil].  The [transport] field is the
    [http_Do] component of the environment below. *)
Record Client := {
  server : string;
  login : string;
  token : string;
  authType : option string
}.

Definition with_authType (c : Client) (t : option string) : Client :=
  {| server := server c; login := login c; token := token c; authType := t |}.

(** *** The world outside the program

    What the operating system, the network and the library decoders answer.
    [http_Do] is [(&http.Client{Transport: c.transport}).Do]: by the contract
    of [net/http] it yields a response or an error, and an error is what the
    code looks at first.  [client_request] answers for the method
    [request] of the client, which is outside the files at hand and whose result
    the callers check for both a [nil] error and a [nil] response. *)
Record Env := {
  http_NewRequest_err : string -> string -> option error;
  http_Do : Request -> result Response;
  client_request : Request -> option Response * option error;
  os_Create_err : string -> option error;
  io_Copy_to_file_err : string -> string -> option (nat * error);
  os_Open_err : string -> option error;
  io_Copy_from_file : string -> result string;
  filepath_Base : string -> string;
  multipart_CreateFormFile_err : string -> string -> option error;
  multipart_Close_err : option error;
  multipart_body : string -> string -> string -> string;
  multipart_FormDataContentType : string;
  json_Decode_attachments : string -> result (list Attachment);
  json_Decode_errors : string -> list string
}.

(** The state the program changes: the client (shared through a pointer),
    the files and directories of the local file system, and the requests
    handed to the transport so far. *)
Record State := {
  client : Client;
  files : gmap string string;
  dirs : gset string;
  sent : list Request
}.

Definition with_client (st : State) (c : Client) : State :=
  {| client := c; files := files st; dirs := dirs st; sent := sent st |}.

Definition with_files (st : State) (f : gmap string string) : State :=
  {| client := client st; files := f; dirs := dirs st; sent := sent st |}.

Definition with_dirs (st : State) (d : gset string) : State :=
  {| client := client st; files := files st; dirs := d; sent := sent st |}.

Definition with_sent (st : State) (l : list Request) : State :=
  {| client := client st; files := files st; dirs := dirs st; sent := l |}.

(** [http.NewRequest(method, url, body)]. *)
Definition http_NewRequest (env : Env) (method url body : string) : result Request :=
  match http_NewRequest_err env method url with
  | Some err => Err err
  | None => Ok {| Method := method; URL := url; ReqHeader := ∅; ReqBody := body |}
  end.

(** [httpClient.Do(req)]: the request goes to the transport. *)
Definition httpClient_Do (env : Env) (req : Request) (st : State) : result Response * State :=
  (http_Do env req, with_sent st (sent st ++ [req])%list).

(** *** [applyAuth] *)

Definition applyAuth (c : Client) (req : Request) : Client * Request :=
  let c :=
    match authType c with
    | None => with_authType c (Some AuthTypeBasic)
    | Some _ => c
    end in
  let t := AuthType_String (default "" (authType c)) in
  let req :=
    if String.eqb t AuthTypeMTLS then
      if negb (String.eqb (token c) "") then
        with_header req (Header_Add (ReqHeader req) "Authorization" ("Bearer " ++ token c))
      else req
    else if String.eqb t AuthTypeBearer then
      with_header req (Header_Add (ReqHeader req) "Authorization" ("Bearer " ++ token c))
    else if String.eqb t AuthTypeBasic then
      SetBasicAuth req (login c) (token c)
    else req in
  (c, req).

(** *** [DownloadAttachment] *)

Definition DownloadAttachment (env : Env) (url destPath : string) (st : State)
  : option error * State :=
  match http_NewRequest env "GET" url "" with
  | Err err => (Some err, st)
  | Ok req =>
      let '(c, req) := applyAuth (client st) req in
      let st := with_client st c in
      match httpClient_Do env req st with
      | (Err err, st) => (Some err, st)
      | (Ok res, st) =>
          if negb (StatusCode res =? StatusOK) then
            (Some (Errorf ("failed to download attachment: " ++ Status res)), st)
          else
            match os_Create_err env destPath with
            | Some err => (Some err, st)
            | None =>
                let st := with_files st (<[destPath := ""]> (files st)) in
                match io_Copy_to_file_err env destPath (Body res) with
                | Some (written, err) =>
                    (Some err,
                     with_files st
                       (<[destPath := substring 0 written (Body res)]> (files st)))
                | None =>
                    (None, with_files st (<[destPath := Body res]> (files st)))
                end
            end
      end
  end.

(** *** Upload *)

(** Modelled from the spec: [formatUnexpectedResponse] is outside the files
    at hand; the error it builds carries the status and the structured error
    messages the server provided. *)
Definition formatUnexpectedResponse (env : Env) (res : Response) : error :=
  ErrUnexpectedResponse (json_Decode_errors env (Body res)) (Status res) (StatusCode res).

Definition postWithHeaders (env : Env) (endpoint body : string)
    (headers : gmap string string) (st : State)
  : (option Response * option error) * State :=
  match http_NewRequest env "POST" endpoint body with
  | Err err => ((None, Some err), st)
  | Ok req =>
      let req :=
        with_header req
          (map_fold (fun k v h => Header_Set h k v) (ReqHeader req) headers) in
      let '(c, req) := applyAuth (client st) req in
      let st := with_client st c in
      match httpClient_Do env req st with
      | (Err err, st) => ((None, Some err), st)
      | (Ok res, st) => ((Some res, None), st)
      end
  end.

Definition uploadAttachment (env : Env) (key filePath ver : string) (st : State)
  : (list Attachment * option error) * State :=
  match os_Open_err env filePath with
  | Some err => (([], Some err), st)
  | None =>
  match multipart_CreateFormFile_err env "file" (filepath_Base env filePath) with
  | Some err => (([], Some err), st)
  | None =>
  match io_Copy_from_file env filePath with
  | Err err => (([], Some err), st)
  | Ok content =>
  match multipart_Close_err env with
  | Some err => (([], Some err), st)
  | None =>
      let body := multipart_body env "file" (filepath_Base env filePath) content in
      let path := "/issue/" ++ key ++ "/attachments" in
      let headers : gmap string string :=
        <["Content-Type" := multipart_FormDataContentType env]>
          (<["X-Atlassian-Token" := "no-check"]> ∅) in
      let '((res, err), st) :=
        if String.eqb ver apiVersion2 then
          postWithHeaders env (server (client st) ++ baseURLv2 ++ path) body headers st
        else
          postWithHeaders env (server (client st) ++ baseURLv3 ++ path) body headers st in
      match err with
      | Some err => (([], Some err), st)
      | None =>
      match res with
      | None => (([], Some ErrEmptyResponse), st)
      | Some res =>
          if negb (StatusCode res =? StatusOK) then
            (([], Some (formatUnexpectedResponse env res)), st)
          else
            match json_Decode_attachments env (Body res) with
            | Err err => (([], Some err), st)
            | Ok attachments => ((attachments, None), st)
            end
      end
      end
  end
  end
  end
  end.

Definition UploadAttachment (env : Env) (key filePath : string) (st : State) :=
  uploadAttachment env key filePath apiVersion3 st.

Definition UploadAttachmentV2 (env : Env) (key filePath : string) (st : State) :=
  uploadAttachment env key filePath apiVersion2 st.

(** *** Delete *)

(** Modelled from the spec: the method [request] is outside the files at
    hand; it issues an authenticated request of the given method to the
    given endpoint and returns the response and the error of the transport. *)
Definition request (env : Env) (method endpoint : string) (st : State)
  : (option Response * option error) * State :=
  let req := {| Method := method; URL := endpoint; ReqHeader := ∅; ReqBody := "" |} in
  let '(c, req) := applyAuth (client st) req in
  let st := with_client st c in
  (client_request env req, with_sent st (sent st ++ [req])%list).

(** Modelled from the spec: [DeleteV2] is outside the files at hand; it is
    the v2 request helper, which prefixes the path with the server and the
    v2 base path. *)
Definition DeleteV2 (env : Env) (path : string) (st : State) :=
  request env "DELETE" (server (client st) ++ baseURLv2 ++ path) st.

Definition delete (env : Env) (endpoint : string) (st : State) :=
  request env "DELETE" endpoint st.

Definition deleteAttachment (env : Env) (attachmentID ver : string) (st : State)
  : option error * State :=
  let path := "/attachment/" ++ attachmentID in
  let '((res, err), st) :=
    if String.eqb ver apiVersion2 then DeleteV2 env path st
    else delete env (server (client st) ++ baseURLv3 ++ path) st in
  match err with
  | Some err => (Some err, st)
  | None =>
      match res with
      | None => (Some ErrEmptyResponse, st)
      | Some res =>
          if negb (StatusCode res =? StatusNoContent) && negb (StatusCode res =? StatusOK)
          then (Some (formatUnexpectedResponse env res), st)
          else (None, st)
      end
  end.

Definition DeleteAttachment (env : Env) (attachmentID : string) (st : State) :=
  deleteAttachment env attachmentID apiVersion3 st.

Definition DeleteAttachmentV2 (env : Env) (attachmentID : string) (st : State) :=
  deleteAttachment env attachmentID apiVersion2 st.

End Jira.

(** ** Package [api]: the installation-aware proxies *)

Module Api.
Import Go Jira.

(** Modelled from the spec: the installation constants are declared outside
    the files at hand; the specification names the flavors cloud and
    local. *)
Definition InstallationTypeCloud : string := "cloud".
Definition InstallationTypeLocal : string := "local".

(** Modelled from the spec: [ProxyUploadAttachment] is outside the files at
    hand (only its test is); the API generation is selected by the
    configured installation flavor, v2 for local and v3 otherwise, also when
    the flavor is unset. *)
Definition ProxyUploadAttachment (env : Env) (installation key filePath : string)
    (st : State) :=
  if String.eqb installation InstallationTypeLocal
  then UploadAttachmentV2 env key filePath st
  else UploadAttachment env key filePath st.

(** Modelled from the spec: [ProxyDeleteAttachment], as above. *)
Definition ProxyDeleteAttachment (env : Env) (installation attachmentID : string)
    (st : State) :=
  if String.eqb installation InstallationTypeLocal
  then DeleteAttachmentV2 env attachmentID st
  else DeleteAttachment env attachmentID st.

End Api.

(** ** Package [list]: rendering *)

Module ListCmd.
Import Go Jira.

Definition KB : Z := 1024.
Definition MB : Z := KB * 1024.
Definition GB : Z := MB * 1024.

Definition formatSize (bytes : Z) : string :=
  if GB <=? bytes then Sprintf_2f_quot (float64_of_int64 bytes) GB ++ " GB"
  else if MB <=? bytes then Sprintf_2f_quot (float64_of_int64 bytes) MB ++ " MB"
  else if KB <=? bytes then Sprintf_2f_quot (float64_of_int64 bytes) KB ++ " KB"
  else Sprintf_d bytes ++ " B".

(** [None] would be the panic of the slice expression. *)
Definition formatDate (date : string) : option string :=
  if (10 <? String.length date)%nat then slice_to date 10 else Some date.

(** The loop ranges over the runes of [s].  The three characters tested are
    ASCII, and in UTF-8 a byte below 128 never occurs inside the encoding of
    another rune (nor does an invalid byte decode to one of them), so the
    test over runes and the test over bytes agree. *)
Fixpoint containsSpecialChar (s : string) : bool :=
  match s with
  | EmptyString => false
  | String ch rest =>
      if Ascii.eqb ch "," || Ascii.eqb ch DQUOTE || Ascii.eqb ch LF then true
      else containsSpecialChar rest
  end.

Definition escapeCSV (s : string) : string :=
  if containsSpecialChar s then dquote ++ s ++ dquote else s.

Definition renderCSV (w : Writer) (attachments : list Attachment) : Writer :=
  let w := Fprintf w ("ID,FILENAME,SIZE,AUTHOR,CREATED" ++ nl) in
  foldl
    (fun w a =>
       Fprintf w
         (ID a ++ "," ++ escapeCSV (Filename a) ++ "," ++ Sprintf_d (Size a)
          ++ "," ++ escapeCSV (DisplayName (Author a)) ++ "," ++ Created a
          ++ nl))
    w attachments.

End ListCmd.

(** ** Package [download]: the download command *)

Module DownloadCmd.
Import Go Jira.

Record downloadParams := {
  issueKey : string;
  filename : string;
  all : bool;
  id : string;
  outputDir : string;
  debug : bool
}.

(** Modelled from the spec: [cmdutil.Failed] and [cmdutil.ExitIfError] are
    outside the files at hand; any error terminates the process with a
    non-zero status and a human-readable message.  [Failed] keeps the format
    and its arguments, [OnError] the error that ended the run. *)
Inductive exit :=
| Failed (format : string) (args : list string)
| OnError (e : error).

(** A step of the command either goes on with a value or ends the process. *)
Inductive outcome (A : Type) :=
| Goes (a : A)
| Exits (x : exit).
Arguments Goes {A} a.
Arguments Exits {A} x.

(** What the collaborators of the command answer: the issue fetch
    ([api.ProxyGetIssue], of which only the attachments of the issue are
    used), [os.MkdirAll] and [filepath.Join]. *)
Record CmdEnv := {
  jira_env : Env;
  ProxyGetIssue : string -> result (list Attachment);
  os_MkdirAll_err : string -> option error;
  filepath_Join : string -> string -> string
}.

(** [os.Stat(path)] returns a [nil] error: the path exists. *)
Definition os_Stat_ok (st : State) (path : string) : bool :=
  bool_decide (is_Some (files st !! path)) || bool_decide (path ∈ dirs st).

Fixpoint findAttachmentByID (attachments : list Attachment) (id : string)
  : outcome (list Attachment) :=
  match attachments with
  | [] => Exits (Failed "Attachment with ID %q not found" [id])
  | a :: rest =>
      if String.eqb (ID a) id then Goes [a] else findAttachmentByID rest id
  end.

Fixpoint findAttachmentByFilename (attachments : list Attachment) (filename : string)
  : outcome (list Attachment) :=
  match attachments with
  | [] => Exits (Failed "Attachment with filename %q not found" [filename])
  | a :: rest =>
      if String.eqb (Filename a) filename then Goes [a]
      else findAttachmentByFilename rest filename
  end.

(** The loop over [attachmentsToDownload]. *)
Fixpoint downloadEach (cenv : CmdEnv) (outputDir : string)
    (attachmentsToDownload : list Attachment) (st : State) : outcome unit * State :=
  match attachmentsToDownload with
  | [] => (Goes tt, st)
  | a :: rest =>
      let destPath := filepath_Join cenv outputDir (Filename a) in
      if os_Stat_ok st destPath then
        (Exits (Failed
                  "File %q already exists. Please remove it or use a different output directory"
                  [destPath]), st)
      else
        match DownloadAttachment (jira_env cenv) (Content a) destPath st with
        | (Some err, st) => (Exits (OnError err), st)
        | (None, st) => downloadEach cenv outputDir rest st
        end
  end.

Definition download (cenv : CmdEnv) (params : downloadParams) (st : State)
  : outcome unit * State :=
  if String.eqb (issueKey params) "" then
    (Exits (Failed "ISSUE-KEY is required" []), st)
  else
    match ProxyGetIssue cenv (issueKey params) with
    | Err err => (Exits (OnError err), st)
    | Ok attachments =>
        if (length attachments =? 0)%nat then
          (Exits (Failed "No attachments found for issue %q" [issueKey params]), st)
        else
          let created :=
            if negb (String.eqb (outputDir params) ".") then
              match os_MkdirAll_err cenv (outputDir params) with
              | Some err => Exits (OnError err)
              | None => Goes (with_dirs st ({[outputDir params]} ∪ dirs st))
              end
            else Goes st in
          match created with
          | Exits x => (Exits x, st)
          | Goes st =>
              let attachmentsToDownload :=
                if all params then Goes attachments
                else if negb (String.eqb (id params) "") then
                  findAttachmentByID attachments (id params)
                else if negb (String.eqb (filename params) "") then
                  findAttachmentByFilename attachments (filename params)
                else Exits (Failed "Please specify --all, --id, or provide a filename" []) in
              match attachmentsToDownload with
              | Exits x => (Exits x, st)
              | Goes l => downloadEach cenv (outputDir params) l st
              end
          end
    end.

End DownloadCmd.

(** ** The aligned renderers of package [list] *)

Module ListTable.
Import Go Jira ListCmd.

(** The horizontal tab, Go's ['\t']. *)
Definition TAB : string := String (ascii_of_nat 9) "".

(** The line both aligned renderers write for one attachment, before
    alignment; [None] would be the panic of [formatDate]. *)
Definition row (a : Attachment) : option string :=
  date ← formatDate (Created a);
  Some (ID a ++ TAB ++ Filename a ++ TAB ++ formatSize (Size a) ++ TAB
        ++ DisplayName (Author a) ++ TAB ++ date ++ nl).

(** The loop of both renderers: the rows go to the tabwriter [tw] one after
    the other. *)
Fixpoint rows (tw : Writer) (attachments : list Attachment) : option Writer :=
  match attachments with
  | [] => Some tw
  | a :: rest => line ← row a; rows (Fprintf tw line) rest
  end.

(** [tabwriter] stands for [text/tabwriter] with the settings of
    [tabwriter.NewWriter(w, 0, 8, 1, '\t', 0)]: the bytes it has written to
    its output once the text handed to it is flushed. *)
Definition renderTable (tabwriter : string -> string) (w : Writer)
    (attachments : list Attachment) : option Writer :=
  let tw := Fprintf "" ("ID" ++ TAB ++ "FILENAME" ++ TAB ++ "SIZE" ++ TAB
                        ++ "AUTHOR" ++ TAB ++ "CREATED" ++ nl) in
  tw ← rows tw attachments;
  Some (w ++ tabwriter tw).

Definition renderPlain (tabwriter : string -> string) (w : Writer)
    (attachments : list Attachment) : option Writer :=
  let tw := "" in
  tw ← rows tw attachments;
  Some (w ++ tabwriter tw).

End ListTable.

(** ** What the commands share *)

Module Cli.
Import Go Jira DownloadCmd.

(** What a command shows on the terminal: the spinner text of
    [cmdutil.Info], the message of [cmdutil.Success] (format and arguments)
    and the text written to the standard output. *)
Inductive shown :=
| Info (message : string)
| Success (format : string) (args : list string)
| Stdout (text : string).

(** The flags of a command, [query.FlagParser]: each getter returns a value
    or an error. *)
Record FlagParser := {
  GetBool : string -> result bool;
  GetString : string -> result string
}.

(** The collaborators of the commands, outside the files at hand: the
    configuration ([viper]), [cmdutil.GetJiraIssueKey],
    [cmdutil.GenerateServerBrowseURL], the existence test of the [add]
    command ([os.IsNotExist] of the error of [os.Stat]), the prompt
    ([survey.Ask], which answers with an error or the option chosen), the
    two options of [cmdcommon], and the tabwriter. *)
Record Collaborators := {
  cmd_env : CmdEnv;
  project_key : string;
  GetJiraIssueKey : string -> string -> string;
  installation : string;
  viper_server : string;
  GenerateServerBrowseURL : string -> string -> string;
  os_Stat_IsNotExist : string -> bool;
  survey_Ask : string -> list string -> list string -> result string;
  ActionSubmit : string;
  ActionCancel : string;
  tabwriter : string -> string
}.

(** The state of a run: the state of the transport, the issues fetched and
    what was shown, in order. *)
Record Run := {
  world : State;
  fetched : list string;
  terminal : list shown
}.

Definition with_world (r : Run) (st : State) : Run :=
  {| world := st; fetched := fetched r; terminal := terminal r |}.

Definition show (r : Run) (x : shown) : Run :=
  {| world := world r; fetched := fetched r; terminal := (terminal r ++ [x])%list |}.

(** [api.ProxyGetIssue(client, key)], of which the attachments are used. *)
Definition fetchIssue (co : Collaborators) (key : string) (r : Run)
  : result (list Attachment) * Run :=
  (ProxyGetIssue (cmd_env co) key,
   {| world := world r; fetched := (fetched r ++ [key])%list; terminal := terminal r |}).

(** The issue key of a command line: [cmdutil.GetJiraIssueKey] of the first
    argument when there is one. *)
Definition issueKey_of (co : Collaborators) (args : list string) : string :=
  match args with
  | [] => ""
  | a0 :: _ => GetJiraIssueKey co (project_key co) a0
  end.

End Cli.

(** ** Package [list]: the command *)

Module ListRun.
Import Go Jira ListCmd ListTable DownloadCmd Cli.

Record listParams := {
  issueKey : string;
  plain : bool;
  csv : bool;
  debug : bool
}.

Definition parseArgsAndFlags (co : Collaborators) (args : list string)
    (flags : FlagParser) : outcome listParams :=
  let issueKey := issueKey_of co args in
  match GetBool flags "debug" with
  | Err err => Exits (OnError err)
  | Ok debug =>
  match GetBool flags "plain" with
  | Err err => Exits (OnError err)
  | Ok plain =>
  match GetBool flags "csv" with
  | Err err => Exits (OnError err)
  | Ok csv =>
      Goes {| issueKey := issueKey; plain := plain; csv := csv; debug := debug |}
  end
  end
  end.

(** The function [list] after its arguments are parsed; [None] would be a
    panic of a renderer. *)
Definition list_ (co : Collaborators) (params : listParams) (r : Run)
  : option (outcome unit * Run) :=
  if String.eqb (issueKey params) "" then
    Some (Exits (Failed "ISSUE-KEY is required" []), r)
  else
    match fetchIssue co (issueKey params) r with
    | (Err err, r) => Some (Exits (OnError err), r)
    | (Ok attachments, r) =>
        if (length attachments =? 0)%nat then
          Some (Goes tt,
                show r (Success "No attachments found for issue %q" [issueKey params]))
        else if csv params then
          Some (Goes tt, show r (Stdout (renderCSV "" attachments)))
        else if plain params then
          out ← renderPlain (tabwriter co) "" attachments;
          Some (Goes tt, show r (Stdout out))
        else
          out ← renderTable (tabwriter co) "" attachments;
          Some (Goes tt, show r (Stdout out))
    end.

End ListRun.

(** ** Package [download]: the arguments *)

Module DownloadArgs.
Import Go Jira DownloadCmd Cli.

Definition parseArgsAndFlags (co : Collaborators) (args : list string)
    (flags : FlagParser) : outcome downloadParams :=
  let issueKey := issueKey_of co args in
  let filename :=
    match args with
    | _ :: a1 :: _ => a1
    | _ => ""
    end in
  match GetBool flags "debug" with
  | Err err => Exits (OnError err)
  | Ok debug =>
  match GetBool flags "all" with
  | Err err => Exits (OnError err)
  | Ok all =>
  match GetString flags "id" with
  | Err err => Exits (OnError err)
  | Ok id =>
  match GetString flags "output" with
  | Err err => Exits (OnError err)
  | Ok outputDir =>
      Goes {| issueKey := issueKey; filename := filename; all := all; id := id;
              outputDir := outputDir; debug := debug |}
  end
  end
  end
  end.

(** The function [download] as the command line runs it: the arguments are
    parsed and the command goes on with the parameters. *)
Definition run (co : Collaborators) (args : list string) (flags : FlagParser)
    (st : State) : outcome unit * State :=
  match parseArgsAndFlags co args flags with
  | Exits x => (Exits x, st)
  | Goes params => download (cmd_env co) params st
  end.

End DownloadArgs.

(** ** Package [add] *)

Module AddCmd.
Import Go Jira Api DownloadCmd Cli.

Record addParams := {
  issueKey : string;
  files : list string;
  noInput : bool;
  debug : bool
}.

Definition parseArgsAndFlags (co : Collaborators) (args : list string)
    (flags : FlagParser) : outcome addParams :=
  let issueKey := issueKey_of co args in
  let files :=
    match args with
    | _ :: (_ :: _) as rest => rest
    | _ => []
    end in
  match GetBool flags "debug" with
  | Err err => Exits (OnError err)
  | Ok debug =>
  match GetBool flags "no-input" with
  | Err err => Exits (OnError err)
  | Ok noInput =>
      Goes {| issueKey := issueKey; files := files; noInput := noInput;
              debug := debug |}
  end
  end.

(** The loop that validates that all files exist. *)
Fixpoint validate (co : Collaborators) (files : list string) : outcome unit :=
  match files with
  | [] => Goes tt
  | file :: rest =>
      if os_Stat_IsNotExist co file then Exits (Failed "File %q does not exist" [file])
      else validate co rest
  end.

(** The list of files shown in the prompt. *)
Fixpoint fileList (files : list string) : string :=
  match files with
  | [] => ""
  | file :: rest => ("  - " ++ file ++ nl) ++ fileList rest
  end.

(** The confirmation, unless [--no-input] is set.  The prompt is kept as
    its format and arguments. *)
Definition confirm (co : Collaborators) (params : addParams) : outcome unit :=
  if negb (noInput params) then
    match survey_Ask co ("Upload %d file(s) to %s?" ++ nl ++ "%s")
            [Sprintf_d (Z.of_nat (length (files params))); issueKey params;
             fileList (files params)]
            [ActionSubmit co; ActionCancel co] with
    | Err err => Exits (OnError err)
    | Ok action =>
        if String.eqb action (ActionCancel co) then Exits (Failed "Action aborted" [])
        else Goes tt
    end
  else Goes tt.

(** The loop that uploads each file. *)
Fixpoint uploadEach (co : Collaborators) (issueKey : string) (files : list string)
    (r : Run) : outcome unit * Run :=
  match files with
  | [] => (Goes tt, r)
  | file :: rest =>
      let r := show r (Info ("Uploading " ++ file)) in
      match ProxyUploadAttachment (jira_env (cmd_env co)) (installation co)
              issueKey file (world r) with
      | ((_, Some err), st) => (Exits (OnError err), with_world r st)
      | ((_, None), st) =>
          uploadEach co issueKey rest
            (show (with_world r st) (Success "Uploaded %q to issue %q" [file; issueKey]))
      end
  end.

(** The function [add] after its arguments are parsed. *)
Definition add (co : Collaborators) (params : addParams) (r : Run)
  : outcome unit * Run :=
  if String.eqb (issueKey params) "" then
    (Exits (Failed "ISSUE-KEY is required" []), r)
  else if (length (files params) =? 0)%nat then
    (Exits (Failed "At least one file path is required" []), r)
  else
    match validate co (files params) with
    | Exits x => (Exits x, r)
    | Goes _ =>
        match confirm co params with
        | Exits x => (Exits x, r)
        | Goes _ =>
            match uploadEach co (issueKey params) (files params) r with
            | (Exits x, r) => (Exits x, r)
            | (Goes _, r) =>
                (Goes tt,
                 show r (Stdout (GenerateServerBrowseURL co (viper_server co)
                                   (issueKey params) ++ nl)))
            end
        end
    end.

End AddCmd.

(** ** Package [remove] *)

Module RemoveCmd.
Import Go Jira Api DownloadCmd Cli.

Record removeParams := {
  issueKey : string;
  attachmentID : string;
  noInput : bool;
  debug : bool
}.

Definition parseArgsAndFlags (co : Collaborators) (args : list string)
    (flags : FlagParser) : outcome removeParams :=
  let issueKey := issueKey_of co args in
  let attachmentID :=
    match args with
    | _ :: a1 :: _ => a1
    | _ => ""
    end in
  match GetBool flags "debug" with
  | Err err => Exits (OnError err)
  | Ok debug =>
  match GetBool flags "no-input" with
  | Err err => Exits (OnError err)
  | Ok noInput =>
      Goes {| issueKey := issueKey; attachmentID := attachmentID;
              noInput := noInput; debug := debug |}
  end
  end.

(** The loop that looks the attachment up: the filename of the first
    attachment with the ID, when there is one. *)
Fixpoint lookup_filename (attachments : list Attachment) (attachmentID : string)
  : option string :=
  match attachments with
  | [] => None
  | a :: rest =>
      if String.eqb (ID a) attachmentID then Some (Filename a)
      else lookup_filename rest attachmentID
  end.

Definition confirm (co : Collaborators) (params : removeParams)
    (attachmentFilename : string) : outcome unit :=
  if negb (noInput params) then
    match survey_Ask co "Delete attachment %q (ID: %s) from %s?"
            [attachmentFilename; attachmentID params; issueKey params]
            [ActionSubmit co; ActionCancel co] with
    | Err err => Exits (OnError err)
    | Ok action =>
        if String.eqb action (ActionCancel co) then Exits (Failed "Action aborted" [])
        else Goes tt
    end
  else Goes tt.

(** The function [remove] after its arguments are parsed. *)
Definition remove (co : Collaborators) (params : removeParams) (r : Run)
  : outcome unit * Run :=
  if String.eqb (issueKey params) "" then
    (Exits (Failed "ISSUE-KEY is required" []), r)
  else if String.eqb (attachmentID params) "" then
    (Exits (Failed "ATTACHMENT-ID is required" []), r)
  else
    match fetchIssue co (issueKey params) r with
    | (Err err, r) => (Exits (OnError err), r)
    | (Ok attachments, r) =>
        match lookup_filename attachments (attachmentID params) with
        | None =>
            (Exits (Failed "Attachment with ID %q not found on issue %q"
                      [attachmentID params; issueKey params]), r)
        | Some attachmentFilename =>
            match confirm co params attachmentFilename with
            | Exits x => (Exits x, r)
            | Goes _ =>
                let r := show r (Info ("Deleting attachment " ++ attachmentFilename)) in
                match ProxyDeleteAttachment (jira_env (cmd_env co)) (installation co)
                        (attachmentID params) (world r) with
                | (Some err, st) => (Exits (OnError err), with_world r st)
                | (None, st) =>
                    let r := show (with_world r st)
                               (Success "Deleted attachment %q from issue %q"
                                  [attachmentFilename; issueKey params]) in
                    (Goes tt,
                     show r (Stdout (GenerateServerBrowseURL co (viper_server co)
                                       (issueKey params) ++ nl)))
                end
            end
        end
    end.

End RemoveCmd.

(** ** Sample data, from the tests of the repository *)

Module Samples.
Import Go Jira DownloadCmd.

Definition document : Attachment :=
  {| ID := "10001"; Filename := "document.pdf";
     Author := {| DisplayName := "John Doe"; AccountID := ""; Name := "" |};
     Created := "2020-12-01T10:00:00.000+0100"; Size := 1048576;
     MimeType := ""; Content := "https://example.com/attachment/10001" |}.

Definition comma_file : Attachment :=
  {| ID := "10002"; Filename := "file, with comma.txt";
     Author := {| DisplayName := "Jane Smith"; AccountID := ""; Name := "" |};
     Created := "2020-12-02T15:30:00.000+0100"; Size := 524288;
     MimeType := ""; Content := "https://example.com/attachment/10002" |}.

(** A second attachment with the filename of [document]. *)
Definition document_again : Attachment :=
  {| ID := "10003"; Filename := "document.pdf";
     Author := {| DisplayName := "Jane Smith"; AccountID := ""; Name := "" |};
     Created := "2020-12-03T08:00:00.000+0100"; Size := 7;
     MimeType := ""; Content := "https://example.com/attachment/10003" |}.

(** The client of the tests: login and token, authentication mode unset. *)
Definition test_client : Client :=
  {| server := "http://127.0.0.1"; login := "test"; token := "token"; authType := None |}.

Definition start : State :=
  {| client := test_client; files := ∅; dirs := ∅; sent := [] |}.

(** A world in which the local steps succeed, the server answers every
    request with [answer] and the decoders answer [decoded] and no error
    message. *)
Definition world (answer : result Response)
    (both : option Response * option error)
    (decoded : result (list Attachment)) : Env :=
  {| http_NewRequest_err := fun _ _ => None;
     http_Do := fun _ => answer;
     client_request := fun _ => both;
     os_Create_err := fun _ => None;
     io_Copy_to_file_err := fun _ _ => None;
     os_Open_err := fun _ => None;
     io_Copy_from_file := fun _ => Ok "test content";
     filepath_Base := fun p => p;
     multipart_CreateFormFile_err := fun _ _ => None;
     multipart_Close_err := None;
     multipart_body := fun _ _ content => content;
     multipart_FormDataContentType := "multipart/form-data; boundary=b";
     json_Decode_attachments := fun _ => decoded;
     json_Decode_errors := fun _ => [] |}.

Definition reply (code : Z) (status body : string) : Response :=
  {| Status := status; StatusCode := code; Body := body |}.

(** The world [env] with a disk on which file creation answers [create] and
    the copy into a file answers [copy]. *)
Definition with_disk (env : Env) (create : option error)
    (copy : option (nat * error)) : Env :=
  {| http_NewRequest_err := http_NewRequest_err env;
     http_Do := http_Do env;
     client_request := client_request env;
     os_Create_err := fun _ => create;
     io_Copy_to_file_err := fun _ _ => copy;
     os_Open_err := os_Open_err env;
     io_Copy_from_file := io_Copy_from_file env;
     filepath_Base := filepath_Base env;
     multipart_CreateFormFile_err := multipart_CreateFormFile_err env;
     multipart_Close_err := multipart_Close_err env;
     multipart_body := multipart_body env;
     multipart_FormDataContentType := multipart_FormDataContentType env;
     json_Decode_attachments := json_Decode_attachments env;
     json_Decode_errors := json_Decode_errors env |}.

(** The server of the download tests: it answers 200 with the test content,
    or 404. *)
Definition serving : Env :=
  world (Ok (reply 200 "200 OK" "This is test attachment content")) (None, None) (Ok []).

Definition missing : Env :=
  world (Ok (reply 404 "404 Not Found" "")) (None, None) (Ok []).

(** The world [env] in which opening a file for reading answers [open]. *)
Definition with_open (env : Env) (open : option error) : Env :=
  {| http_NewRequest_err := http_NewRequest_err env;
     http_Do := http_Do env;
     client_request := client_request env;
     os_Create_err := os_Create_err env;
     io_Copy_to_file_err := io_Copy_to_file_err env;
     os_Open_err := fun _ => open;
     io_Copy_from_file := io_Copy_from_file env;
     filepath_Base := filepath_Base env;
     multipart_CreateFormFile_err := multipart_CreateFormFile_err env;
     multipart_Close_err := multipart_Close_err env;
     multipart_body := multipart_body env;
     multipart_FormDataContentType := multipart_FormDataContentType env;
     json_Decode_attachments := json_Decode_attachments env;
     json_Decode_errors := json_Decode_errors env |}.

(** The attachment the upload tests get back. *)
Definition uploaded : Attachment :=
  {| ID := "10001"; Filename := "test.txt";
     Author := {| DisplayName := "Test User"; AccountID := "123"; Name := "" |};
     Created := "2020-12-03T14:05:20.974+0100"; Size := 12;
     MimeType := "text/plain"; Content := "http://example.com/attachment/10001" |}.

(** The server of the upload tests. *)
Definition accepting : Env :=
  world (Ok (reply 200 "200 OK" "[...]")) (None, None) (Ok [uploaded]).

(** An issue with three attachments, two of which share a filename. *)
Definition tracker : CmdEnv :=
  {| jira_env := serving;
     ProxyGetIssue := fun _ => Ok [document; comma_file; document_again];
     os_MkdirAll_err := fun _ => None;
     filepath_Join := fun dir name =>
       if String.eqb dir "." then name else dir ++ "/" ++ name |}.

(** The command line [download TEST-1 NAME]. *)
Definition asking (name : string) : downloadParams :=
  {| issueKey := "TEST-1"; filename := name; all := false; id := "";
     outputDir := "."; debug := false |}.

(** The command line [download TEST-1 --all --output DIR]. *)
Definition asking_all (dir : string) : downloadParams :=
  {| issueKey := "TEST-1"; filename := ""; all := true; id := "";
     outputDir := dir; debug := false |}.

(** An issue with two attachments of different filenames. *)
Definition two_files : CmdEnv :=
  {| jira_env := serving;
     ProxyGetIssue := fun _ => Ok [document; comma_file];
     os_MkdirAll_err := fun _ => None;
     filepath_Join := fun dir name =>
       if String.eqb dir "." then name else dir ++ "/" ++ name |}.

(** The collaborators of a run against [cenv], with a user who answers the
    prompt by [answer], files for which [missing] holds absent, and a
    tabwriter that leaves the text as it is. *)
Definition desk (cenv : CmdEnv) (answer : result string) (missing : string -> bool)
  : Cli.Collaborators :=
  {| Cli.cmd_env := cenv;
     Cli.project_key := "TEST";
     Cli.GetJiraIssueKey := fun _ key => key;
     Cli.installation := "";
     Cli.viper_server := "http://127.0.0.1";
     Cli.GenerateServerBrowseURL := fun server key => server ++ "/browse/" ++ key;
     Cli.os_Stat_IsNotExist := missing;
     Cli.survey_Ask := fun _ _ _ => answer;
     Cli.ActionSubmit := "Submit";
     Cli.ActionCancel := "Cancel";
     Cli.tabwriter := fun text => text |}.

(** The tracker of the upload tests, holding the issue of [tracker]. *)
Definition upload_tracker : CmdEnv :=
  {| jira_env := accepting;
     ProxyGetIssue := fun _ => Ok [document; comma_file; document_again];
     os_MkdirAll_err := fun _ => None;
     filepath_Join := fun dir name =>
       if String.eqb dir "." then name else dir ++ "/" ++ name |}.

Definition fresh : Cli.Run :=
  {| Cli.world := start; Cli.fetched := []; Cli.terminal := [] |}.

(** Flags that all read as unset. *)
Definition no_flags : Cli.FlagParser :=
  {| Cli.GetBool := fun _ => Ok false; Cli.GetString := fun _ => Ok "" |}.

End Samples.

(** ** Specification-side vocabulary

    These definitions say what the claims about the renderers mean; the
    theorems below relate them to the functions translated from the code. *)

Module Spec.
Import Go Jira Api DownloadCmd.

(** One of the three characters that make a CSV field need quoting. *)
Definition special (c : ascii) : Prop := c = ","%char \/ c = DQUOTE \/ c = LF.

Definition has_special (s : string) : Prop :=
  exists c, In c (list_ascii_of_string s) /\ special c.

(** [s] is the numeral of [q / 100] written with exactly two decimals:
    the integer part, a point, and the two digits [d1], [d2] of [q]. *)
Definition two_decimals (q : Z) (s : string) : Prop :=
  exists ip d1 d2,
    0 <= ip /\ 0 <= d1 <= 9 /\ 0 <= d2 <= 9 /\ q = 100 * ip + 10 * d1 + d2 /\
    s = Sprintf_d ip ++ "." ++ String (digit d1) (String (digit d2) "").

(** [q] is an integer nearest to the rational [n / d]. *)
Definition nearest (q n d : Z) : Prop := 2 * Z.abs (d * q - n) <= d.

(** The CSV record of one attachment, as the specification words it. *)
Definition csv_line (a : Attachment) : string :=
  ID a ++ "," ++ ListCmd.escapeCSV (Filename a) ++ "," ++ Sprintf_d (Size a)
  ++ "," ++ ListCmd.escapeCSV (DisplayName (Author a)) ++ "," ++ Created a
  ++ nl.

Definition csv_header : string := "ID,FILENAME,SIZE,AUTHOR,CREATED" ++ nl.

(** The records of a sequence of attachments, one after the other. *)
Definition csv_body (attachments : list Attachment) : string :=
  foldr (fun a rest => csv_line a ++ rest) "" attachments.

(** The REST base path of an installation flavor: the v2 path for local,
    the v3 path otherwise. *)
Definition api_base (installation : string) : string :=
  if String.eqb installation InstallationTypeLocal then "/rest/api/2" else "/rest/api/3".

(** The API version tag the proxies pass on for an installation flavor. *)
Definition api_version (installation : string) : string :=
  if String.eqb installation InstallationTypeLocal then apiVersion2 else apiVersion3.

(** The local steps of an upload: opening the file, building the multipart
    message and building the request. *)
Definition upload_prepared (env : Env) (key filePath ver : string) (st : State) : Prop :=
  os_Open_err env filePath = None /\
  multipart_CreateFormFile_err env "file" (filepath_Base env filePath) = None /\
  (exists content, io_Copy_from_file env filePath = Ok content) /\
  multipart_Close_err env = None /\
  http_NewRequest_err env "POST"
    (server (client st)
     ++ (if String.eqb ver apiVersion2 then baseURLv2 else baseURLv3)
     ++ "/issue/" ++ key ++ "/attachments") = None.

(** The number of line feeds in a string. *)
Fixpoint count_LF (s : string) : nat :=
  match s with
  | EmptyString => 0
  | String c rest => (if Ascii.eqb c LF then 1 else 0) + count_LF rest
  end.

(** The line feeds inside the text fields of an attachment. *)
Definition field_LFs (a : Attachment) : nat :=
  count_LF (ID a) + count_LF (Filename a) + count_LF (DisplayName (Author a))
  + count_LF (Created a).

(** The attachment [a] is the one asked for: by ID when an ID is given, by
    filename otherwise. *)
Definition selected_by (params : downloadParams) (a : Attachment) : Prop :=
  if negb (String.eqb (id params) "") then ID a = id params
  else Filename a = filename params.

(** The state once the output directory is there. *)
Definition after_mkdir (params : downloadParams) (st : State) : State :=
  if negb (String.eqb (outputDir params) ".")
  then with_dirs st ({[outputDir params]} ∪ dirs st)
  else st.

End Spec.

(** * Theorems *)

Import Go Jira Api ListCmd DownloadCmd Spec.

(** ** Strings *)

Lemma append_cons (x : ascii) (a b : string) : String x a ++ b = String x (a ++ b).
Proof. reflexivity. Qed.

Lemma append_assoc (a b c : string) : (a ++ b) ++ c = a ++ (b ++ c).
Proof.
  induction a as [|x a IH]; [reflexivity|].
  rewrite !append_cons. now rewrite IH.
Qed.

Lemma append_nil_r (a : string) : a ++ "" = a.
Proof.
  induction a as [|x a IH]; [reflexivity|].
  rewrite append_cons. now rewrite IH.
Qed.

Lemma length_append (a b : string) :
  String.length (a ++ b) = (String.length a + String.length b)%nat.
Proof.
  induction a as [|x a IH]; [reflexivity|].
  rewrite append_cons. simpl. now rewrite IH.
Qed.

Lemma substring_prefix_length (s : string) (n : nat) :
  (n <= String.length s)%nat -> String.length (substring 0 n s) = n.
Proof.
  revert n. induction s as [|c s IH]; intros [|n] Hn; simpl in *; try lia.
  rewrite IH; lia.
Qed.

Lemma substring_prefix_split (s : string) (n : nat) :
  (n <= String.length s)%nat ->
  s = substring 0 n s ++ substring n (String.length s - n) s.
Proof.
  revert n. induction s as [|c s IH]; intros [|n] Hn; simpl in *; try lia.
  - reflexivity.
  - change (String c s = String c (substring 0 (String.length s) s)).
    f_equal. clear IH Hn. induction s as [|d s IHs]; simpl; [reflexivity|].
    now rewrite <- IHs.
  - rewrite append_cons. f_equal. apply IH. lia.
Qed.

(** ** [escapeCSV] *)

Lemma containsSpecialChar_spec (s : string) :
  containsSpecialChar s = true <-> has_special s.
Proof.
  unfold has_special, special. induction s as [|ch s IH]; simpl.
  - split; [discriminate | intros (c & [] & _)].
  - destruct (Ascii.eqb_spec ch ",") as [E1|N1];
      [|destruct (Ascii.eqb_spec ch DQUOTE) as [E2|N2];
        [|destruct (Ascii.eqb_spec ch LF) as [E3|N3]]]; simpl.
    1-3: split; [intros _; exists ch; split; [now left | tauto] | reflexivity].
    rewrite IH. split.
    + intros (c & Hin & Hc). exists c. split; [now right | exact Hc].
    + intros (c & [->|Hin] & Hc); [tauto | eauto].
Qed.

Lemma containsSpecialChar_false (s : string) :
  containsSpecialChar s = false <-> ~ has_special s.
Proof.
  rewrite <- containsSpecialChar_spec.
  destruct (containsSpecialChar s); split; congruence.
Qed.

(** C7. [escapeCSV s] is [s] between two double quotes exactly when [s]
    holds a comma, a double quote or a line feed, and the bytes of [s]
    (embedded quotes included) are copied unchanged between them; otherwise
    [escapeCSV s] is [s], so on such strings applying [escapeCSV] again
    changes nothing. *)
Theorem escapeCSV_spec (s : string) :
  (escapeCSV s = dquote ++ s ++ dquote <-> has_special s) /\
  (~ has_special s -> escapeCSV s = s) /\
  (~ has_special s -> escapeCSV (escapeCSV s) = escapeCSV s).
Proof.
  unfold escapeCSV. destruct (containsSpecialChar s) eqn:E.
  - apply containsSpecialChar_spec in E. repeat split; tauto.
  - pose proof E as E'. apply containsSpecialChar_false in E'.
    split; [split; [|tauto] | split; intros _; [reflexivity | now rewrite E]].
    intros H. apply (f_equal String.length) in H.
    rewrite !length_append in H. simpl in H. lia.
Qed.

Lemma escapeCSV_spec_witness :
  escapeCSV "normal text" = "normal text" /\
  escapeCSV (escapeCSV "normal text") = escapeCSV "normal text".
Proof.
  assert (H : ~ has_special "normal text")
    by (apply containsSpecialChar_false; reflexivity).
  split.
  - exact (proj1 (proj2 (escapeCSV_spec "normal text")) H).
  - exact (proj2 (proj2 (escapeCSV_spec "normal text")) H).
Defined.

Example escapeCSV_comma : escapeCSV "text, with comma" = dquote ++ "text, with comma" ++ dquote.
Proof. reflexivity. Qed.

Example escapeCSV_quote :
  escapeCSV ("text " ++ dquote ++ "quoted" ++ dquote)
  = dquote ++ "text " ++ dquote ++ "quoted" ++ dquote ++ dquote.
Proof. reflexivity. Qed.

Example escapeCSV_newline :
  escapeCSV ("text" ++ nl ++ "with newline") = dquote ++ "text" ++ nl ++ "with newline" ++ dquote.
Proof. reflexivity. Qed.

(** ** [formatDate] *)

(** C8. [formatDate s] is [s] when [s] has at most 10 bytes and the first
    10 bytes of [s] when it has more; the slice is always in range, so the
    function returns on every input. *)
Theorem formatDate_spec (s : string) :
  ((String.length s <= 10)%nat -> formatDate s = Some s) /\
  ((10 < String.length s)%nat ->
     exists rest, formatDate s = Some (substring 0 10 s) /\
                  s = substring 0 10 s ++ rest /\
                  String.length (substring 0 10 s) = 10%nat) /\
  formatDate s <> None.
Proof.
  unfold formatDate, slice_to.
  destruct (Nat.ltb_spec 10 (String.length s)) as [Hlt|Hle].
  - destruct (Nat.leb_spec 10 (String.length s)) as [_|Hbad]; [|lia].
    split; [lia | split; [|discriminate]].
    intros _. exists (substring 10 (String.length s - 10) s).
    split; [reflexivity | split].
    + apply substring_prefix_split. lia.
    + apply substring_prefix_length. lia.
  - split; [reflexivity | split; [lia | discriminate]].
Qed.

Lemma formatDate_spec_witness :
  formatDate "2020" = Some "2020" /\
  exists rest, formatDate "2020-12-01T10:00:00.000+0100" = Some "2020-12-01" /\
               "2020-12-01T10:00:00.000+0100" = "2020-12-01" ++ rest /\
               String.length "2020-12-01" = 10%nat.
Proof.
  split.
  - apply (proj1 (formatDate_spec "2020")). simpl. lia.
  - apply (proj1 (proj2 (formatDate_spec "2020-12-01T10:00:00.000+0100"))).
    simpl. lia.
Defined.

Example formatDate_short : formatDate "2020-12-01" = Some "2020-12-01".
Proof. reflexivity. Qed.

(** ** [renderCSV] *)

Lemma renderCSV_loop (w : Writer) (attachments : list Attachment) :
  foldl
    (fun w a =>
       Fprintf w
         (ID a ++ "," ++ escapeCSV (Filename a) ++ "," ++ Sprintf_d (Size a)
          ++ "," ++ escapeCSV (DisplayName (Author a)) ++ "," ++ Created a
          ++ nl))
    w attachments
  = w ++ csv_body attachments.
Proof.
  revert w. induction attachments as [|a l IH]; intros w; simpl.
  - now rewrite append_nil_r.
  - rewrite IH. unfold Fprintf. now rewrite append_assoc.
Qed.

(** C6. On every sequence of attachments [renderCSV] writes the header line
    [ID,FILENAME,SIZE,AUTHOR,CREATED] and then, in sequence order, one line
    per attachment: the ID as it is, the filename through [escapeCSV], the
    size as a plain integer, the author's display name through [escapeCSV]
    and the creation timestamp as it is. *)
Theorem renderCSV_spec (w : Writer) (attachments : list Attachment) :
  renderCSV w attachments
  = w ++ "ID,FILENAME,SIZE,AUTHOR,CREATED" ++ nl ++ csv_body attachments
  /\ (forall a rest, csv_body (a :: rest)
        = (ID a ++ "," ++ escapeCSV (Filename a) ++ "," ++ Sprintf_d (Size a)
           ++ "," ++ escapeCSV (DisplayName (Author a)) ++ "," ++ Created a
           ++ nl) ++ csv_body rest)
  /\ csv_body [] = "".
Proof.
  split; [|split; reflexivity].
  unfold renderCSV. rewrite renderCSV_loop. unfold Fprintf.
  now rewrite !append_assoc.
Qed.

Example renderCSV_test :
  renderCSV "" [Samples.document; Samples.comma_file]
  = "ID,FILENAME,SIZE,AUTHOR,CREATED" ++ nl
    ++ "10001,document.pdf,1048576,John Doe,2020-12-01T10:00:00.000+0100" ++ nl
    ++ "10002," ++ dquote ++ "file, with comma.txt" ++ dquote
    ++ ",524288,Jane Smith,2020-12-02T15:30:00.000+0100" ++ nl.
Proof. vm_compute. reflexivity. Qed.

(** ** [formatSize] *)

Lemma round_half_even_nearest (n d : Z) :
  0 < d -> nearest (round_half_even n d) n d.
Proof.
  intros Hd. unfold nearest, round_half_even.
  pose proof (Z.div_mod n d ltac:(lia)) as Hdm.
  pose proof (Z.mod_pos_bound n d Hd) as Hr.
  destruct (Z.ltb_spec (2 * (n mod d)) d);
    [|destruct (Z.ltb_spec d (2 * (n mod d))); [|destruct (Z.even (n / d))]];
    lia.
Qed.

Lemma round_half_even_nonneg (n d : Z) :
  0 <= n -> 0 < d -> 0 <= round_half_even n d.
Proof.
  intros Hn Hd. unfold round_half_even.
  pose proof (Z.div_pos n d Hn Hd).
  destruct (2 * (n mod d) <? d); [lia|].
  destruct (d <? 2 * (n mod d)); [lia|]. destruct (Z.even (n / d)); lia.
Qed.

Lemma float64_of_int64_exact (n : Z) : n < 2 ^ 53 -> float64_of_int64 n = n.
Proof.
  intros H. unfold float64_of_int64.
  destruct (Z.ltb_spec n (2 ^ 53)); [reflexivity | lia].
Qed.

Lemma float64_of_int64_error (n : Z) :
  0 <= n < 2 ^ 63 -> Z.abs (float64_of_int64 n - n) <= 512.
Proof.
  intros [H0 H63]. unfold float64_of_int64.
  destruct (Z.ltb_spec n (2 ^ 53)) as [|H53]; [lia|].
  assert (Hlo : 53 <= Z.log2 n) by (apply Z.log2_le_pow2; lia).
  assert (Hhi : Z.log2 n < 63) by (apply Z.log2_lt_pow2; lia).
  set (e := Z.log2 n - 52) in *.
  assert (He : 0 < 2 ^ e <= 2 ^ 10).
  { split; [apply Z.pow_pos_nonneg; lia | apply Z.pow_le_mono_r; lia]. }
  pose proof (round_half_even_nearest n (2 ^ e) ltac:(lia)) as Hn.
  unfold nearest in Hn. change (2 ^ 10) with 1024 in He.
  replace (round_half_even n (2 ^ e) * 2 ^ e - n)
    with (2 ^ e * round_half_even n (2 ^ e) - n) by ring.
  lia.
Qed.

Lemma float64_of_int64_nonneg (n : Z) : 0 <= n -> 0 <= float64_of_int64 n.
Proof.
  intros H0. unfold float64_of_int64.
  destruct (Z.ltb_spec n (2 ^ 53)) as [|H53]; [lia|].
  apply Z.mul_nonneg_nonneg.
  - apply round_half_even_nonneg; [lia | apply Z.pow_pos_nonneg; [lia|]].
    assert (53 <= Z.log2 n) by (apply Z.log2_le_pow2; lia). lia.
  - apply Z.pow_nonneg. lia.
Qed.

Lemma Sprintf_2f_quot_two_decimals (x d : Z) :
  0 <= x -> 0 < d ->
  two_decimals (round_half_even (100 * x) d) (Sprintf_2f_quot x d).
Proof.
  intros Hx Hd. unfold two_decimals, Sprintf_2f_quot.
  set (q := round_half_even (100 * x) d).
  assert (Hq : 0 <= q) by (apply round_half_even_nonneg; lia).
  exists (q / 100), (q / 10 mod 10), (q mod 10).
  pose proof (Z.mod_pos_bound (q / 10) 10 ltac:(lia)).
  pose proof (Z.mod_pos_bound q 10 ltac:(lia)).
  pose proof (Z.div_pos q 100 Hq ltac:(lia)).
  repeat (split; [lia|]). split; [|reflexivity].
  pose proof (Z.div_mod q 10 ltac:(lia)).
  pose proof (Z.div_mod (q / 10) 10 ltac:(lia)).
  replace (q / 100) with (q / 10 / 10) by (rewrite Z.div_div; [reflexivity | lia | lia]).
  lia.
Qed.

(** C5. For every non-negative [int64] byte count [b]: below 1024 the result
    is the integer [b] followed by [ B]; from 1024 on it is [b] divided by
    1024, 1024^2 or 1024^3, on the respective ranges, written with exactly
    two decimals and followed by [ KB], [ MB] or [ GB].  The two-decimal
    numeral is a nearest one to the quotient; in the [GB] range the quotient
    is taken from the binary64 conversion of [b], which is [b] itself below
    [2^53] and within 512 of it above.  The five sample values follow. *)
Theorem formatSize_spec :
  (forall b : Z, 0 <= b < 2 ^ 63 ->
     (b < 1024 -> formatSize b = Sprintf_d b ++ " B") /\
     (1024 <= b < 1024 ^ 2 ->
        exists q s, formatSize b = s ++ " KB" /\ two_decimals q s /\
                    nearest q (100 * b) 1024) /\
     (1024 ^ 2 <= b < 1024 ^ 3 ->
        exists q s, formatSize b = s ++ " MB" /\ two_decimals q s /\
                    nearest q (100 * b) (1024 ^ 2)) /\
     (1024 ^ 3 <= b ->
        exists q s x, formatSize b = s ++ " GB" /\ two_decimals q s /\
                      nearest q (100 * x) (1024 ^ 3) /\
                      (b < 2 ^ 53 -> x = b) /\ Z.abs (x - b) <= 512)) /\
  formatSize 500 = "500 B" /\
  formatSize 1536 = "1.50 KB" /\
  formatSize 2048 = "2.00 KB" /\
  formatSize 5242880 = "5.00 MB" /\
  formatSize 2147483648 = "2.00 GB".
Proof.
  split; [|repeat split; vm_compute; reflexivity].
  intros b Hb. unfold formatSize.
  change GB with (1024 ^ 3). change MB with (1024 ^ 2). change KB with 1024.
  change (1024 ^ 3) with 1073741824 in *. change (1024 ^ 2) with 1048576 in *.
  change (2 ^ 53) with 9007199254740992 in *.
  destruct (Z.leb_spec 1073741824 b) as [Hg|Hg];
    [|destruct (Z.leb_spec 1048576 b) as [Hm|Hm];
      [|destruct (Z.leb_spec 1024 b) as [Hk|Hk]]].
  - split; [lia | split; [lia | split; [lia|]]]. intros _.
    exists (round_half_even (100 * float64_of_int64 b) 1073741824),
      (Sprintf_2f_quot (float64_of_int64 b) 1073741824), (float64_of_int64 b).
    split; [reflexivity|]. split.
    { apply Sprintf_2f_quot_two_decimals; [apply float64_of_int64_nonneg|]; lia. }
    split; [apply round_half_even_nearest; lia|]. split.
    + intros H. apply float64_of_int64_exact. exact H.
    + apply float64_of_int64_error. exact Hb.
  - split; [lia | split; [lia | split; [|lia]]]. intros _.
    rewrite float64_of_int64_exact by (change (2 ^ 53) with 9007199254740992; lia).
    exists (round_half_even (100 * b) 1048576), (Sprintf_2f_quot b 1048576).
    split; [reflexivity|]. split.
    + apply Sprintf_2f_quot_two_decimals; lia.
    + apply round_half_even_nearest; lia.
  - split; [lia | split; [|split; lia]]. intros _.
    rewrite float64_of_int64_exact by (change (2 ^ 53) with 9007199254740992; lia).
    exists (round_half_even (100 * b) 1024), (Sprintf_2f_quot b 1024).
    split; [reflexivity|]. split.
    + apply Sprintf_2f_quot_two_decimals; lia.
    + apply round_half_even_nearest; lia.
  - split; [reflexivity | split; [lia | split; lia]].
Qed.

Lemma formatSize_spec_witness :
  formatSize 1000 = Sprintf_d 1000 ++ " B" /\
  (exists q s, formatSize 1536 = s ++ " KB" /\ two_decimals q s /\
               nearest q (100 * 1536) 1024) /\
  (exists q s, formatSize 5242880 = s ++ " MB" /\ two_decimals q s /\
               nearest q (100 * 5242880) (1024 ^ 2)) /\
  (exists q s x, formatSize (2 ^ 62 + 1) = s ++ " GB" /\ two_decimals q s /\
                 nearest q (100 * x) (1024 ^ 3) /\
                 (2 ^ 62 + 1 < 2 ^ 53 -> x = 2 ^ 62 + 1) /\
                 Z.abs (x - (2 ^ 62 + 1)) <= 512).
Proof.
  split; [|split; [|split]].
  - apply (proj1 formatSize_spec 1000); lia.
  - apply (proj1 formatSize_spec 1536); lia.
  - apply (proj1 formatSize_spec 5242880); lia.
  - apply (proj1 formatSize_spec (2 ^ 62 + 1)); lia.
Defined.

(** ** [applyAuth] *)

Example basic_auth_of_the_tests :
  Header_Get (ReqHeader (snd (applyAuth Samples.test_client
     {| Method := "GET"; URL := "u"; ReqHeader := ∅; ReqBody := "" |})))
    "Authorization"
  = "Basic dGVzdDp0b2tlbg==".
Proof. vm_compute. reflexivity. Qed.

Lemma Header_Set_other (h : Header) (key value k : string) :
  k <> key -> Header_Set h key value !! k = h !! k.
Proof. intros Hk. unfold Header_Set. now rewrite lookup_insert_ne. Qed.

Lemma Header_Add_other (h : Header) (key value k : string) :
  k <> key -> Header_Add h key value !! k = h !! k.
Proof. intros Hk. unfold Header_Add. now rewrite lookup_insert_ne. Qed.

(** What [applyAuth] leaves alone in the request. *)
Lemma applyAuth_request (c : Client) (req : Request) :
  Method (snd (applyAuth c req)) = Method req /\
  URL (snd (applyAuth c req)) = URL req /\
  ReqBody (snd (applyAuth c req)) = ReqBody req /\
  forall k, k <> "Authorization" ->
    ReqHeader (snd (applyAuth c req)) !! k = ReqHeader req !! k.
Proof.
  unfold applyAuth. cbn [snd].
  set (c' := match authType c with
             | None => with_authType c (Some AuthTypeBasic)
             | Some _ => c
             end).
  destruct (String.eqb (AuthType_String (default "" (authType c'))) AuthTypeMTLS);
    [destruct (negb (String.eqb (token c') ""))|
     destruct (String.eqb (AuthType_String (default "" (authType c'))) AuthTypeBearer);
       [|destruct (String.eqb (AuthType_String (default "" (authType c'))) AuthTypeBasic)]];
    cbn; repeat split; auto; intros k Hk;
    (apply Header_Add_other || apply Header_Set_other); exact Hk.
Qed.

(** What [applyAuth] does to the client. *)
Lemma applyAuth_client (c : Client) (req : Request) :
  fst (applyAuth c req)
  = match authType c with
    | None => with_authType c (Some AuthTypeBasic)
    | Some _ => c
    end.
Proof. reflexivity. Qed.

(** C9, as stated, fails: on a client whose authentication mode is unset,
    [applyAuth] stores the default mode in the client. *)
Lemma applyAuth_changes_unset_client :
  fst (applyAuth Samples.test_client
         {| Method := "GET"; URL := "u"; ReqHeader := ∅; ReqBody := "" |})
  <> Samples.test_client.
Proof. vm_compute. discriminate. Qed.

(** C9, amended.  [applyAuth] returns on every client and request, without
    an error.  Of the request it changes nothing but the [Authorization]
    header.  Of the client it leaves server, login and token as they are;
    the authentication mode is changed only when it is unset, and is then
    set to basic, so a client with a mode set is unchanged.  In mutual-TLS
    mode without a token the request is left as it is, without
    credentials. *)
Theorem applyAuth_frame (c : Client) (req : Request) :
  (Method (snd (applyAuth c req)) = Method req /\
   URL (snd (applyAuth c req)) = URL req /\
   ReqBody (snd (applyAuth c req)) = ReqBody req /\
   forall k, k <> "Authorization" ->
     ReqHeader (snd (applyAuth c req)) !! k = ReqHeader req !! k) /\
  (server (fst (applyAuth c req)) = server c /\
   login (fst (applyAuth c req)) = login c /\
   token (fst (applyAuth c req)) = token c /\
   authType (fst (applyAuth c req)) = Some (default AuthTypeBasic (authType c))) /\
  (authType c <> None -> fst (applyAuth c req) = c) /\
  (authType c = Some AuthTypeMTLS -> token c = "" -> snd (applyAuth c req) = req).
Proof.
  split; [apply applyAuth_request|].
  rewrite applyAuth_client. split; [|split].
  - destruct c as [s l t [a|]]; cbn; auto.
  - destruct (authType c); [reflexivity | congruence].
  - intros Hm Ht. unfold applyAuth. rewrite Hm. cbn [snd]. rewrite Hm, Ht. reflexivity.
Qed.

Lemma applyAuth_frame_witness :
  ReqHeader (snd (applyAuth Samples.test_client
     {| Method := "POST"; URL := "u";
        ReqHeader := {["X-Atlassian-Token" := ["no-check"]]}; ReqBody := "" |}))
    !! "X-Atlassian-Token" = Some ["no-check"] /\
  fst (applyAuth (with_authType Samples.test_client (Some AuthTypeBearer))
         {| Method := "GET"; URL := "u"; ReqHeader := ∅; ReqBody := "" |})
  = with_authType Samples.test_client (Some AuthTypeBearer) /\
  snd (applyAuth {| server := "s"; login := ""; token := "";
                    authType := Some AuthTypeMTLS |}
         {| Method := "GET"; URL := "u"; ReqHeader := ∅; ReqBody := "" |})
  = {| Method := "GET"; URL := "u"; ReqHeader := ∅; ReqBody := "" |}.
Proof.
  split; [|split].
  - rewrite (proj2 (proj2 (proj2 (proj1 (applyAuth_frame _ _))))); [reflexivity|].
    discriminate.
  - apply (proj1 (proj2 (proj2 (applyAuth_frame _ _)))). discriminate.
  - apply (proj2 (proj2 (proj2 (applyAuth_frame _ _)))); reflexivity.
Defined.

(** ** [deleteAttachment] *)

(** The helper [request] hands exactly one request to the transport and
    returns its answer. *)
Lemma request_sends (env : Env) (method endpoint : string) (st : State) :
  exists req,
    request env method endpoint st
    = (client_request env req,
       with_sent (with_client st (fst (applyAuth (client st)
            {| Method := method; URL := endpoint; ReqHeader := ∅; ReqBody := "" |})))
         (sent st ++ [req])%list) /\
    req = snd (applyAuth (client st)
            {| Method := method; URL := endpoint; ReqHeader := ∅; ReqBody := "" |}).
Proof.
  unfold request.
  destruct (applyAuth (client st) _) as [c req]. exists req. split; reflexivity.
Qed.

(** The outcome of [deleteAttachment] as a function of the transport's
    answer. *)
Lemma deleteAttachment_answer (env : Env) (attachmentID ver : string) (st : State) :
  exists req,
    sent (snd (deleteAttachment env attachmentID ver st)) = (sent st ++ [req])%list /\
    Method req = "DELETE" /\
    URL req = server (client st)
              ++ (if String.eqb ver apiVersion2 then baseURLv2 else baseURLv3)
              ++ "/attachment/" ++ attachmentID /\
    fst (deleteAttachment env attachmentID ver st)
    = match client_request env req with
      | (_, Some err) => Some err
      | (None, None) => Some ErrEmptyResponse
      | (Some res, None) =>
          if negb (StatusCode res =? 204) && negb (StatusCode res =? 200)
          then Some (formatUnexpectedResponse env res)
          else None
      end.
Proof.
  unfold deleteAttachment, DeleteV2, delete, StatusNoContent, StatusOK.
  destruct (String.eqb ver apiVersion2);
    match goal with
    | |- context [request env ?m ?e st] =>
        destruct (request_sends env m e st) as (req & -> & Hreq)
    end;
    exists req;
    (destruct (client_request env req) as [[res|] [err|]]; cbn;
     try (destruct (negb (StatusCode res =? 204)
                    && negb (StatusCode res =? 200)); cbn);
     (split; [reflexivity|]);
     (split; [rewrite Hreq; apply applyAuth_request|]);
     (split; [rewrite Hreq; apply applyAuth_request | reflexivity])).
Qed.

(** C3. A delete call hands one request to the transport, and its result is
    decided by the answer: with a response and no error it is success
    exactly when the status is 204 or 200, and an [ErrUnexpectedResponse]
    carrying the status for every other status (404 included); with neither
    response nor error it is [ErrEmptyResponse], which is no
    [ErrUnexpectedResponse] and no success; a transport error is returned as
    it is.  Success happens in no other case. *)
Theorem deleteAttachment_spec (env : Env) (attachmentID ver : string) (st : State) :
  exists req,
    sent (snd (deleteAttachment env attachmentID ver st)) = (sent st ++ [req])%list /\
    (forall res, client_request env req = (Some res, None) ->
       (fst (deleteAttachment env attachmentID ver st) = None
        <-> StatusCode res = 204 \/ StatusCode res = 200) /\
       (StatusCode res <> 204 -> StatusCode res <> 200 ->
        fst (deleteAttachment env attachmentID ver st)
        = Some (ErrUnexpectedResponse (json_Decode_errors env (Body res))
                  (Status res) (StatusCode res)))) /\
    (client_request env req = (None, None) ->
       fst (deleteAttachment env attachmentID ver st) = Some ErrEmptyResponse) /\
    (forall res err, client_request env req = (res, Some err) ->
       fst (deleteAttachment env attachmentID ver st) = Some err) /\
    (fst (deleteAttachment env attachmentID ver st) = None ->
       exists res, client_request env req = (Some res, None) /\
                   (StatusCode res = 204 \/ StatusCode res = 200)) /\
    (forall body status code, ErrEmptyResponse <> ErrUnexpectedResponse body status code).
Proof.
  destruct (deleteAttachment_answer env attachmentID ver st)
    as (req & Hsent & _ & _ & Hres).
  exists req. split; [exact Hsent|]. rewrite Hres. clear Hres Hsent.
  assert (Hcode : forall res,
    (if negb (StatusCode res =? 204) && negb (StatusCode res =? 200)
     then Some (formatUnexpectedResponse env res) else None) = None
    <-> StatusCode res = 204 \/ StatusCode res = 200).
  { intros res. destruct (Z.eqb_spec (StatusCode res) 204);
      destruct (Z.eqb_spec (StatusCode res) 200); cbn;
      split; intros H; try tauto; try discriminate; lia. }
  split; [|split; [|split; [|split]]].
  - intros res ->. split; [apply Hcode|]. intros H4 H0.
    destruct (Z.eqb_spec (StatusCode res) 204); [contradiction|].
    destruct (Z.eqb_spec (StatusCode res) 200); [contradiction|]. reflexivity.
  - intros ->. reflexivity.
  - intros res err ->. destruct res; reflexivity.
  - destruct (client_request env req) as [[res|] [err|]]; try discriminate.
    intros H. exists res. split; [reflexivity | now apply Hcode].
  - discriminate.
Qed.

Lemma deleteAttachment_spec_witness :
  fst (deleteAttachment
         (Samples.world (Err (LibError "unused"))
            (Some (Samples.reply 404 "404 Not Found" "{}"), None) (Ok []))
         "10001" apiVersion3 Samples.start)
  = Some (ErrUnexpectedResponse [] "404 Not Found" 404)
  /\ fst (deleteAttachment
            (Samples.world (Err (LibError "unused")) (None, None) (Ok []))
            "10001" apiVersion3 Samples.start)
     = Some ErrEmptyResponse
  /\ fst (deleteAttachment
            (Samples.world (Err (LibError "unused"))
               (None, Some (LibError "connection refused")) (Ok []))
            "10001" apiVersion2 Samples.start)
     = Some (LibError "connection refused").
Proof.
  split; [|split].
  - destruct (deleteAttachment_spec
                (Samples.world (Err (LibError "unused"))
                   (Some (Samples.reply 404 "404 Not Found" "{}"), None) (Ok []))
                "10001" apiVersion3 Samples.start) as (req & _ & H & _).
    apply (H (Samples.reply 404 "404 Not Found" "{}") eq_refl); cbn; lia.
  - destruct (deleteAttachment_spec
                (Samples.world (Err (LibError "unused")) (None, None) (Ok []))
                "10001" apiVersion3 Samples.start) as (req & _ & _ & H & _).
    apply H. reflexivity.
  - destruct (deleteAttachment_spec
                (Samples.world (Err (LibError "unused"))
                   (None, Some (LibError "connection refused")) (Ok []))
                "10001" apiVersion2 Samples.start) as (req & _ & _ & _ & H & _).
    apply (H None). reflexivity.
Defined.

Example delete_204_succeeds :
  fst (deleteAttachment
         (Samples.world (Err (LibError "unused"))
            (Some (Samples.reply 204 "204 No Content" ""), None) (Ok []))
         "10001" apiVersion3 Samples.start) = None.
Proof. vm_compute. reflexivity. Qed.

(** ** [uploadAttachment] *)

(** Setting the custom headers one by one gives each of them its value,
    whatever the order in which the map is traversed. *)
Lemma set_headers_lookup (headers : gmap string string) (h0 : Header) (k : string) :
  map_fold (fun k v h => Header_Set h k v) h0 headers !! k
  = match headers !! k with
    | Some v => Some [v]
    | None => h0 !! k
    end.
Proof.
  revert k.
  apply (map_fold_weak_ind
           (fun (r : Header) (m : gmap string string) =>
              forall k, r !! k = match m !! k with
                                 | Some v => Some [v]
                                 | None => h0 !! k
                                 end)).
  - intros k. now rewrite lookup_empty.
  - intros i x m r Hi IH k. unfold Header_Set.
    destruct (decide (i = k)) as [->|Hne].
    + now rewrite !lookup_insert_eq.
    + rewrite !lookup_insert_ne by exact Hne. apply IH.
Qed.

(** [postWithHeaders] either fails to build the request, or hands one
    request to the transport and returns its answer. *)
Lemma postWithHeaders_answer (env : Env) (endpoint body : string)
    (headers : gmap string string) (st : State) :
  match http_NewRequest_err env "POST" endpoint with
  | Some err => postWithHeaders env endpoint body headers st = ((None, Some err), st)
  | None =>
      exists req,
        fst (postWithHeaders env endpoint body headers st)
        = match http_Do env req with
          | Err err => (None, Some err)
          | Ok res => (Some res, None)
          end /\
        sent (snd (postWithHeaders env endpoint body headers st))
        = (sent st ++ [req])%list /\
        Method req = "POST" /\ URL req = endpoint /\ ReqBody req = body /\
        forall k v, k <> "Authorization" -> headers !! k = Some v ->
                    ReqHeader req !! k = Some [v]
  end.
Proof.
  unfold postWithHeaders, http_NewRequest.
  destruct (http_NewRequest_err env "POST" endpoint) as [err|]; [reflexivity|].
  set (req0 := with_header _ _).
  pose proof (applyAuth_request (client st) req0) as (Hm & Hu & Hb & Hh).
  destruct (applyAuth (client st) req0) as [c req]. cbn [snd] in *.
  exists req. unfold httpClient_Do.
  destruct (http_Do env req) as [res|err]; cbn;
    (split; [reflexivity|]); (split; [reflexivity|]);
    (split; [exact Hm|]); (split; [exact Hu|]); (split; [exact Hb|]);
    intros k v Hk Hv; rewrite (Hh k Hk); unfold req0; cbn;
    rewrite set_headers_lookup, Hv; reflexivity.
Qed.

(** A local step failed: the upload was not prepared, nothing was sent and
    the step's error is the result. *)
Ltac fails_locally :=
  left; split;
  [ intros (H1 & H2 & (c & H3) & H4 & H5); congruence
  | split; [reflexivity | eauto] ].

(** An upload either fails locally, without a request, or hands one POST
    request to the transport; its result is then decided by the answer. *)
Lemma uploadAttachment_answer (env : Env) (key filePath ver : string) (st : State) :
  (~ upload_prepared env key filePath ver st /\
   sent (snd (uploadAttachment env key filePath ver st)) = sent st /\
   exists err, fst (uploadAttachment env key filePath ver st) = ([], Some err))
  \/
  (upload_prepared env key filePath ver st /\
   exists req,
     sent (snd (uploadAttachment env key filePath ver st)) = (sent st ++ [req])%list /\
     Method req = "POST" /\
     URL req = server (client st)
               ++ (if String.eqb ver apiVersion2 then baseURLv2 else baseURLv3)
               ++ "/issue/" ++ key ++ "/attachments" /\
     ReqHeader req !! "X-Atlassian-Token" = Some ["no-check"] /\
     fst (uploadAttachment env key filePath ver st)
     = match http_Do env req with
       | Err err => ([], Some err)
       | Ok res =>
           if negb (StatusCode res =? 200)
           then ([], Some (formatUnexpectedResponse env res))
           else match json_Decode_attachments env (Body res) with
                | Err err => ([], Some err)
                | Ok attachments => (attachments, None)
                end
       end).
Proof.
  unfold upload_prepared, uploadAttachment, StatusOK.
  destruct (os_Open_err env filePath) as [e|]; [fails_locally|].
  destruct (multipart_CreateFormFile_err env "file" (filepath_Base env filePath)) as [e|];
    [fails_locally|].
  destruct (io_Copy_from_file env filePath) as [content|e]; [|fails_locally].
  destruct (multipart_Close_err env) as [e|]; [fails_locally|].
  set (headers := <["Content-Type" := _]> _).
  set (body := multipart_body env _ _ _).
  set (endpoint := server (client st)
     ++ (if String.eqb ver apiVersion2 then baseURLv2 else baseURLv3)
     ++ "/issue/" ++ key ++ "/attachments").
  assert (Hpost :
    (if String.eqb ver apiVersion2
     then postWithHeaders env (server (client st) ++ baseURLv2
                               ++ "/issue/" ++ key ++ "/attachments") body headers st
     else postWithHeaders env (server (client st) ++ baseURLv3
                               ++ "/issue/" ++ key ++ "/attachments") body headers st)
    = postWithHeaders env endpoint body headers st).
  { unfold endpoint. destruct (String.eqb ver apiVersion2); reflexivity. }
  rewrite Hpost. clear Hpost.
  pose proof (postWithHeaders_answer env endpoint body headers st) as Hp.
  destruct (http_NewRequest_err env "POST" endpoint) as [e|].
  - rewrite Hp. cbn. fails_locally.
  - right. split; [repeat split; eauto|].
    destruct Hp as (req & Hres & Hsent & Hm & Hu & _ & Hh).
    exists req.
    destruct (postWithHeaders env endpoint body headers st) as [[res err] st'].
    cbn [fst snd] in *.
    assert (Htok : ReqHeader req !! "X-Atlassian-Token" = Some ["no-check"]).
    { apply Hh; [discriminate|]. unfold headers.
      rewrite lookup_insert_ne by discriminate. apply lookup_insert_eq. }
    destruct (http_Do env req) as [r|e]; inversion Hres; subst; cbn.
    + destruct (negb (StatusCode r =? 200)); cbn;
        [|destruct (json_Decode_attachments env (Body r)); cbn]; auto.
    + auto.
Qed.

(** C1, as stated, fails: when the server replies 200 with a body that does
    not decode, the error returned is the decoder's, not an
    [ErrUnexpectedResponse]. *)
Lemma upload_decode_failure_not_unexpected_response :
  fst (uploadAttachment
         (Samples.world (Ok (Samples.reply 200 "200 OK" "not json"))
            (None, None) (Err (LibError "invalid character")))
         "TEST-1" "test.txt" apiVersion3 Samples.start)
  = ([], Some (LibError "invalid character"))
  /\ forall body status code,
       snd (fst (uploadAttachment
                   (Samples.world (Ok (Samples.reply 200 "200 OK" "not json"))
                      (None, None) (Err (LibError "invalid character")))
                   "TEST-1" "test.txt" apiVersion3 Samples.start))
       <> Some (ErrUnexpectedResponse body status code).
Proof. split; [vm_compute; reflexivity | intros b s c; vm_compute; discriminate]. Qed.

(** C1, amended.  For every upload attempt whose request [req] reached the
    transport and was answered by a response [res]: if the status is not 200
    the result is an [ErrUnexpectedResponse] carrying the status and the
    structured error messages of the body; if the status is 200 and the body
    does not decode, the result is the decoder's error, unchanged; in both
    cases no attachments are returned. *)
Theorem uploadAttachment_errors (env : Env) (key filePath ver : string) (st : State)
    (req : Request) (res : Response) :
  sent (snd (uploadAttachment env key filePath ver st)) = (sent st ++ [req])%list ->
  http_Do env req = Ok res ->
  (StatusCode res <> 200 ->
   fst (uploadAttachment env key filePath ver st)
   = ([], Some (ErrUnexpectedResponse (json_Decode_errors env (Body res))
                  (Status res) (StatusCode res)))) /\
  (StatusCode res = 200 ->
   forall err, json_Decode_attachments env (Body res) = Err err ->
   fst (uploadAttachment env key filePath ver st) = ([], Some err)).
Proof.
  intros Hsent Hdo.
  destruct (uploadAttachment_answer env key filePath ver st)
    as [(_ & Hs & _) | (_ & req' & Hs & _ & _ & _ & Hres)].
  - rewrite Hs in Hsent. apply (f_equal length) in Hsent.
    rewrite length_app in Hsent. simpl in Hsent. lia.
  - rewrite Hs in Hsent. apply app_inv_head in Hsent. injection Hsent as ->.
    rewrite Hres, Hdo. split.
    + intros Hne. destruct (Z.eqb_spec (StatusCode res) 200); [contradiction|].
      reflexivity.
    + intros He err Hdec. rewrite He, Hdec. reflexivity.
Qed.

Lemma uploadAttachment_errors_witness :
  fst (uploadAttachment
         (Samples.world (Ok (Samples.reply 403 "403 Forbidden" "{}"))
            (None, None) (Ok []))
         "TEST-1" "test.txt" apiVersion3 Samples.start)
  = ([], Some (ErrUnexpectedResponse [] "403 Forbidden" 403))
  /\ fst (uploadAttachment
            (Samples.world (Ok (Samples.reply 200 "200 OK" "not json"))
               (None, None) (Err (LibError "invalid character")))
            "TEST-1" "test.txt" apiVersion2 Samples.start)
     = ([], Some (LibError "invalid character")).
Proof.
  split.
  - eapply (proj1 (uploadAttachment_errors
                     (Samples.world (Ok (Samples.reply 403 "403 Forbidden" "{}"))
                        (None, None) (Ok []))
                     "TEST-1" "test.txt" apiVersion3 Samples.start
                     _ (Samples.reply 403 "403 Forbidden" "{}")
                     eq_refl eq_refl)).
    cbn. lia.
  - eapply (proj2 (uploadAttachment_errors
                     (Samples.world (Ok (Samples.reply 200 "200 OK" "not json"))
                        (None, None) (Err (LibError "invalid character")))
                     "TEST-1" "test.txt" apiVersion2 Samples.start
                     _ (Samples.reply 200 "200 OK" "not json")
                     eq_refl eq_refl)); reflexivity.
Defined.

(** ** Request paths *)

Lemma api_base_version (installation : string) :
  (if String.eqb (api_version installation) apiVersion2 then baseURLv2 else baseURLv3)
  = api_base installation.
Proof.
  unfold api_version, api_base.
  destruct (String.eqb installation InstallationTypeLocal); reflexivity.
Qed.

Lemma ProxyUploadAttachment_version (env : Env) (installation key filePath : string)
    (st : State) :
  Api.ProxyUploadAttachment env installation key filePath st
  = uploadAttachment env key filePath (api_version installation) st.
Proof.
  unfold Api.ProxyUploadAttachment, api_version, UploadAttachment, UploadAttachmentV2.
  destruct (String.eqb installation InstallationTypeLocal); reflexivity.
Qed.

Lemma ProxyDeleteAttachment_version (env : Env) (installation attachmentID : string)
    (st : State) :
  Api.ProxyDeleteAttachment env installation attachmentID st
  = deleteAttachment env attachmentID (api_version installation) st.
Proof.
  unfold Api.ProxyDeleteAttachment, api_version, DeleteAttachment, DeleteAttachmentV2.
  destruct (String.eqb installation InstallationTypeLocal); reflexivity.
Qed.

(** C4. The base path of a request is a function of the installation flavor
    alone: [/rest/api/2] for local, [/rest/api/3] for cloud, for an unset
    flavor and for any other.  An upload whose local steps succeed hands the
    transport one POST request to [{server}{base}/issue/{key}/attachments],
    carrying the header [X-Atlassian-Token: no-check]; an upload whose local
    steps fail sends nothing.  A delete hands the transport one DELETE request
    to [{server}{base}/attachment/{id}]. *)
Theorem request_paths (env : Env) (installation key filePath attachmentID : string)
    (st : State) :
  (api_base InstallationTypeLocal = "/rest/api/2" /\
   api_base InstallationTypeCloud = "/rest/api/3" /\
   api_base "" = "/rest/api/3" /\
   (installation <> InstallationTypeLocal -> api_base installation = "/rest/api/3")) /\
  ((~ upload_prepared env key filePath (api_version installation) st /\
    sent (snd (Api.ProxyUploadAttachment env installation key filePath st)) = sent st)
   \/
   (upload_prepared env key filePath (api_version installation) st /\
    exists req,
      sent (snd (Api.ProxyUploadAttachment env installation key filePath st))
      = (sent st ++ [req])%list /\
      Method req = "POST" /\
      URL req = server (client st) ++ api_base installation
                ++ "/issue/" ++ key ++ "/attachments" /\
      Header_Get (ReqHeader req) "X-Atlassian-Token" = "no-check")) /\
  (exists req,
     sent (snd (Api.ProxyDeleteAttachment env installation attachmentID st))
     = (sent st ++ [req])%list /\
     Method req = "DELETE" /\
     URL req = server (client st) ++ api_base installation
               ++ "/attachment/" ++ attachmentID).
Proof.
  split; [|split].
  - repeat split. intros Hne. unfold api_base.
    destruct (String.eqb_spec installation InstallationTypeLocal);
      [contradiction | reflexivity].
  - rewrite ProxyUploadAttachment_version.
    destruct (uploadAttachment_answer env key filePath (api_version installation) st)
      as [(Hn & Hs & _) | (Hp & req & Hs & Hm & Hu & Hh & _)].
    + left. split; assumption.
    + right. split; [exact Hp|]. exists req.
      rewrite api_base_version in Hu.
      repeat (split; [assumption|]). unfold Header_Get. now rewrite Hh.
  - rewrite ProxyDeleteAttachment_version.
    destruct (deleteAttachment_answer env attachmentID (api_version installation) st)
      as (req & Hs & Hm & Hu & _).
    exists req. rewrite api_base_version in Hu. repeat split; assumption.
Qed.

Lemma request_paths_witness :
  api_base "" = "/rest/api/3" /\
  exists req,
    sent (snd (Api.ProxyUploadAttachment
                 (Samples.world (Ok (Samples.reply 200 "200 OK" "[]")) (None, None) (Ok []))
                 "" "TEST-1" "test.txt" Samples.start))
    = [req] /\
    Method req = "POST" /\
    URL req = "http://127.0.0.1/rest/api/3/issue/TEST-1/attachments" /\
    Header_Get (ReqHeader req) "X-Atlassian-Token" = "no-check".
Proof.
  pose proof (request_paths
                (Samples.world (Ok (Samples.reply 200 "200 OK" "[]")) (None, None) (Ok []))
                "" "TEST-1" "test.txt" "10001" Samples.start)
    as ((_ & _ & _ & Hbase) & Hup & _).
  split; [apply Hbase; discriminate|].
  destruct Hup as [(Hn & _) | (_ & req & Hs & Hm & Hu & Hh)].
  - exfalso. apply Hn. unfold upload_prepared. cbn.
    repeat split; try reflexivity. exists "test content". reflexivity.
  - exists req. repeat split; assumption.
Defined.

Example upload_paths_of_the_tests :
  map URL (sent (snd (Api.ProxyUploadAttachment
     (Samples.world (Ok (Samples.reply 200 "200 OK" "[]")) (None, None) (Ok []))
     Api.InstallationTypeCloud "TEST-1" "test.txt" Samples.start)))
  = ["http://127.0.0.1/rest/api/3/issue/TEST-1/attachments"] /\
  map URL (sent (snd (Api.ProxyUploadAttachment
     (Samples.world (Ok (Samples.reply 200 "200 OK" "[]")) (None, None) (Ok []))
     Api.InstallationTypeLocal "TEST-1" "test.txt" Samples.start)))
  = ["http://127.0.0.1/rest/api/2/issue/TEST-1/attachments"] /\
  map URL (sent (snd (Api.ProxyDeleteAttachment
     (Samples.world (Ok (Samples.reply 200 "200 OK" "[]"))
        (Some (Samples.reply 204 "204 No Content" ""), None) (Ok []))
     Api.InstallationTypeLocal "10001" Samples.start)))
  = ["http://127.0.0.1/rest/api/2/attachment/10001"].
Proof. vm_compute. repeat split. Qed.

(** ** [DownloadAttachment] *)

(** A download either fails to build its request, or hands one GET request
    to the transport; the rest is decided by the answer. *)
Lemma DownloadAttachment_answer (env : Env) (url destPath : string) (st : State) :
  match http_NewRequest_err env "GET" url with
  | Some err => DownloadAttachment env url destPath st = (Some err, st)
  | None =>
      exists req,
        sent (snd (DownloadAttachment env url destPath st)) = (sent st ++ [req])%list /\
        Method req = "GET" /\ URL req = url /\
        dirs (snd (DownloadAttachment env url destPath st)) = dirs st /\
        (fst (DownloadAttachment env url destPath st),
         files (snd (DownloadAttachment env url destPath st)))
        = match http_Do env req with
          | Err err => (Some err, files st)
          | Ok res =>
              if negb (StatusCode res =? 200) then
                (Some (Errorf ("failed to download attachment: " ++ Status res)),
                 files st)
              else
                match os_Create_err env destPath with
                | Some err => (Some err, files st)
                | None =>
                    match io_Copy_to_file_err env destPath (Body res) with
                    | Some (written, err) =>
                        (Some err,
                         <[destPath := substring 0 written (Body res)]> (files st))
                    | None => (None, <[destPath := Body res]> (files st))
                    end
                end
          end
  end.
Proof.
  unfold DownloadAttachment, http_NewRequest, StatusOK.
  destruct (http_NewRequest_err env "GET" url) as [err|]; [reflexivity|].
  set (req0 := {| Method := "GET"; URL := url; ReqHeader := ∅; ReqBody := "" |}).
  pose proof (applyAuth_request (client st) req0) as (Hm & Hu & _).
  destruct (applyAuth (client st) req0) as [c req]. cbn [snd] in *.
  exists req. unfold httpClient_Do.
  destruct (http_Do env req) as [res|err]; cbn; [|auto].
  destruct (negb (StatusCode res =? 200)); cbn; [auto|].
  destruct (os_Create_err env destPath) as [err|]; cbn; [auto|].
  destruct (io_Copy_to_file_err env destPath (Body res)) as [[written err]|]; cbn.
  - rewrite insert_insert_eq. auto.
  - rewrite insert_insert_eq. auto.
Qed.

(** C2. For every download call whose request [req] was answered by a
    response [res]: with status 200, and the file created and the body
    copied without error, the call succeeds and the destination file holds
    exactly the body; with another status the call returns the error
    [failed to download attachment: {status}] and no file is created or
    changed; an error of the file creation or of the copy is returned as it
    is; and the call succeeds in the first case only. *)
Theorem DownloadAttachment_spec (env : Env) (url destPath : string) (st : State)
    (req : Request) (res : Response) :
  sent (snd (DownloadAttachment env url destPath st)) = (sent st ++ [req])%list ->
  http_Do env req = Ok res ->
  (StatusCode res = 200 -> os_Create_err env destPath = None ->
   io_Copy_to_file_err env destPath (Body res) = None ->
   fst (DownloadAttachment env url destPath st) = None /\
   files (snd (DownloadAttachment env url destPath st)) !! destPath = Some (Body res) /\
   files (snd (DownloadAttachment env url destPath st))
   = <[destPath := Body res]> (files st)) /\
  (StatusCode res <> 200 ->
   fst (DownloadAttachment env url destPath st)
   = Some (Errorf ("failed to download attachment: " ++ Status res)) /\
   files (snd (DownloadAttachment env url destPath st)) = files st) /\
  (StatusCode res = 200 ->
   forall err, os_Create_err env destPath = Some err ->
   fst (DownloadAttachment env url destPath st) = Some err /\
   files (snd (DownloadAttachment env url destPath st)) = files st) /\
  (StatusCode res = 200 -> os_Create_err env destPath = None ->
   forall written err,
   io_Copy_to_file_err env destPath (Body res) = Some (written, err) ->
   fst (DownloadAttachment env url destPath st) = Some err) /\
  (fst (DownloadAttachment env url destPath st) = None ->
   StatusCode res = 200 /\ os_Create_err env destPath = None /\
   io_Copy_to_file_err env destPath (Body res) = None).
Proof.
  intros Hsent Hdo.
  pose proof (DownloadAttachment_answer env url destPath st) as H.
  destruct (http_NewRequest_err env "GET" url) as [e|].
  { rewrite H in Hsent. cbn in Hsent. apply (f_equal length) in Hsent.
    rewrite length_app in Hsent. simpl in Hsent. lia. }
  destruct H as (req' & Hs & _ & _ & _ & Hres).
  rewrite Hs in Hsent. apply app_inv_head in Hsent. injection Hsent as ->.
  rewrite Hdo in Hres.
  destruct (DownloadAttachment env url destPath st) as [r st']. cbn [fst snd] in *.
  destruct (Z.eqb_spec (StatusCode res) 200) as [Hok|Hne]; cbn in Hres.
  - destruct (os_Create_err env destPath) as [e|].
    + injection Hres as -> ->.
      repeat split; intros; try congruence; try discriminate.
    + destruct (io_Copy_to_file_err env destPath (Body res)) as [[w e]|];
        injection Hres as -> ->.
      * repeat split; intros; try congruence; try discriminate.
      * repeat split; intros; try congruence; try discriminate.
        apply lookup_insert_eq.
  - injection Hres as -> ->.
    repeat split; intros; try congruence; try discriminate; contradiction.
Qed.

Lemma DownloadAttachment_spec_witness :
  (fst (DownloadAttachment Samples.serving "http://127.0.0.1/attachments/test.txt"
          "downloaded.txt" Samples.start) = None /\
   files (snd (DownloadAttachment Samples.serving "http://127.0.0.1/attachments/test.txt"
                 "downloaded.txt" Samples.start)) !! "downloaded.txt"
   = Some "This is test attachment content" /\
   files (snd (DownloadAttachment Samples.serving "http://127.0.0.1/attachments/test.txt"
                 "downloaded.txt" Samples.start))
   = <["downloaded.txt" := "This is test attachment content"]> (files Samples.start)) /\
  (fst (DownloadAttachment Samples.missing "http://127.0.0.1/attachments/test.txt"
          "downloaded.txt" Samples.start)
   = Some (Errorf "failed to download attachment: 404 Not Found") /\
   files (snd (DownloadAttachment Samples.missing "http://127.0.0.1/attachments/test.txt"
                 "downloaded.txt" Samples.start)) = files Samples.start) /\
  (fst (DownloadAttachment
          (Samples.with_disk Samples.serving (Some (LibError "permission denied")) None)
          "http://127.0.0.1/attachments/test.txt" "downloaded.txt" Samples.start)
   = Some (LibError "permission denied") /\
   files (snd (DownloadAttachment
                 (Samples.with_disk Samples.serving (Some (LibError "permission denied")) None)
                 "http://127.0.0.1/attachments/test.txt" "downloaded.txt" Samples.start))
   = files Samples.start) /\
  fst (DownloadAttachment
         (Samples.with_disk Samples.serving None (Some (4%nat, LibError "disk full")))
         "http://127.0.0.1/attachments/test.txt" "downloaded.txt" Samples.start)
  = Some (LibError "disk full").
Proof.
  split; [|split; [|split]].
  - eapply (proj1 (DownloadAttachment_spec Samples.serving _ _ Samples.start _
                     (Samples.reply 200 "200 OK" "This is test attachment content")
                     eq_refl eq_refl)); reflexivity.
  - eapply (proj1 (proj2 (DownloadAttachment_spec Samples.missing _ _ Samples.start _
                     (Samples.reply 404 "404 Not Found" "") eq_refl eq_refl))).
    cbn. lia.
  - eapply (proj1 (proj2 (proj2 (DownloadAttachment_spec
                     (Samples.with_disk Samples.serving
                        (Some (LibError "permission denied")) None)
                     _ _ Samples.start _
                     (Samples.reply 200 "200 OK" "This is test attachment content")
                     eq_refl eq_refl)))); reflexivity.
  - eapply (proj1 (proj2 (proj2 (proj2 (DownloadAttachment_spec
                     (Samples.with_disk Samples.serving None
                        (Some (4%nat, LibError "disk full")))
                     _ _ Samples.start _
                     (Samples.reply 200 "200 OK" "This is test attachment content")
                     eq_refl eq_refl))))); reflexivity.
Defined.

(** ** The download command *)

Lemma findAttachmentByID_first (attachments : list Attachment) (id : string) :
  (exists pre a post,
     attachments = (pre ++ a :: post)%list /\ ID a = id /\
     Forall (fun b => ID b <> id) pre /\
     findAttachmentByID attachments id = Goes [a])
  \/
  (Forall (fun b => ID b <> id) attachments /\
   findAttachmentByID attachments id
   = Exits (Failed "Attachment with ID %q not found" [id])).
Proof.
  induction attachments as [|a l IH]; cbn.
  - right. split; [constructor | reflexivity].
  - destruct (String.eqb_spec (ID a) id) as [He|Hne].
    + left. exists [], a, l. repeat split; [exact He | constructor].
    + destruct IH as [(pre & b & post & -> & Hb & Hpre & Hf) | (Hall & Hf)].
      * left. exists (a :: pre), b, post.
        repeat split; [exact Hb | now constructor | exact Hf].
      * right. split; [now constructor | exact Hf].
Qed.

Lemma findAttachmentByFilename_first (attachments : list Attachment) (name : string) :
  (exists pre a post,
     attachments = (pre ++ a :: post)%list /\ Filename a = name /\
     Forall (fun b => Filename b <> name) pre /\
     findAttachmentByFilename attachments name = Goes [a])
  \/
  (Forall (fun b => Filename b <> name) attachments /\
   findAttachmentByFilename attachments name
   = Exits (Failed "Attachment with filename %q not found" [name])).
Proof.
  induction attachments as [|a l IH]; cbn.
  - right. split; [constructor | reflexivity].
  - destruct (String.eqb_spec (Filename a) name) as [He|Hne].
    + left. exists [], a, l. repeat split; [exact He | constructor].
    + destruct IH as [(pre & b & post & -> & Hb & Hpre & Hf) | (Hall & Hf)].
      * left. exists (a :: pre), b, post.
        repeat split; [exact Hb | now constructor | exact Hf].
      * right. split; [now constructor | exact Hf].
Qed.

(** The download loop on a single attachment: at most one request, to the
    content URL of the attachment, and no file touched but the destination. *)
Lemma downloadEach_one (cenv : CmdEnv) (dir : string) (a : Attachment) (st : State) :
  (sent (snd (downloadEach cenv dir [a] st)) = sent st \/
   exists req, sent (snd (downloadEach cenv dir [a] st)) = (sent st ++ [req])%list /\
               Method req = "GET" /\ URL req = Content a) /\
  (forall p, p <> filepath_Join cenv dir (Filename a) ->
             files (snd (downloadEach cenv dir [a] st)) !! p = files st !! p) /\
  (os_Stat_ok st (filepath_Join cenv dir (Filename a)) = false ->
   http_NewRequest_err (jira_env cenv) "GET" (Content a) = None ->
   exists req, sent (snd (downloadEach cenv dir [a] st)) = (sent st ++ [req])%list /\
               Method req = "GET" /\ URL req = Content a).
Proof.
  cbn [downloadEach].
  set (dest := filepath_Join cenv dir (Filename a)).
  destruct (os_Stat_ok st dest); cbn [snd].
  { split; [now left | split; [reflexivity | discriminate]]. }
  pose proof (DownloadAttachment_answer (jira_env cenv) (Content a) dest st) as H.
  destruct (http_NewRequest_err (jira_env cenv) "GET" (Content a)) as [e|].
  { rewrite H. cbn. split; [now left | split; [reflexivity | discriminate]]. }
  destruct H as (req & Hs & Hm & Hu & _ & Hres).
  destruct (DownloadAttachment (jira_env cenv) (Content a) dest st) as [r st'].
  cbn [fst snd] in *.
  assert (Hsent : sent (snd (match r with
                             | Some err => (Exits (OnError err), st')
                             | None => (@Goes unit tt, st')
                             end)) = (sent st ++ [req])%list)
    by (destruct r; exact Hs).
  assert (Hfiles : forall p, p <> dest -> files st' !! p = files st !! p).
  { intros p Hp.
    destruct (http_Do (jira_env cenv) req) as [res|e];
      [destruct (negb (StatusCode res =? 200));
       [|destruct (os_Create_err (jira_env cenv) dest);
         [|destruct (io_Copy_to_file_err (jira_env cenv) dest (Body res)) as [[w e]|]]]|];
      injection Hres as _ ->; try reflexivity;
      now rewrite lookup_insert_ne. }
  split; [right; exists req; auto|]. split.
  - intros p Hp. destruct r; cbn; now apply Hfiles.
  - intros _ _. exists req. auto.
Qed.

Lemma findAttachmentByID_at (pre post : list Attachment) (a : Attachment) (id : string) :
  ID a = id -> Forall (fun b => ID b <> id) pre ->
  findAttachmentByID (pre ++ a :: post) id = Goes [a].
Proof.
  intros Ha Hpre. induction Hpre as [|b pre Hb _ IH]; cbn.
  - destruct (String.eqb_spec (ID a) id); [reflexivity | contradiction].
  - destruct (String.eqb_spec (ID b) id); [contradiction | exact IH].
Qed.

Lemma findAttachmentByFilename_at (pre post : list Attachment) (a : Attachment)
    (name : string) :
  Filename a = name -> Forall (fun b => Filename b <> name) pre ->
  findAttachmentByFilename (pre ++ a :: post) name = Goes [a].
Proof.
  intros Ha Hpre. induction Hpre as [|b pre Hb _ IH]; cbn.
  - destruct (String.eqb_spec (Filename a) name); [reflexivity | contradiction].
  - destruct (String.eqb_spec (Filename b) name); [contradiction | exact IH].
Qed.

Lemma findAttachmentByID_none (attachments : list Attachment) (id : string) :
  Forall (fun b => ID b <> id) attachments ->
  findAttachmentByID attachments id
  = Exits (Failed "Attachment with ID %q not found" [id]).
Proof.
  intros H. induction H as [|b l Hb _ IH]; cbn; [reflexivity|].
  destruct (String.eqb_spec (ID b) id); [contradiction | exact IH].
Qed.

Lemma findAttachmentByFilename_none (attachments : list Attachment) (name : string) :
  Forall (fun b => Filename b <> name) attachments ->
  findAttachmentByFilename attachments name
  = Exits (Failed "Attachment with filename %q not found" [name]).
Proof.
  intros H. induction H as [|b l Hb _ IH]; cbn; [reflexivity|].
  destruct (String.eqb_spec (Filename b) name); [contradiction | exact IH].
Qed.

Lemma after_mkdir_frame (params : downloadParams) (st : State) :
  sent (after_mkdir params st) = sent st /\
  files (after_mkdir params st) = files st /\
  client (after_mkdir params st) = client st.
Proof.
  unfold after_mkdir. destruct (negb (String.eqb (outputDir params) "."));
    repeat split.
Qed.

(** The command, when asked for one attachment, either ends before the
    selection with the state as it was, or selects and then runs the
    download loop. *)
Lemma download_steps (cenv : CmdEnv) (params : downloadParams) (st : State)
    (attachments : list Attachment) :
  ProxyGetIssue cenv (issueKey params) = Ok attachments ->
  all params = false ->
  (exists x, download cenv params st = (Exits x, st))
  \/
  (issueKey params <> "" /\
   (outputDir params = "." \/ os_MkdirAll_err cenv (outputDir params) = None) /\
   download cenv params st
   = match (if negb (String.eqb (id params) "") then
              findAttachmentByID attachments (id params)
            else if negb (String.eqb (filename params) "") then
              findAttachmentByFilename attachments (filename params)
            else Exits (Failed "Please specify --all, --id, or provide a filename" []))
     with
     | Exits x => (Exits x, after_mkdir params st)
     | Goes l => downloadEach cenv (outputDir params) l (after_mkdir params st)
     end).
Proof.
  intros Hget Hall. unfold download, after_mkdir. rewrite Hget, Hall.
  destruct (String.eqb_spec (issueKey params) "") as [|Hkey]; [left; eauto|].
  destruct (length attachments =? 0)%nat; [left; eauto|].
  destruct (String.eqb_spec (outputDir params) ".") as [Hdot|Hdir]; cbn [negb].
  - right. split; [exact Hkey | split; [now left | reflexivity]].
  - destruct (os_MkdirAll_err cenv (outputDir params)) as [e|] eqn:Hmk;
      [left; eauto|].
    right. split; [exact Hkey | split; [now right | reflexivity]].
Qed.

(** C10. In the download command, when not all attachments are asked for:
    the selection by ID or by filename yields at most one attachment; when
    no attachment of the issue matches, the command exits without a download
    request and without creating or changing a file; when some match, only
    the first one in the order of the issue's list is selected: the command
    sends at most one request, to the content URL of that attachment, and
    touches no file but its destination, and when the issue key is given and
    the output directory is there it is exactly the download loop run on that
    single attachment. *)
Theorem download_selects_first (cenv : CmdEnv) (params : downloadParams) (st : State)
    (attachments : list Attachment) :
  ProxyGetIssue cenv (issueKey params) = Ok attachments ->
  all params = false ->
  (forall l, findAttachmentByID attachments (id params) = Goes l -> (length l <= 1)%nat) /\
  (forall l, findAttachmentByFilename attachments (filename params) = Goes l ->
             (length l <= 1)%nat) /\
  (Forall (fun a => ~ selected_by params a) attachments ->
   (exists x, fst (download cenv params st) = Exits x) /\
   sent (snd (download cenv params st)) = sent st /\
   files (snd (download cenv params st)) = files st) /\
  (forall pre a post,
     attachments = (pre ++ a :: post)%list ->
     selected_by params a ->
     Forall (fun b => ~ selected_by params b) pre ->
     (sent (snd (download cenv params st)) = sent st \/
      exists req, sent (snd (download cenv params st)) = (sent st ++ [req])%list /\
                  Method req = "GET" /\ URL req = Content a) /\
     (forall p, p <> filepath_Join cenv (outputDir params) (Filename a) ->
                files (snd (download cenv params st)) !! p = files st !! p) /\
     (issueKey params <> "" ->
      id params <> "" \/ filename params <> "" ->
      outputDir params = "." \/ os_MkdirAll_err cenv (outputDir params) = None ->
      download cenv params st
      = downloadEach cenv (outputDir params) [a] (after_mkdir params st))).
Proof.
  intros Hget Hall.
  pose proof (after_mkdir_frame params st) as (Hms & Hmf & _).
  split; [|split; [|split]].
  - intros l Hl.
    destruct (findAttachmentByID_first attachments (id params))
      as [(_ & a & _ & _ & _ & _ & Hf) | (_ & Hf)];
      rewrite Hf in Hl; [injection Hl as <-; cbn; lia | discriminate].
  - intros l Hl.
    destruct (findAttachmentByFilename_first attachments (filename params))
      as [(_ & a & _ & _ & _ & _ & Hf) | (_ & Hf)];
      rewrite Hf in Hl; [injection Hl as <-; cbn; lia | discriminate].
  - intros Hnone.
    destruct (download_steps cenv params st attachments Hget Hall)
      as [(x & ->) | (_ & _ & ->)]; [cbn; eauto|].
    unfold selected_by in Hnone.
    destruct (negb (String.eqb (id params) ""));
      [rewrite (findAttachmentByID_none _ _ Hnone); cbn; eauto|].
    destruct (negb (String.eqb (filename params) ""));
      [rewrite (findAttachmentByFilename_none _ _ Hnone)|]; cbn; eauto.
  - intros pre a post -> Ha Hpre.
    pose proof (downloadEach_one cenv (outputDir params) a (after_mkdir params st))
      as (Hsent & Hfiles & _).
    rewrite Hms in Hsent. setoid_rewrite Hmf in Hfiles.
    unfold selected_by in Ha, Hpre.
    split; [|split].
    + destruct (download_steps cenv params st _ Hget Hall)
        as [(x & ->) | (_ & _ & ->)]; [now left|].
      destruct (negb (String.eqb (id params) ""));
        [rewrite (findAttachmentByID_at pre post a _ Ha Hpre); exact Hsent|].
      destruct (negb (String.eqb (filename params) ""));
        [rewrite (findAttachmentByFilename_at pre post a _ Ha Hpre); exact Hsent|].
      left. exact Hms.
    + destruct (download_steps cenv params st _ Hget Hall)
        as [(x & ->) | (_ & _ & ->)]; [reflexivity|].
      destruct (negb (String.eqb (id params) ""));
        [rewrite (findAttachmentByID_at pre post a _ Ha Hpre); exact Hfiles|].
      destruct (negb (String.eqb (filename params) ""));
        [rewrite (findAttachmentByFilename_at pre post a _ Ha Hpre); exact Hfiles|].
      intros p _. cbn. now rewrite Hmf.
    + intros Hkey Hsel Hdir.
      unfold download, after_mkdir. rewrite Hget, Hall.
      destruct (String.eqb_spec (issueKey params) ""); [contradiction|].
      rewrite length_app. cbn [length].
      replace (length pre + S (length post) =? 0)%nat with false
        by (symmetry; apply Nat.eqb_neq; lia).
      assert (Hfind :
        (if negb (String.eqb (id params) "") then
           findAttachmentByID (pre ++ a :: post) (id params)
         else if negb (String.eqb (filename params) "") then
           findAttachmentByFilename (pre ++ a :: post) (filename params)
         else Exits (Failed "Please specify --all, --id, or provide a filename" []))
        = Goes [a]).
      { destruct (String.eqb_spec (id params) "") as [Hid|Hid]; cbn [negb] in *.
        - destruct (String.eqb_spec (filename params) "") as [Hfn|Hfn]; cbn [negb].
          + destruct Hsel; contradiction.
          + now apply findAttachmentByFilename_at.
        - now apply findAttachmentByID_at. }
      destruct (String.eqb_spec (outputDir params) ".") as [Hdot|Hnd]; cbn [negb].
      * rewrite Hfind. reflexivity.
      * destruct Hdir as [|Hmk]; [contradiction|]. rewrite Hmk, Hfind. reflexivity.
Qed.

Lemma download_selects_first_witness :
  ((exists x, fst (download Samples.tracker (Samples.asking "nope.txt") Samples.start)
              = Exits x) /\
   sent (snd (download Samples.tracker (Samples.asking "nope.txt") Samples.start))
   = sent Samples.start /\
   files (snd (download Samples.tracker (Samples.asking "nope.txt") Samples.start))
   = files Samples.start) /\
  download Samples.tracker (Samples.asking "document.pdf") Samples.start
  = downloadEach Samples.tracker "." [Samples.document]
      (after_mkdir (Samples.asking "document.pdf") Samples.start).
Proof.
  split.
  - apply (proj1 (proj2 (proj2
      (download_selects_first Samples.tracker (Samples.asking "nope.txt")
         Samples.start _ eq_refl eq_refl)))).
    repeat constructor; cbn; discriminate.
  - apply (proj2 (proj2 (proj2 (proj2 (proj2
      (download_selects_first Samples.tracker (Samples.asking "document.pdf")
         Samples.start _ eq_refl eq_refl))) [] Samples.document
      [Samples.comma_file; Samples.document_again] eq_refl eq_refl
      (List.Forall_nil _)))).
    + cbn. discriminate.
    + right. cbn. discriminate.
    + now left.
Defined.

Example download_of_a_shared_filename :
  fst (download Samples.tracker (Samples.asking "document.pdf") Samples.start) = Goes tt /\
  map URL (sent (snd (download Samples.tracker (Samples.asking "document.pdf")
                        Samples.start)))
  = ["https://example.com/attachment/10001"] /\
  files (snd (download Samples.tracker (Samples.asking "document.pdf") Samples.start))
    !! "document.pdf" = Some "This is test attachment content".
Proof. vm_compute. repeat split. Qed.

(** * Further properties of the code *)

(** ** More on [formatDate] and [escapeCSV] *)

Lemma substring_prefix_all (s : string) : substring 0 (String.length s) s = s.
Proof. induction s as [|c s IH]; simpl; [reflexivity | now rewrite IH]. Qed.

(** X1. [formatDate] is a projection onto the strings of at most 10 bytes:
    its result is a prefix of its input, has at most 10 bytes, and is left
    unchanged by a second application. *)
Theorem formatDate_idempotent (s : string) :
  exists t rest,
    formatDate s = Some t /\ s = t ++ rest /\
    (String.length t <= 10)%nat /\ formatDate t = Some t.
Proof.
  unfold formatDate, slice_to.
  destruct (Nat.ltb_spec 10 (String.length s)) as [Hlt|Hle].
  - destruct (Nat.leb_spec 10 (String.length s)) as [_|Hbad]; [|lia].
    pose proof (substring_prefix_length s 10 ltac:(lia)) as Hl.
    exists (substring 0 10 s), (substring 10 (String.length s - 10) s).
    split; [reflexivity|]. split; [apply substring_prefix_split; lia|].
    split; [lia|]. rewrite Hl. reflexivity.
  - exists s, "". rewrite append_nil_r.
    split; [reflexivity|]. split; [reflexivity|]. split; [exact Hle|].
    destruct (Nat.ltb_spec 10 (String.length s)); [lia | reflexivity].
Qed.

Lemma append_inj_r (a b q : string) : a ++ q = b ++ q -> a = b.
Proof.
  revert b. induction a as [|x a IH]; intros [|y b] H.
  - reflexivity.
  - apply (f_equal String.length) in H. rewrite !length_append in H.
    simpl in H. lia.
  - apply (f_equal String.length) in H. rewrite !length_append in H.
    simpl in H. lia.
  - rewrite !append_cons in H. injection H as -> H. f_equal. now apply IH.
Qed.

Lemma escaped_has_special (s : string) :
  containsSpecialChar (dquote ++ s ++ dquote) = true.
Proof. reflexivity. Qed.

(** X2. [escapeCSV] is injective: two different fields never get the same
    rendering, although embedded quotes are not doubled. *)
Theorem escapeCSV_injective (s1 s2 : string) :
  escapeCSV s1 = escapeCSV s2 -> s1 = s2.
Proof.
  unfold escapeCSV.
  destruct (containsSpecialChar s1) eqn:E1; destruct (containsSpecialChar s2) eqn:E2;
    intros H.
  - unfold dquote in H. rewrite !append_cons in H. injection H as H.
    change (("" ++ s1) ++ dquote = ("" ++ s2) ++ dquote) in H.
    now apply append_inj_r in H.
  - subst s2. rewrite escaped_has_special in E2. discriminate.
  - subst s1. rewrite escaped_has_special in E1. discriminate.
  - exact H.
Qed.

Lemma escapeCSV_injective_witness :
  "a,b" = "a,b".
Proof. apply (escapeCSV_injective "a,b" "a,b"). reflexivity. Defined.

(** X3. On a field that needs quoting [escapeCSV] is not idempotent: the
    quoted field itself needs quoting, so a second application wraps it
    again, and each application adds two bytes. *)
Theorem escapeCSV_wraps_again (s : string) :
  has_special s ->
  escapeCSV (escapeCSV s) = dquote ++ (dquote ++ s ++ dquote) ++ dquote /\
  escapeCSV (escapeCSV s) <> escapeCSV s /\
  String.length (escapeCSV s) = (String.length s + 2)%nat.
Proof.
  intros H. apply containsSpecialChar_spec in H.
  unfold escapeCSV. rewrite H, escaped_has_special.
  split; [reflexivity | split].
  - intros E. apply (f_equal String.length) in E.
    rewrite !length_append in E. simpl in E. lia.
  - rewrite !length_append. simpl. lia.
Qed.

Lemma escapeCSV_wraps_again_witness :
  escapeCSV (escapeCSV "a,b") = dquote ++ (dquote ++ "a,b" ++ dquote) ++ dquote /\
  escapeCSV (escapeCSV "a,b") <> escapeCSV "a,b" /\
  String.length (escapeCSV "a,b") = (String.length "a,b" + 2)%nat.
Proof.
  apply (escapeCSV_wraps_again "a,b").
  apply containsSpecialChar_spec. reflexivity.
Defined.

(** ** More on [formatSize] *)

(** X4. A negative byte count takes the default branch: it is printed as the
    signed integer followed by [ B], whatever its magnitude. *)
Theorem formatSize_negative (b : Z) :
  b < 0 -> formatSize b = Sprintf_d b ++ " B".
Proof.
  intros Hb. unfold formatSize.
  change GB with 1073741824. change MB with 1048576. change KB with 1024.
  destruct (Z.leb_spec 1073741824 b); [lia|].
  destruct (Z.leb_spec 1048576 b); [lia|].
  destruct (Z.leb_spec 1024 b); [lia | reflexivity].
Qed.

Lemma formatSize_negative_witness : formatSize (-5) = Sprintf_d (-5) ++ " B".
Proof. apply formatSize_negative. lia. Defined.

(** X5. With a unit the printed value is never below 1.00, and below the
    [GB] range it is never above 1024.00: the two-decimal numeral [q / 100]
    has [100 <= q], and [q <= 102400] for sizes below [1024^3].  The upper
    bound is reached just below a threshold. *)
Theorem formatSize_value_bounds :
  (forall b : Z, 1024 <= b < 2 ^ 63 ->
     exists q s unit_,
       formatSize b = s ++ unit_ /\ two_decimals q s /\ 100 <= q /\
       (b < 1024 ^ 3 -> q <= 102400)) /\
  formatSize (1024 ^ 2 - 1) = "1024.00 KB".
Proof.
  split; [|vm_compute; reflexivity].
  intros b Hb. unfold formatSize.
  change GB with 1073741824. change MB with 1048576. change KB with 1024.
  change (1024 ^ 3) with 1073741824.
  destruct (Z.leb_spec 1073741824 b) as [Hg|Hg];
    [|destruct (Z.leb_spec 1048576 b) as [Hm|Hm];
      [|destruct (Z.leb_spec 1024 b) as [Hk|Hk]; [|lia]]].
  - pose proof (float64_of_int64_nonneg b ltac:(lia)) as Hx0.
    pose proof (float64_of_int64_error b ltac:(lia)) as Hxe.
    pose proof (round_half_even_nearest (100 * float64_of_int64 b) 1073741824
                  ltac:(lia)) as Hn.
    unfold nearest in Hn.
    exists (round_half_even (100 * float64_of_int64 b) 1073741824),
      (Sprintf_2f_quot (float64_of_int64 b) 1073741824), " GB".
    split; [reflexivity|].
    split; [apply Sprintf_2f_quot_two_decimals; lia|]. split; lia.
  - rewrite float64_of_int64_exact by (change (2 ^ 53) with 9007199254740992; lia).
    pose proof (round_half_even_nearest (100 * b) 1048576 ltac:(lia)) as Hn.
    unfold nearest in Hn.
    exists (round_half_even (100 * b) 1048576), (Sprintf_2f_quot b 1048576), " MB".
    split; [reflexivity|].
    split; [apply Sprintf_2f_quot_two_decimals; lia|]. split; lia.
  - rewrite float64_of_int64_exact by (change (2 ^ 53) with 9007199254740992; lia).
    pose proof (round_half_even_nearest (100 * b) 1024 ltac:(lia)) as Hn.
    unfold nearest in Hn.
    exists (round_half_even (100 * b) 1024), (Sprintf_2f_quot b 1024), " KB".
    split; [reflexivity|].
    split; [apply Sprintf_2f_quot_two_decimals; lia|]. split; lia.
Qed.

Lemma formatSize_value_bounds_witness :
  exists q s unit_,
    formatSize 1536 = s ++ unit_ /\ two_decimals q s /\ 100 <= q /\
    (1536 < 1024 ^ 3 -> q <= 102400).
Proof. apply (proj1 formatSize_value_bounds 1536). lia. Defined.

(** ** More on [applyAuth] *)

Lemma with_header_twice (req : Request) (h1 h2 : Header) :
  with_header (with_header req h1) h2 = with_header req h2.
Proof. reflexivity. Qed.

(** X6. In basic mode (set, or unset and so defaulted) [applyAuth]
    replaces whatever [Authorization] values the request had by the single
    value [Basic base64(login:token)], and applying it again to its own
    result changes neither the client nor the request. *)
Theorem applyAuth_basic (c : Client) (req : Request) :
  authType c = None \/ authType c = Some AuthTypeBasic ->
  snd (applyAuth c req) = SetBasicAuth req (login c) (token c) /\
  ReqHeader (snd (applyAuth c req)) !! "Authorization"
  = Some ["Basic " ++ base64_EncodeToString (login c ++ ":" ++ token c)] /\
  applyAuth (fst (applyAuth c req)) (snd (applyAuth c req)) = applyAuth c req.
Proof.
  intros Hmode.
  assert (Hreq : forall r, snd (applyAuth c r) = SetBasicAuth r (login c) (token c)).
  { intros r. unfold applyAuth.
    destruct Hmode as [H | H]; rewrite H; cbn [snd];
      destruct c as [s l t a]; cbn in *; subst a; reflexivity. }
  assert (Hcl : forall r r', fst (applyAuth (fst (applyAuth c r)) r') = fst (applyAuth c r)).
  { intros r r'. rewrite !applyAuth_client.
    destruct c as [s l t [a|]]; reflexivity. }
  assert (Hreq' : forall r r', snd (applyAuth (fst (applyAuth c r)) r')
                               = SetBasicAuth r' (login c) (token c)).
  { intros r r'. rewrite applyAuth_client. unfold applyAuth.
    destruct Hmode as [H | H]; rewrite H; cbn [snd];
      destruct c as [s l t a]; cbn in *; subst a; reflexivity. }
  split; [apply Hreq|]. split.
  - rewrite Hreq. unfold SetBasicAuth, Header_Set. cbn. apply lookup_insert_eq.
  - apply injective_projections; [apply Hcl|].
    rewrite Hreq', Hreq. unfold SetBasicAuth, Header_Set. cbn.
    rewrite with_header_twice. now rewrite insert_insert_eq.
Qed.

Lemma applyAuth_basic_witness :
  ReqHeader (snd (applyAuth Samples.test_client
     {| Method := "GET"; URL := "u";
        ReqHeader := {["Authorization" := ["Bearer stale"]]}; ReqBody := "" |}))
    !! "Authorization"
  = Some ["Basic " ++ base64_EncodeToString ("test" ++ ":" ++ "token")].
Proof.
  apply (proj1 (proj2 (applyAuth_basic Samples.test_client _ (or_introl eq_refl)))).
Defined.

(** X7. In bearer mode [applyAuth] adds the value [Bearer token] after the
    [Authorization] values the request already has, which it keeps; it does
    so also when the token is empty, and it leaves the client as it is.  So
    each application adds one more value. *)
Theorem applyAuth_bearer (c : Client) (req : Request) :
  authType c = Some AuthTypeBearer ->
  fst (applyAuth c req) = c /\
  ReqHeader (snd (applyAuth c req)) !! "Authorization"
  = Some (default [] (ReqHeader req !! "Authorization") ++ ["Bearer " +:+ token c])%list /\
  length (default [] (ReqHeader (snd (applyAuth c req)) !! "Authorization"))
  = S (length (default [] (ReqHeader req !! "Authorization"))).
Proof.
  intros Hmode.
  assert (Hh : ReqHeader (snd (applyAuth c req)) !! "Authorization"
    = Some (default [] (ReqHeader req !! "Authorization") ++ ["Bearer " +:+ token c])%list).
  { unfold applyAuth. rewrite Hmode. cbn [snd]. rewrite Hmode. cbn.
    unfold Header_Add. apply lookup_insert_eq. }
  split; [rewrite applyAuth_client, Hmode; reflexivity|].
  split; [exact Hh|]. rewrite Hh. cbn. rewrite length_app. cbn. lia.
Qed.

Lemma applyAuth_bearer_witness :
  ReqHeader (snd (applyAuth
     {| server := "s"; login := ""; token := "t"; authType := Some AuthTypeBearer |}
     {| Method := "GET"; URL := "u";
        ReqHeader := {["Authorization" := ["Bearer t"]]}; ReqBody := "" |}))
    !! "Authorization"
  = Some ["Bearer t"; "Bearer t"].
Proof.
  rewrite (proj1 (proj2 (applyAuth_bearer
    {| server := "s"; login := ""; token := "t"; authType := Some AuthTypeBearer |}
    {| Method := "GET"; URL := "u";
       ReqHeader := {["Authorization" := ["Bearer t"]]}; ReqBody := "" |} eq_refl))).
  vm_compute. reflexivity.
Defined.

(** X8. The mode switch has no default case: with a mode that is none of
    basic, bearer and mTLS (and not empty) [applyAuth] changes nothing, and
    the request goes out without credentials. *)
Theorem applyAuth_unknown_mode (c : Client) (req : Request) (mode : string) :
  authType c = Some mode ->
  mode <> "" -> mode <> AuthTypeBasic -> mode <> AuthTypeBearer ->
  mode <> AuthTypeMTLS ->
  applyAuth c req = (c, req).
Proof.
  intros Hmode He Hb Hbe Hm. unfold applyAuth. rewrite Hmode, Hmode.
  change (default "" (Some mode)) with mode. unfold AuthType_String.
  destruct (String.eqb_spec mode ""); [contradiction|].
  destruct (String.eqb_spec mode AuthTypeMTLS); [contradiction|].
  destruct (String.eqb_spec mode AuthTypeBearer); [contradiction|].
  destruct (String.eqb_spec mode AuthTypeBasic); [contradiction|].
  reflexivity.
Qed.

Lemma applyAuth_unknown_mode_witness :
  applyAuth {| server := "s"; login := "l"; token := "t"; authType := Some "oauth" |}
    {| Method := "GET"; URL := "u"; ReqHeader := ∅; ReqBody := "" |}
  = ({| server := "s"; login := "l"; token := "t"; authType := Some "oauth" |},
     {| Method := "GET"; URL := "u"; ReqHeader := ∅; ReqBody := "" |}).
Proof.
  apply (applyAuth_unknown_mode
           {| server := "s"; login := "l"; token := "t"; authType := Some "oauth" |}
           _ "oauth" eq_refl); discriminate.
Defined.

(** ** More on the upload *)

(** [postWithHeaders] changes neither files nor directories, and of the
    client at most the defaulted mode. *)
Lemma postWithHeaders_frame (env : Env) (endpoint body : string)
    (headers : gmap string string) (st : State) :
  files (snd (postWithHeaders env endpoint body headers st)) = files st /\
  dirs (snd (postWithHeaders env endpoint body headers st)) = dirs st /\
  (client (snd (postWithHeaders env endpoint body headers st)) = client st \/
   client (snd (postWithHeaders env endpoint body headers st))
   = with_authType (client st) (Some AuthTypeBasic)).
Proof.
  unfold postWithHeaders, http_NewRequest.
  destruct (http_NewRequest_err env "POST" endpoint) as [err|]; [cbn; auto|].
  set (req0 := with_header _ _).
  pose proof (applyAuth_client (client st) req0) as Hc.
  destruct (applyAuth (client st) req0) as [c req]. cbn [fst] in Hc.
  unfold httpClient_Do. destruct (http_Do env req); cbn; subst c;
    (split; [reflexivity|]); (split; [reflexivity|]);
    destruct (authType (client st)); auto.
Qed.

(** X9. An upload that is not prepared (the file does not open, the
    multipart message or the request cannot be built) returns the error of
    the failing step with the whole state as it was: nothing reaches the
    server.  In particular the error of [os.Open] is returned as it is. *)
Theorem uploadAttachment_local_failure (env : Env) (key filePath ver : string)
    (st : State) :
  (~ upload_prepared env key filePath ver st ->
   snd (uploadAttachment env key filePath ver st) = st /\
   exists err, fst (uploadAttachment env key filePath ver st) = ([], Some err)) /\
  (forall err, os_Open_err env filePath = Some err ->
   uploadAttachment env key filePath ver st = (([], Some err), st)).
Proof.
  split.
  - unfold upload_prepared, uploadAttachment. intros Hn.
    destruct (os_Open_err env filePath) as [e|]; [cbn; eauto|].
    destruct (multipart_CreateFormFile_err env "file" (filepath_Base env filePath))
      as [e|]; [cbn; eauto|].
    destruct (io_Copy_from_file env filePath) as [content|e]; [|cbn; eauto].
    destruct (multipart_Close_err env) as [e|]; [cbn; eauto|].
    assert (He : exists e,
      http_NewRequest_err env "POST"
        (server (client st)
         ++ (if String.eqb ver apiVersion2 then baseURLv2 else baseURLv3)
         ++ "/issue/" ++ key ++ "/attachments") = Some e).
    { destruct (http_NewRequest_err env "POST" _) as [e|] eqn:E; [eauto|].
      exfalso. apply Hn. repeat split; eauto. }
    destruct He as (e & He). unfold postWithHeaders, http_NewRequest.
    destruct (String.eqb ver apiVersion2); rewrite He; cbn; eauto.
  - intros err Ho. unfold uploadAttachment. rewrite Ho. reflexivity.
Qed.

Lemma uploadAttachment_local_failure_witness :
  uploadAttachment
    (Samples.with_open Samples.accepting (Some (LibError "no such file or directory")))
    "TEST-1" "/nonexistent/file.txt" apiVersion3 Samples.start
  = (([], Some (LibError "no such file or directory")), Samples.start).
Proof.
  apply (proj2 (uploadAttachment_local_failure
    (Samples.with_open Samples.accepting (Some (LibError "no such file or directory")))
    "TEST-1" "/nonexistent/file.txt" apiVersion3 Samples.start)).
  reflexivity.
Defined.

(** X10. An upload reports success exactly when its request was answered
    with status 200 and a body that decodes; the attachments returned are
    then the decoded ones, however many there are. *)
Theorem uploadAttachment_success (env : Env) (key filePath ver : string) (st : State) :
  (forall req res attachments,
     sent (snd (uploadAttachment env key filePath ver st)) = (sent st ++ [req])%list ->
     http_Do env req = Ok res -> StatusCode res = 200 ->
     json_Decode_attachments env (Body res) = Ok attachments ->
     fst (uploadAttachment env key filePath ver st) = (attachments, None)) /\
  (snd (fst (uploadAttachment env key filePath ver st)) = None ->
   exists req res,
     sent (snd (uploadAttachment env key filePath ver st)) = (sent st ++ [req])%list /\
     http_Do env req = Ok res /\ StatusCode res = 200 /\
     json_Decode_attachments env (Body res)
     = Ok (fst (fst (uploadAttachment env key filePath ver st)))).
Proof.
  destruct (uploadAttachment_answer env key filePath ver st)
    as [(_ & Hs & e & He) | (_ & req' & Hs & _ & _ & _ & Hres)].
  - split.
    + intros req res l Hsent. rewrite Hs in Hsent.
      apply (f_equal length) in Hsent. rewrite length_app in Hsent.
      simpl in Hsent. lia.
    + rewrite He. discriminate.
  - split.
    + intros req res l Hsent Hdo Hok Hdec. rewrite Hs in Hsent.
      apply app_inv_head in Hsent. injection Hsent as ->.
      rewrite Hres, Hdo, Hok, Hdec. reflexivity.
    + rewrite Hres. destruct (http_Do env req') as [res|e] eqn:Hdo; [|discriminate].
      destruct (Z.eqb_spec (StatusCode res) 200) as [Hok|Hne]; cbn [negb];
        [|discriminate].
      destruct (json_Decode_attachments env (Body res)) as [l|e] eqn:Hdec;
        [|discriminate].
      intros _. exists req', res. repeat split; assumption.
Qed.

Lemma uploadAttachment_success_witness :
  fst (uploadAttachment Samples.accepting "TEST-1" "test.txt" apiVersion3 Samples.start)
  = ([Samples.uploaded], None).
Proof.
  eapply (proj1 (uploadAttachment_success Samples.accepting "TEST-1" "test.txt"
                   apiVersion3 Samples.start)
            _ (Samples.reply 200 "200 OK" "[...]") [Samples.uploaded]
            eq_refl eq_refl eq_refl eq_refl).
Defined.

Lemma set_headers_fmap (headers : gmap string string) :
  map_fold (fun k v h => Header_Set h k v) (∅ : Header) headers
  = (fun v => [v]) <$> headers.
Proof.
  apply map_eq. intros k. rewrite set_headers_lookup, lookup_fmap.
  destruct (headers !! k); [reflexivity | apply lookup_empty].
Qed.

(** X11. An upload changes no local file or directory.  When it is prepared
    it sends exactly one request: a POST whose body is the multipart message
    made of the field name [file], the base name of the path and the content
    read from the file, with the two headers [Content-Type] (that of the
    multipart writer) and [X-Atlassian-Token], and then authenticated by
    [applyAuth]. *)
Theorem uploadAttachment_request (env : Env) (key filePath ver : string) (st : State) :
  files (snd (uploadAttachment env key filePath ver st)) = files st /\
  dirs (snd (uploadAttachment env key filePath ver st)) = dirs st /\
  (upload_prepared env key filePath ver st ->
   exists content,
     io_Copy_from_file env filePath = Ok content /\
     sent (snd (uploadAttachment env key filePath ver st))
     = (sent st ++
        [snd (applyAuth (client st)
           {| Method := "POST";
              URL := server (client st)
                     +:+ (if String.eqb ver apiVersion2 then baseURLv2 else baseURLv3)
                     +:+ "/issue/" +:+ key +:+ "/attachments";
              ReqHeader :=
                <["Content-Type" := [multipart_FormDataContentType env]]>
                  (<["X-Atlassian-Token" := ["no-check"]]> ∅);
              ReqBody := multipart_body env "file" (filepath_Base env filePath)
                           content |})])%list).
Proof.
  unfold upload_prepared, uploadAttachment.
  destruct (os_Open_err env filePath) as [e|];
    [cbn; split; [reflexivity | split; [reflexivity | intros (H & _); discriminate]]|].
  destruct (multipart_CreateFormFile_err env "file" (filepath_Base env filePath))
    as [e|];
    [cbn; split; [reflexivity | split; [reflexivity | intros (_ & H & _); discriminate]]|].
  destruct (io_Copy_from_file env filePath) as [content|e];
    [|cbn; split; [reflexivity | split; [reflexivity
       | intros (_ & _ & (c & H) & _); discriminate]]].
  destruct (multipart_Close_err env) as [e|];
    [cbn; split; [reflexivity | split; [reflexivity
       | intros (_ & _ & _ & H & _); discriminate]]|].
  set (headers := <["Content-Type" := _]> _).
  set (body := multipart_body env _ _ _).
  set (endpoint := server (client st)
     ++ (if String.eqb ver apiVersion2 then baseURLv2 else baseURLv3)
     ++ "/issue/" ++ key ++ "/attachments").
  assert (Hpost :
    (if String.eqb ver apiVersion2
     then postWithHeaders env (server (client st) ++ baseURLv2
                               ++ "/issue/" ++ key ++ "/attachments") body headers st
     else postWithHeaders env (server (client st) ++ baseURLv3
                               ++ "/issue/" ++ key ++ "/attachments") body headers st)
    = postWithHeaders env endpoint body headers st).
  { unfold endpoint. destruct (String.eqb ver apiVersion2); reflexivity. }
  rewrite Hpost. clear Hpost.
  pose proof (postWithHeaders_frame env endpoint body headers st) as (Hf & Hd & _).
  assert (Hsent : http_NewRequest_err env "POST" endpoint = None ->
    sent (snd (postWithHeaders env endpoint body headers st))
    = (sent st ++
       [snd (applyAuth (client st)
          {| Method := "POST"; URL := endpoint;
             ReqHeader := <["Content-Type" := [multipart_FormDataContentType env]]>
                            (<["X-Atlassian-Token" := ["no-check"]]> ∅);
             ReqBody := body |})])%list).
  { intros Hnr. unfold postWithHeaders, http_NewRequest. rewrite Hnr.
    unfold with_header at 1. cbn [Method URL ReqHeader ReqBody].
    rewrite set_headers_fmap. unfold headers.
    rewrite !fmap_insert, fmap_empty.
    destruct (applyAuth (client st) _) as [c req]. unfold httpClient_Do.
    destruct (http_Do env req); reflexivity. }
  destruct (postWithHeaders env endpoint body headers st) as [[res err] st'].
  cbn [snd] in *.
  assert (Hst : forall (r : list Attachment * option error),
    snd (r, st') = st') by reflexivity.
  split; [|split].
  - destruct err; [exact Hf|]. destruct res as [res|]; [|exact Hf].
    destruct (negb (StatusCode res =? StatusOK)); [exact Hf|].
    destruct (json_Decode_attachments env (Body res)); exact Hf.
  - destruct err; [exact Hd|]. destruct res as [res|]; [|exact Hd].
    destruct (negb (StatusCode res =? StatusOK)); [exact Hd|].
    destruct (json_Decode_attachments env (Body res)); exact Hd.
  - intros (_ & _ & _ & _ & Hnr). exists content. split; [reflexivity|].
    specialize (Hsent Hnr).
    destruct err; [exact Hsent|]. destruct res as [res|]; [|exact Hsent].
    destruct (negb (StatusCode res =? StatusOK)); [exact Hsent|].
    destruct (json_Decode_attachments env (Body res)); exact Hsent.
Qed.

Lemma uploadAttachment_request_witness :
  exists content,
    io_Copy_from_file Samples.accepting "test.txt" = Ok content /\
    map URL (sent (snd (uploadAttachment Samples.accepting "TEST-1" "test.txt"
                          apiVersion2 Samples.start)))
    = ["http://127.0.0.1/rest/api/2/issue/TEST-1/attachments"].
Proof.
  destruct (proj2 (proj2 (uploadAttachment_request Samples.accepting "TEST-1"
                            "test.txt" apiVersion2 Samples.start)))
    as (content & Hc & Hs).
  - unfold upload_prepared. cbn. repeat split; try reflexivity.
    exists "test content". reflexivity.
  - exists content. split; [exact Hc|]. rewrite Hs. reflexivity.
Defined.

(** ** More on [DownloadAttachment] *)

(** X12. A download that gets no response returns the error as it is and
    leaves every file alone: when the request cannot be built nothing is
    sent and the state is as it was, and a transport error comes back
    unchanged. *)
Theorem DownloadAttachment_no_response (env : Env) (url destPath : string) (st : State) :
  (forall err, http_NewRequest_err env "GET" url = Some err ->
     DownloadAttachment env url destPath st = (Some err, st)) /\
  (forall req err,
     sent (snd (DownloadAttachment env url destPath st)) = (sent st ++ [req])%list ->
     http_Do env req = Err err ->
     fst (DownloadAttachment env url destPath st) = Some err /\
     files (snd (DownloadAttachment env url destPath st)) = files st).
Proof.
  pose proof (DownloadAttachment_answer env url destPath st) as H.
  split.
  - intros err He. rewrite He in H. exact H.
  - intros req err Hsent Hdo.
    destruct (http_NewRequest_err env "GET" url) as [e|].
    { rewrite H in Hsent. cbn in Hsent. apply (f_equal length) in Hsent.
      rewrite length_app in Hsent. simpl in Hsent. lia. }
    destruct H as (req' & Hs & _ & _ & _ & Hres).
    rewrite Hs in Hsent. apply app_inv_head in Hsent. injection Hsent as ->.
    rewrite Hdo in Hres. injection Hres as -> ->. split; reflexivity.
Qed.

Lemma DownloadAttachment_no_response_witness :
  fst (DownloadAttachment
         (Samples.world (Err (LibError "connection refused")) (None, None) (Ok []))
         "http://127.0.0.1/attachments/test.txt" "downloaded.txt" Samples.start)
  = Some (LibError "connection refused") /\
  files (snd (DownloadAttachment
         (Samples.world (Err (LibError "connection refused")) (None, None) (Ok []))
         "http://127.0.0.1/attachments/test.txt" "downloaded.txt" Samples.start))
  = files Samples.start.
Proof.
  eapply (proj2 (DownloadAttachment_no_response
                   (Samples.world (Err (LibError "connection refused")) (None, None) (Ok []))
                   _ _ Samples.start) _ _ eq_refl eq_refl).
Defined.

(** What a download does to the files, and that it keeps the directories. *)
Lemma DownloadAttachment_files (env : Env) (url destPath : string) (st : State) :
  dirs (snd (DownloadAttachment env url destPath st)) = dirs st /\
  (files (snd (DownloadAttachment env url destPath st)) = files st \/
   exists content,
     files (snd (DownloadAttachment env url destPath st))
     = <[destPath := content]> (files st)) /\
  (fst (DownloadAttachment env url destPath st) = None ->
   is_Some (files (snd (DownloadAttachment env url destPath st)) !! destPath)).
Proof.
  pose proof (DownloadAttachment_answer env url destPath st) as H.
  destruct (http_NewRequest_err env "GET" url) as [e|].
  { rewrite H. cbn. split; [reflexivity | split; [now left | discriminate]]. }
  destruct H as (req & _ & _ & _ & Hd & Hres).
  destruct (DownloadAttachment env url destPath st) as [r st']. cbn [fst snd] in *.
  split; [exact Hd|].
  destruct (http_Do env req) as [res|e];
    [destruct (negb (StatusCode res =? 200));
     [|destruct (os_Create_err env destPath);
       [|destruct (io_Copy_to_file_err env destPath (Body res)) as [[w e]|]]]|];
    injection Hres as -> ->;
    (split; [eauto | try discriminate]).
  intros _. rewrite lookup_insert_eq. eauto.
Qed.

Lemma DownloadAttachment_other_files (env : Env) (url destPath : string) (st : State)
    (p : string) :
  p <> destPath ->
  files (snd (DownloadAttachment env url destPath st)) !! p = files st !! p.
Proof.
  intros Hp.
  destruct (DownloadAttachment_files env url destPath st) as (_ & [Hf | (c & Hf)] & _);
    rewrite Hf; [reflexivity|].
  now rewrite lookup_insert_ne.
Qed.

(** X13. A download touches no file but its destination, and no
    directory. *)
Theorem DownloadAttachment_frame (env : Env) (url destPath : string) (st : State) :
  dirs (snd (DownloadAttachment env url destPath st)) = dirs st /\
  forall p, p <> destPath ->
    files (snd (DownloadAttachment env url destPath st)) !! p = files st !! p.
Proof.
  destruct (DownloadAttachment_files env url destPath st) as (Hd & [Hf | (c & Hf)] & _);
    (split; [exact Hd|]); intros p Hp; rewrite Hf; [reflexivity|].
  now rewrite lookup_insert_ne.
Qed.

Lemma DownloadAttachment_frame_witness :
  files (snd (DownloadAttachment Samples.serving "http://127.0.0.1/attachments/test.txt"
                "downloaded.txt" Samples.start)) !! "other.txt"
  = files Samples.start !! "other.txt".
Proof.
  apply (proj2 (DownloadAttachment_frame Samples.serving _ "downloaded.txt"
                  Samples.start)).
  discriminate.
Defined.

(** X14. [DownloadAttachment] itself does not protect an existing
    destination: on status 200, once the file is created, whatever the
    destination held before is gone and the file holds a prefix of the body;
    when the copy fails after [written] bytes the error is returned and the
    truncated file stays behind. *)
Theorem DownloadAttachment_overwrites (env : Env) (url destPath : string) (st : State)
    (req : Request) (res : Response) :
  sent (snd (DownloadAttachment env url destPath st)) = (sent st ++ [req])%list ->
  http_Do env req = Ok res ->
  StatusCode res = 200 ->
  os_Create_err env destPath = None ->
  (exists n, files (snd (DownloadAttachment env url destPath st)) !! destPath
             = Some (substring 0 n (Body res))) /\
  (forall written err,
     io_Copy_to_file_err env destPath (Body res) = Some (written, err) ->
     fst (DownloadAttachment env url destPath st) = Some err /\
     files (snd (DownloadAttachment env url destPath st)) !! destPath
     = Some (substring 0 written (Body res))).
Proof.
  intros Hsent Hdo Hok Hcr.
  pose proof (DownloadAttachment_answer env url destPath st) as H.
  destruct (http_NewRequest_err env "GET" url) as [e|].
  { rewrite H in Hsent. cbn in Hsent. apply (f_equal length) in Hsent.
    rewrite length_app in Hsent. simpl in Hsent. lia. }
  destruct H as (req' & Hs & _ & _ & _ & Hres).
  rewrite Hs in Hsent. apply app_inv_head in Hsent. injection Hsent as ->.
  rewrite Hdo, Hok, Hcr in Hres. cbn in Hres.
  destruct (io_Copy_to_file_err env destPath (Body res)) as [[w e]|];
    injection Hres as -> ->; rewrite lookup_insert_eq.
  - split; [eauto|]. intros written err [= -> ->]. split; reflexivity.
  - split; [|discriminate]. exists (String.length (Body res)).
    now rewrite substring_prefix_all.
Qed.

Lemma DownloadAttachment_overwrites_witness :
  fst (DownloadAttachment
         (Samples.with_disk Samples.serving None (Some (4%nat, LibError "disk full")))
         "http://127.0.0.1/attachments/test.txt" "downloaded.txt"
         (with_files Samples.start {["downloaded.txt" := "precious"]}))
  = Some (LibError "disk full") /\
  files (snd (DownloadAttachment
         (Samples.with_disk Samples.serving None (Some (4%nat, LibError "disk full")))
         "http://127.0.0.1/attachments/test.txt" "downloaded.txt"
         (with_files Samples.start {["downloaded.txt" := "precious"]})))
    !! "downloaded.txt"
  = Some "This".
Proof.
  eapply (proj2 (DownloadAttachment_overwrites
            (Samples.with_disk Samples.serving None (Some (4%nat, LibError "disk full")))
            _ _ (with_files Samples.start {["downloaded.txt" := "precious"]})
            _ (Samples.reply 200 "200 OK" "This is test attachment content")
            eq_refl eq_refl eq_refl eq_refl) 4%nat (LibError "disk full") eq_refl).
Defined.

(** ** More on the download command *)

(** One round of the download loop: it stops when the destination exists or
    the download fails, and goes on from the state the download left. *)
Lemma downloadEach_step (cenv : CmdEnv) (dir : string) (a : Attachment)
    (rest : list Attachment) (st : State) (dest : string) :
  dest = filepath_Join cenv dir (Filename a) ->
  (os_Stat_ok st dest = true /\
   exists x, downloadEach cenv dir (a :: rest) st = (Exits x, st))
  \/
  (os_Stat_ok st dest = false /\
   ((exists err,
       fst (DownloadAttachment (jira_env cenv) (Content a) dest st) = Some err /\
       downloadEach cenv dir (a :: rest) st
       = (Exits (OnError err),
          snd (DownloadAttachment (jira_env cenv) (Content a) dest st)))
    \/
    (fst (DownloadAttachment (jira_env cenv) (Content a) dest st) = None /\
     downloadEach cenv dir (a :: rest) st
     = downloadEach cenv dir rest
         (snd (DownloadAttachment (jira_env cenv) (Content a) dest st))))).
Proof.
  intros ->. cbn [downloadEach].
  destruct (os_Stat_ok st (filepath_Join cenv dir (Filename a))); [left; eauto|].
  right. split; [reflexivity|].
  destruct (DownloadAttachment (jira_env cenv) (Content a)
              (filepath_Join cenv dir (Filename a)) st) as [[err|] st'];
    cbn; eauto.
Qed.

Lemma os_Stat_ok_false (st : State) (path : string) :
  os_Stat_ok st path = false -> files st !! path = None.
Proof.
  unfold os_Stat_ok. intros H. apply orb_false_elim in H as [H _].
  apply bool_decide_eq_false in H.
  destruct (files st !! path); [exfalso; apply H; eauto | reflexivity].
Qed.

Lemma os_Stat_ok_file (st : State) (path : string) :
  is_Some (files st !! path) -> os_Stat_ok st path = true.
Proof.
  intros H. unfold os_Stat_ok. apply orb_true_intro. left.
  now apply bool_decide_eq_true.
Qed.

(** The download loop works through the attachments in order, one request
    each, and stops at the first that fails. *)
Lemma downloadEach_sequential (cenv : CmdEnv) (dir : string)
    (attachments : list Attachment) (st : State) :
  exists reqs,
    sent (snd (downloadEach cenv dir attachments st)) = (sent st ++ reqs)%list /\
    Forall (fun req => Method req = "GET") reqs /\
    map URL reqs = map Content (take (length reqs) attachments) /\
    (fst (downloadEach cenv dir attachments st) = Goes tt ->
     length reqs = length attachments).
Proof.
  revert st. induction attachments as [|a rest IH]; intros st.
  - exists []. cbn. rewrite app_nil_r. repeat split; constructor.
  - destruct (downloadEach_step cenv dir a rest st _ eq_refl)
      as [(_ & x & ->) | (_ & [(err & Herr & ->) | (Hok & ->)])].
    + exists []. cbn. rewrite app_nil_r. repeat split; [constructor | discriminate].
    + cbn [fst snd].
      pose proof (DownloadAttachment_answer (jira_env cenv) (Content a)
                    (filepath_Join cenv dir (Filename a)) st) as H.
      destruct (http_NewRequest_err (jira_env cenv) "GET" (Content a)) as [e|].
      * rewrite H. exists []. cbn. rewrite app_nil_r.
        repeat split; [constructor | discriminate].
      * destruct H as (req & Hs & Hm & Hu & _). exists [req].
        repeat split; [exact Hs | now repeat constructor | cbn; now rewrite Hu
                      | discriminate].
    + pose proof (DownloadAttachment_answer (jira_env cenv) (Content a)
                    (filepath_Join cenv dir (Filename a)) st) as H.
      destruct (http_NewRequest_err (jira_env cenv) "GET" (Content a)) as [e|].
      { rewrite H in Hok. discriminate. }
      destruct H as (req & Hs & Hm & Hu & _).
      destruct (IH (snd (DownloadAttachment (jira_env cenv) (Content a)
                      (filepath_Join cenv dir (Filename a)) st)))
        as (reqs & Hs' & Hall & Hurl & Hlen).
      exists (req :: reqs). rewrite Hs', Hs, <- app_assoc.
      repeat split.
      * now constructor.
      * cbn. now rewrite Hu, Hurl.
      * intros Hg. cbn. now rewrite Hlen.
Qed.

(** The download loop never changes a file that was there when it
    started. *)
Lemma downloadEach_keeps_existing_files (cenv : CmdEnv) (dir : string)
    (attachments : list Attachment) (st : State) (p content : string) :
  files st !! p = Some content ->
  files (snd (downloadEach cenv dir attachments st)) !! p = Some content.
Proof.
  revert st. induction attachments as [|a rest IH]; intros st Hp; [exact Hp|].
  destruct (downloadEach_step cenv dir a rest st _ eq_refl)
    as [(_ & x & ->) | (Hstat & [(err & _ & ->) | (_ & ->)])]; [exact Hp| |];
    apply os_Stat_ok_false in Hstat;
    assert (Hne : p <> filepath_Join cenv dir (Filename a)) by congruence;
    pose proof (DownloadAttachment_other_files (jira_env cenv) (Content a)
                  (filepath_Join cenv dir (Filename a)) st p Hne) as Hfr.
  - cbn [snd]. now rewrite Hfr.
  - apply IH. now rewrite Hfr.
Qed.

(** Files only accumulate along the loop. *)
Lemma downloadEach_files_grow (cenv : CmdEnv) (dir : string)
    (attachments : list Attachment) (st : State) (p : string) :
  is_Some (files st !! p) ->
  is_Some (files (snd (downloadEach cenv dir attachments st)) !! p).
Proof.
  intros (c & Hc). exists c. now apply downloadEach_keeps_existing_files.
Qed.

(** The download loop completes only when the destinations of the
    attachments are pairwise different and none of them existed. *)
Lemma downloadEach_completes_without_duplicates (cenv : CmdEnv) (dir : string)
    (attachments : list Attachment) (st : State) :
  fst (downloadEach cenv dir attachments st) = Goes tt ->
  NoDup (map (fun a => filepath_Join cenv dir (Filename a)) attachments) /\
  Forall (fun a => files st !! filepath_Join cenv dir (Filename a) = None /\
                   is_Some (files (snd (downloadEach cenv dir attachments st))
                              !! filepath_Join cenv dir (Filename a)))
    attachments.
Proof.
  revert st. induction attachments as [|a rest IH]; intros st Hg.
  - split; constructor.
  - set (dest := filepath_Join cenv dir (Filename a)).
    destruct (downloadEach_step cenv dir a rest st dest eq_refl)
      as [(_ & x & Hx) | (Hstat & [(err & _ & Hx) | (Hok & Hx)])];
      rewrite Hx in *; try discriminate.
    set (st1 := snd (DownloadAttachment (jira_env cenv) (Content a) dest st)) in *.
    destruct (IH st1 Hg) as (Hnd & Hall).
    assert (Hdest : is_Some (files st1 !! dest))
      by (apply (DownloadAttachment_files (jira_env cenv) (Content a) dest st), Hok).
    destruct Hdest as (held & Hdest').
    apply os_Stat_ok_false in Hstat.
    split; [|constructor].
    + cbn [map]. constructor; [|exact Hnd]. fold dest.
      intros Hin. apply list_elem_of_In in Hin.
      apply in_map_iff in Hin as (b & Hb & Hin).
      rewrite List.Forall_forall in Hall. apply Hall in Hin as (Hnone & _).
      rewrite Hb, Hdest' in Hnone. discriminate.
    + split; [exact Hstat|]. apply downloadEach_files_grow. eauto.
    + rewrite List.Forall_forall in Hall |- *. intros b Hb.
      destruct (Hall b Hb) as (Hnone & Hsome). split; [|exact Hsome].
      destruct (decide (filepath_Join cenv dir (Filename b) = dest)) as [E|Hne].
      * rewrite E, Hdest' in Hnone. discriminate.
      * rewrite <- Hnone.
        symmetry.
        apply (DownloadAttachment_other_files (jira_env cenv) (Content a) dest st).
        exact Hne.
Qed.

Example download_all_with_a_shared_filename :
  fst (download Samples.tracker
         {| issueKey := "TEST-1"; filename := ""; all := true; id := "";
            outputDir := "."; debug := false |} Samples.start)
  = Exits (Failed
      "File %q already exists. Please remove it or use a different output directory"
      ["document.pdf"]).
Proof. vm_compute. reflexivity. Qed.

(** The command either ends before the loop, with files and requests as they
    were, or runs the loop on the selected attachments, which are all the
    attachments of the issue when all are asked for. *)
Lemma download_shape (cenv : CmdEnv) (params : downloadParams) (st : State) :
  (exists x st0, download cenv params st = (Exits x, st0) /\
                 files st0 = files st /\ sent st0 = sent st)
  \/
  (exists selected attachments,
     ProxyGetIssue cenv (issueKey params) = Ok attachments /\
     (all params = true -> selected = attachments) /\
     download cenv params st
     = downloadEach cenv (outputDir params) selected (after_mkdir params st)).
Proof.
  pose proof (after_mkdir_frame params st) as (Hms & Hmf & _).
  unfold download, after_mkdir in *.
  destruct (String.eqb (issueKey params) ""); [left; eauto|].
  destruct (ProxyGetIssue cenv (issueKey params)) as [attachments|e]; [|left; eauto].
  destruct (length attachments =? 0)%nat; [left; eauto|].
  destruct (negb (String.eqb (outputDir params) "."));
    [destruct (os_MkdirAll_err cenv (outputDir params)); [left; eauto|]|];
    (destruct (all params); [right; exists attachments, attachments; auto|];
     destruct (negb (String.eqb (id params) ""));
     [destruct (findAttachmentByID attachments (id params)) as [l|x];
      [right; exists l, attachments; repeat split; auto; discriminate
      |left; eauto]|];
     destruct (negb (String.eqb (filename params) ""));
     [destruct (findAttachmentByFilename attachments (filename params)) as [l|x];
      [right; exists l, attachments; repeat split; auto; discriminate
      |left; eauto]|];
     left; eauto).
Qed.

(** X15. Asked for all attachments, the download command works through the
    attachments of the issue in order, one request each, and stops at the
    first that fails: the requests it sends are GET requests to the content
    URLs of a prefix of the issue's list, and of the whole list when the
    command completes. *)
Theorem download_all_sequential (cenv : CmdEnv) (params : downloadParams) (st : State)
    (attachments : list Attachment) :
  ProxyGetIssue cenv (issueKey params) = Ok attachments ->
  all params = true ->
  exists reqs,
    sent (snd (download cenv params st)) = (sent st ++ reqs)%list /\
    Forall (fun req => Method req = "GET") reqs /\
    map URL reqs = map Content (take (length reqs) attachments) /\
    (fst (download cenv params st) = Goes tt -> length reqs = length attachments).
Proof.
  intros Hget Hall.
  destruct (download_shape cenv params st)
    as [(x & st0 & -> & _ & Hs) | (l & atts & Hget' & Hsel & ->)].
  - exists []. cbn. rewrite app_nil_r.
    repeat split; [exact Hs | constructor | discriminate].
  - rewrite Hget in Hget'. injection Hget' as <-. rewrite (Hsel Hall).
    destruct (downloadEach_sequential cenv (outputDir params) attachments
                (after_mkdir params st)) as (reqs & Hs & Hrest).
    exists reqs. rewrite Hs, (proj1 (after_mkdir_frame params st)).
    split; [reflexivity | exact Hrest].
Qed.

Lemma download_all_sequential_witness :
  exists reqs,
    sent (snd (download Samples.tracker (Samples.asking_all ".") Samples.start))
    = (sent Samples.start ++ reqs)%list /\
    Forall (fun req => Method req = "GET") reqs /\
    map URL reqs
    = map Content (take (length reqs)
                     [Samples.document; Samples.comma_file; Samples.document_again]) /\
    (fst (download Samples.tracker (Samples.asking_all ".") Samples.start) = Goes tt ->
     length reqs
     = length [Samples.document; Samples.comma_file; Samples.document_again]).
Proof.
  apply (download_all_sequential Samples.tracker (Samples.asking_all ".")
           Samples.start _ eq_refl eq_refl).
Defined.

(** X16. The download command never changes a file that was there when it
    started: every path that held a file still holds the same content
    afterwards, whatever is asked for and however the command ends. *)
Theorem download_keeps_existing_files (cenv : CmdEnv) (params : downloadParams)
    (st : State) (p content : string) :
  files st !! p = Some content ->
  files (snd (download cenv params st)) !! p = Some content.
Proof.
  intros Hp.
  destruct (download_shape cenv params st)
    as [(x & st0 & -> & Hf & _) | (l & atts & _ & _ & ->)].
  - cbn. now rewrite Hf.
  - apply downloadEach_keeps_existing_files.
    now rewrite (proj1 (proj2 (after_mkdir_frame params st))).
Qed.

Lemma download_keeps_existing_files_witness :
  files (snd (download Samples.tracker (Samples.asking_all ".")
                (with_files Samples.start {["document.pdf" := "precious"]})))
    !! "document.pdf" = Some "precious".
Proof. apply download_keeps_existing_files. reflexivity. Defined.

(** X17. Asked for all attachments, the download command completes only
    when the destinations of the issue's attachments are pairwise different:
    of two attachments with the same filename the second is refused, since
    the first download has created the file. *)
Theorem download_all_completes_without_duplicates (cenv : CmdEnv)
    (params : downloadParams) (st : State) (attachments : list Attachment) :
  ProxyGetIssue cenv (issueKey params) = Ok attachments ->
  all params = true ->
  fst (download cenv params st) = Goes tt ->
  NoDup (map (fun a => filepath_Join cenv (outputDir params) (Filename a)) attachments).
Proof.
  intros Hget Hall Hg.
  destruct (download_shape cenv params st)
    as [(x & st0 & Hx & _ & _) | (l & atts & Hget' & Hsel & Hx)];
    rewrite Hx in Hg; [discriminate|].
  rewrite Hget in Hget'. injection Hget' as <-. rewrite (Hsel Hall) in Hg.
  apply (downloadEach_completes_without_duplicates _ _ _ _ Hg).
Qed.

Lemma download_all_completes_without_duplicates_witness :
  NoDup (map (fun a => filepath_Join Samples.two_files "." (Filename a))
           [Samples.document; Samples.comma_file]).
Proof.
  apply (download_all_completes_without_duplicates Samples.two_files
           (Samples.asking_all ".") Samples.start _ eq_refl eq_refl eq_refl).
Defined.

(** X18. The selection goes by precedence: when all attachments are asked
    for, the ID and the filename given are ignored; when an ID is given, the
    filename is ignored. *)
Theorem download_precedence (cenv : CmdEnv) (params params' : downloadParams)
    (st : State) :
  issueKey params' = issueKey params ->
  outputDir params' = outputDir params ->
  all params' = all params ->
  (all params = true \/ (id params <> "" /\ id params' = id params)) ->
  download cenv params' st = download cenv params st.
Proof.
  intros Hk Ho Ha Hsel. unfold download. rewrite Hk, Ho, Ha.
  destruct Hsel as [Hall | (Hid & Hid')].
  - rewrite Hall. reflexivity.
  - rewrite Hid'.
    destruct (String.eqb_spec (id params) ""); [contradiction|]. reflexivity.
Qed.

Lemma download_precedence_witness :
  download Samples.tracker
    {| issueKey := "TEST-1"; filename := "document.pdf"; all := true; id := "10002";
       outputDir := "."; debug := false |} Samples.start
  = download Samples.tracker (Samples.asking_all ".") Samples.start.
Proof.
  apply download_precedence; try reflexivity. now left.
Defined.

(** ** The aligned renderers and the [list] command *)

Lemma substring_prefix_short (s : string) (n : nat) :
  (String.length s <= n)%nat -> substring 0 n s = s.
Proof.
  revert n. induction s as [|c s IH]; intros [|n] Hn; simpl in *;
    try reflexivity; try lia.
  f_equal. apply IH. lia.
Qed.

Lemma formatDate_substring (s : string) : formatDate s = Some (substring 0 10 s).
Proof.
  unfold formatDate, slice_to.
  destruct (Nat.ltb_spec 10 (String.length s)) as [Hlt|Hle].
  - destruct (Nat.leb_spec 10 (String.length s)); [reflexivity | lia].
  - now rewrite substring_prefix_short.
Qed.

Lemma rows_text (tw : Writer) (attachments : list Attachment) :
  ListTable.rows tw attachments
  = Some (tw ++ foldr (fun a rest =>
                         (ID a ++ ListTable.TAB ++ Filename a ++ ListTable.TAB
                          ++ formatSize (Size a) ++ ListTable.TAB
                          ++ DisplayName (Author a) ++ ListTable.TAB
                          ++ substring 0 10 (Created a) ++ nl) ++ rest)
                  "" attachments).
Proof.
  revert tw. induction attachments as [|a l IH]; intros tw; cbn [ListTable.rows foldr].
  - now rewrite append_nil_r.
  - unfold ListTable.row. rewrite formatDate_substring. cbn [mbind option_bind].
    rewrite IH. unfold Fprintf. now rewrite append_assoc.
Qed.

(** X19. The aligned renderers return on every sequence of attachments (the
    date slice is never out of range).  Both hand the tabwriter one line per
    attachment, in order: ID, filename, size through [formatSize], author's
    display name and the first 10 bytes of the creation date, separated by
    tabs; the table is the plain listing with the header line handed to the
    tabwriter first, so that the header takes part in the alignment. *)
Theorem renderTable_renderPlain (tabwriter : string -> string) (w : Writer)
    (attachments : list Attachment) :
  exists text,
    ListTable.renderPlain tabwriter w attachments = Some (w ++ tabwriter text) /\
    ListTable.renderTable tabwriter w attachments
    = Some (w ++ tabwriter (("ID" ++ ListTable.TAB ++ "FILENAME" ++ ListTable.TAB
                             ++ "SIZE" ++ ListTable.TAB ++ "AUTHOR" ++ ListTable.TAB
                             ++ "CREATED" ++ nl) ++ text)) /\
    text = foldr (fun a rest =>
                    (ID a ++ ListTable.TAB ++ Filename a ++ ListTable.TAB
                     ++ formatSize (Size a) ++ ListTable.TAB
                     ++ DisplayName (Author a) ++ ListTable.TAB
                     ++ substring 0 10 (Created a) ++ nl) ++ rest)
             "" attachments.
Proof.
  eexists. split; [|split; [|reflexivity]].
  - unfold ListTable.renderPlain. rewrite rows_text. reflexivity.
  - unfold ListTable.renderTable. rewrite rows_text. reflexivity.
Qed.

(** X20. The [list] command returns on every input.  Without an issue key
    it exits before fetching anything.  Once the issue is fetched it shows
    exactly one thing and touches nothing else: the message that no
    attachment was found when the issue has none (nothing is rendered, not
    even a CSV header), else the CSV rendering when [--csv] is set, whether
    or not [--plain] is set too. *)
Theorem list_command (co : Cli.Collaborators) (params : ListRun.listParams)
    (r : Cli.Run) :
  (exists o r', ListRun.list_ co params r = Some (o, r') /\
                Cli.world r' = Cli.world r) /\
  (ListRun.issueKey params = "" ->
   ListRun.list_ co params r = Some (Exits (Failed "ISSUE-KEY is required" []), r)) /\
  (forall attachments,
     ListRun.issueKey params <> "" ->
     ProxyGetIssue (Cli.cmd_env co) (ListRun.issueKey params) = Ok attachments ->
     exists x,
       ListRun.list_ co params r
       = Some (Goes tt,
               {| Cli.world := Cli.world r;
                  Cli.fetched := (Cli.fetched r ++ [ListRun.issueKey params])%list;
                  Cli.terminal := (Cli.terminal r ++ [x])%list |}) /\
       (attachments = [] ->
        x = Cli.Success "No attachments found for issue %q" [ListRun.issueKey params]) /\
       (attachments <> [] -> ListRun.csv params = true ->
        x = Cli.Stdout (renderCSV "" attachments))).
Proof.
  unfold ListRun.list_, Cli.fetchIssue, Cli.show.
  destruct (String.eqb_spec (ListRun.issueKey params) "") as [Hk|Hk].
  { split; [eauto|]. split; [reflexivity | contradiction]. }
  split; [|split; [contradiction|]].
  - destruct (ProxyGetIssue (Cli.cmd_env co) (ListRun.issueKey params))
      as [attachments|e]; [|eauto].
    destruct (length attachments =? 0)%nat; [eauto|].
    destruct (ListRun.csv params); [eauto|].
    unfold ListTable.renderPlain, ListTable.renderTable. rewrite !rows_text.
    destruct (ListRun.plain params); cbn; eauto.
  - intros attachments _ ->.
    destruct attachments as [|a l]; cbn [length Nat.eqb].
    + eexists. split; [reflexivity|]. split; [reflexivity | congruence].
    + destruct (ListRun.csv params).
      * eexists. split; [reflexivity|]. split; [discriminate | reflexivity].
      * unfold ListTable.renderPlain, ListTable.renderTable. rewrite !rows_text.
        destruct (ListRun.plain params); cbn;
          (eexists; split; [reflexivity|]; split; [discriminate | discriminate]).
Qed.

Lemma list_command_witness :
  exists x,
    ListRun.list_ (Samples.desk Samples.tracker (Ok "Submit") (fun _ => false))
      {| ListRun.issueKey := "TEST-1"; ListRun.plain := true; ListRun.csv := true;
         ListRun.debug := false |} Samples.fresh
    = Some (Goes tt,
            {| Cli.world := Samples.start; Cli.fetched := ["TEST-1"];
               Cli.terminal := [x] |}) /\
    x = Cli.Stdout
          (renderCSV "" [Samples.document; Samples.comma_file; Samples.document_again]).
Proof.
  destruct (proj2 (proj2 (list_command
              (Samples.desk Samples.tracker (Ok "Submit") (fun _ => false))
              {| ListRun.issueKey := "TEST-1"; ListRun.plain := true;
                 ListRun.csv := true; ListRun.debug := false |} Samples.fresh))
              [Samples.document; Samples.comma_file; Samples.document_again])
    as (x & Hx & _ & Hcsv).
  - cbn. discriminate.
  - reflexivity.
  - exists x. split; [exact Hx|]. apply Hcsv; [discriminate | reflexivity].
Defined.

(** ** The [add] command *)

(** The validation names the first file that is missing. *)
Lemma validate_first_missing (co : Cli.Collaborators) (files : list string) :
  (exists f, In f files /\ Cli.os_Stat_IsNotExist co f = true) ->
  exists pre f post,
    files = (pre ++ f :: post)%list /\
    Forall (fun g => Cli.os_Stat_IsNotExist co g = false) pre /\
    Cli.os_Stat_IsNotExist co f = true /\
    AddCmd.validate co files = Exits (Failed "File %q does not exist" [f]).
Proof.
  induction files as [|g l IH]; intros (f & Hin & Hf); [destruct Hin|].
  cbn [AddCmd.validate].
  destruct (Cli.os_Stat_IsNotExist co g) eqn:Hg.
  - exists [], g, l. repeat split; [constructor | exact Hg].
  - destruct Hin as [->|Hin]; [congruence|].
    destruct (IH (ex_intro _ f (conj Hin Hf))) as (pre & f' & post & -> & Hpre & Hf' & Hv).
    exists (g :: pre), f', post. repeat split; [now constructor | exact Hf' | exact Hv].
Qed.

(** X21. The [add] command validates all files before it uploads any: when
    one of the files given does not exist, the command exits with the run as
    it was (no prompt result is used, nothing is shown, no request is sent),
    and, the issue key being there, the message names the first missing file
    in the order given. *)
Theorem add_validates_first (co : Cli.Collaborators) (params : AddCmd.addParams)
    (r : Cli.Run) :
  (exists f, In f (AddCmd.files params) /\ Cli.os_Stat_IsNotExist co f = true) ->
  (exists x, AddCmd.add co params r = (Exits x, r)) /\
  (AddCmd.issueKey params <> "" ->
   exists pre f post,
     AddCmd.files params = (pre ++ f :: post)%list /\
     Forall (fun g => Cli.os_Stat_IsNotExist co g = false) pre /\
     Cli.os_Stat_IsNotExist co f = true /\
     AddCmd.add co params r = (Exits (Failed "File %q does not exist" [f]), r)).
Proof.
  intros Hmiss.
  destruct (validate_first_missing co _ Hmiss) as (pre & f & post & Hfiles & Hpre & Hf & Hv).
  unfold AddCmd.add. rewrite Hv.
  assert (Hlen : (length (AddCmd.files params) =? 0)%nat = false).
  { rewrite Hfiles, length_app. cbn. apply Nat.eqb_neq. lia. }
  rewrite Hlen.
  destruct (String.eqb_spec (AddCmd.issueKey params) "") as [Hk|Hk].
  - split; [eauto | contradiction].
  - split; [eauto|]. intros _. exists pre, f, post. auto.
Qed.

Lemma add_validates_first_witness :
  exists x,
    AddCmd.add
      (Samples.desk Samples.upload_tracker (Ok "Submit") (String.eqb "gone.txt"))
      {| AddCmd.issueKey := "TEST-1"; AddCmd.files := ["test.txt"; "gone.txt"];
         AddCmd.noInput := true; AddCmd.debug := false |} Samples.fresh
    = (Exits x, Samples.fresh).
Proof.
  apply (add_validates_first
           (Samples.desk Samples.upload_tracker (Ok "Submit") (String.eqb "gone.txt"))
           {| AddCmd.issueKey := "TEST-1"; AddCmd.files := ["test.txt"; "gone.txt"];
              AddCmd.noInput := true; AddCmd.debug := false |} Samples.fresh).
  exists "gone.txt". split; [right; left; reflexivity | reflexivity].
Defined.

(** X22. Unless [--no-input] is set, the [add] command uploads nothing when
    the prompt is answered with the cancel option or fails: it exits with
    the run as it was. *)
Theorem add_cancelled (co : Cli.Collaborators) (params : AddCmd.addParams)
    (r : Cli.Run) :
  AddCmd.noInput params = false ->
  (forall format args options,
     Cli.survey_Ask co format args options = Ok (Cli.ActionCancel co) \/
     exists err, Cli.survey_Ask co format args options = Err err) ->
  exists x, AddCmd.add co params r = (Exits x, r).
Proof.
  intros Hni Hask. unfold AddCmd.add.
  destruct (String.eqb (AddCmd.issueKey params) ""); [eauto|].
  destruct (length (AddCmd.files params) =? 0)%nat; [eauto|].
  destruct (AddCmd.validate co (AddCmd.files params)); [|eauto].
  unfold AddCmd.confirm. rewrite Hni. cbn [negb].
  destruct (Hask ("Upload %d file(s) to %s?" ++ nl ++ "%s")
              [Sprintf_d (Z.of_nat (length (AddCmd.files params)));
               AddCmd.issueKey params; AddCmd.fileList (AddCmd.files params)]
              [Cli.ActionSubmit co; Cli.ActionCancel co]) as [-> | (err & ->)].
  - rewrite String.eqb_refl. eauto.
  - eauto.
Qed.

Lemma add_cancelled_witness :
  exists x,
    AddCmd.add
      (Samples.desk Samples.upload_tracker (Ok "Cancel") (fun _ => false))
      {| AddCmd.issueKey := "TEST-1"; AddCmd.files := ["test.txt"];
         AddCmd.noInput := false; AddCmd.debug := false |} Samples.fresh
    = (Exits x, Samples.fresh).
Proof.
  apply (add_cancelled
           (Samples.desk Samples.upload_tracker (Ok "Cancel") (fun _ => false))
           {| AddCmd.issueKey := "TEST-1"; AddCmd.files := ["test.txt"];
              AddCmd.noInput := false; AddCmd.debug := false |} Samples.fresh eq_refl).
  intros. left. reflexivity.
Defined.

(** An upload through the proxy sends at most one request, and exactly one
    when it succeeds. *)
Lemma ProxyUploadAttachment_sent (env : Env) (installation key file : string)
    (st : State) :
  (exists err, snd (fst (Api.ProxyUploadAttachment env installation key file st)) = Some err)
  /\ (sent (snd (Api.ProxyUploadAttachment env installation key file st)) = sent st \/
      exists req, sent (snd (Api.ProxyUploadAttachment env installation key file st))
                  = (sent st ++ [req])%list)
  \/
  snd (fst (Api.ProxyUploadAttachment env installation key file st)) = None /\
  exists req, sent (snd (Api.ProxyUploadAttachment env installation key file st))
              = (sent st ++ [req])%list.
Proof.
  rewrite ProxyUploadAttachment_version.
  destruct (uploadAttachment_answer env key file (api_version installation) st)
    as [(_ & Hs & e & He) | (_ & req & Hs & _)].
  - left. rewrite He. split; [eauto | now left].
  - destruct (snd (fst (uploadAttachment env key file (api_version installation) st)))
      as [err|]; [left | right]; eauto.
Qed.

(** The upload loop: the files are uploaded in order, each announced and,
    once uploaded, confirmed; the loop stops at the first upload that
    fails. *)
Lemma uploadEach_progress (co : Cli.Collaborators) (key : string) (files : list string)
    (r : Cli.Run) :
  exists n reqs,
    sent (Cli.world (snd (AddCmd.uploadEach co key files r)))
    = (sent (Cli.world r) ++ reqs)%list /\
    Cli.fetched (snd (AddCmd.uploadEach co key files r)) = Cli.fetched r /\
    match fst (AddCmd.uploadEach co key files r) with
    | Goes _ =>
        n = length files /\ length reqs = n /\
        Cli.terminal (snd (AddCmd.uploadEach co key files r))
        = (Cli.terminal r
           ++ flat_map (fun f => [Cli.Info ("Uploading " +:+ f);
                                  Cli.Success "Uploaded %q to issue %q" [f; key]])
                files)%list
    | Exits x =>
        (exists err, x = OnError err) /\ length reqs <= S n /\
        exists f, files !! n = Some f /\
        Cli.terminal (snd (AddCmd.uploadEach co key files r))
        = (Cli.terminal r
           ++ flat_map (fun f => [Cli.Info ("Uploading " +:+ f);
                                  Cli.Success "Uploaded %q to issue %q" [f; key]])
                (take n files)
           ++ [Cli.Info ("Uploading " +:+ f)])%list
    end%nat.
Proof.
  revert r. induction files as [|f rest IH]; intros r.
  - exists 0%nat, []. cbn. rewrite !app_nil_r. auto.
  - cbn [AddCmd.uploadEach].
    set (r1 := Cli.show r (Cli.Info ("Uploading " ++ f))).
    pose proof (ProxyUploadAttachment_sent (jira_env (Cli.cmd_env co))
                  (Cli.installation co) key f (Cli.world r1)) as Hup.
    destruct (Api.ProxyUploadAttachment (jira_env (Cli.cmd_env co))
                (Cli.installation co) key f (Cli.world r1)) as [[l [err|]] st].
    + cbn [fst snd] in *. destruct Hup as [(_ & Hs) | (Hn & _)]; [|discriminate].
      exists 0%nat.
      destruct Hs as [Hs | (req & Hs)];
        [exists [] | exists [req]];
        (split; [cbn; rewrite Hs; try rewrite app_nil_r; reflexivity|]);
        (split; [reflexivity|]);
        (split; [eauto|]); (split; [cbn; lia|]);
        exists f; split; reflexivity.
    + cbn [fst snd] in Hup. destruct Hup as [((e & He) & _) | (_ & req & Hs)];
        [discriminate|].
      set (r2 := Cli.show (Cli.with_world r1 st)
                   (Cli.Success "Uploaded %q to issue %q" [f; key])).
      destruct (IH r2) as (n & reqs & Hsent & Hfetch & Hcase).
      exists (S n), (req :: reqs).
      split; [rewrite Hsent; cbn; rewrite Hs; cbn; now rewrite <- app_assoc|].
      split; [rewrite Hfetch; reflexivity|].
      destruct (fst (AddCmd.uploadEach co key rest r2)) as [u|x].
      * destruct Hcase as (-> & Hl & Ht). split; [reflexivity|].
        split; [cbn; now rewrite Hl|].
        rewrite Ht. cbn. rewrite <- !app_assoc. reflexivity.
      * destruct Hcase as (Herr & Hl & f' & Hf' & Ht).
        split; [exact Herr|]. split; [cbn; lia|].
        exists f'. split; [exact Hf'|].
        rewrite Ht. cbn. rewrite <- !app_assoc. reflexivity.
Qed.

(** X23. The [add] command uploads the files one after the other, in the
    order given, and stops at the first failure.  When it completes, every
    file was announced and confirmed in order, one request was sent per
    file, and the browse URL is printed last.  When it exits, only a prefix
    of the files was uploaded and confirmed; at most the next file was
    announced and attempted, and no later one. *)
Theorem add_sequential (co : Cli.Collaborators) (params : AddCmd.addParams)
    (r : Cli.Run) :
  exists n reqs,
    sent (Cli.world (snd (AddCmd.add co params r)))
    = (sent (Cli.world r) ++ reqs)%list /\
    (fst (AddCmd.add co params r) = Goes tt ->
     length reqs = length (AddCmd.files params) /\
     Cli.terminal (snd (AddCmd.add co params r))
     = (Cli.terminal r
        ++ flat_map (fun f => [Cli.Info ("Uploading " +:+ f);
                               Cli.Success "Uploaded %q to issue %q"
                                 [f; AddCmd.issueKey params]])
             (AddCmd.files params)
        ++ [Cli.Stdout (Cli.GenerateServerBrowseURL co (Cli.viper_server co)
                          (AddCmd.issueKey params) +:+ nl)])%list) /\
    (forall x, fst (AddCmd.add co params r) = Exits x ->
     (length reqs <= S n)%nat /\
     exists tail,
       Cli.terminal (snd (AddCmd.add co params r))
       = (Cli.terminal r
          ++ flat_map (fun f => [Cli.Info ("Uploading " +:+ f);
                                 Cli.Success "Uploaded %q to issue %q"
                                   [f; AddCmd.issueKey params]])
               (take n (AddCmd.files params))
          ++ tail)%list /\
       (tail = [] \/
        exists f, AddCmd.files params !! n = Some f /\
                  tail = [Cli.Info ("Uploading " +:+ f)])).
Proof.
  assert (Hearly : forall x,
    exists n reqs,
      sent (Cli.world (snd (@Exits unit x, r))) = (sent (Cli.world r) ++ reqs)%list /\
      (fst (@Exits unit x, r) = Goes tt ->
       length reqs = length (AddCmd.files params) /\
       Cli.terminal (snd (@Exits unit x, r))
       = (Cli.terminal r
          ++ flat_map (fun f => [Cli.Info ("Uploading " +:+ f);
                                 Cli.Success "Uploaded %q to issue %q"
                                   [f; AddCmd.issueKey params]])
               (AddCmd.files params)
          ++ [Cli.Stdout (Cli.GenerateServerBrowseURL co (Cli.viper_server co)
                            (AddCmd.issueKey params) +:+ nl)])%list) /\
      (forall y, fst (@Exits unit x, r) = Exits y ->
       (length reqs <= S n)%nat /\
       exists tail,
         Cli.terminal (snd (@Exits unit x, r))
         = (Cli.terminal r
            ++ flat_map (fun f => [Cli.Info ("Uploading " +:+ f);
                                   Cli.Success "Uploaded %q to issue %q"
                                     [f; AddCmd.issueKey params]])
                 (take n (AddCmd.files params))
            ++ tail)%list /\
         (tail = [] \/
          exists f, AddCmd.files params !! n = Some f /\
                    tail = [Cli.Info ("Uploading " +:+ f)]))).
  { intros x. exists 0%nat, []. cbn. rewrite !app_nil_r.
    split; [reflexivity|]. split; [discriminate|].
    intros y _. split; [lia|]. exists []. rewrite app_nil_r. auto. }
  unfold AddCmd.add.
  destruct (String.eqb (AddCmd.issueKey params) ""); [apply Hearly|].
  destruct (length (AddCmd.files params) =? 0)%nat; [apply Hearly|].
  destruct (AddCmd.validate co (AddCmd.files params)); [|apply Hearly].
  destruct (AddCmd.confirm co params); [|apply Hearly].
  clear Hearly.
  destruct (uploadEach_progress co (AddCmd.issueKey params) (AddCmd.files params) r)
    as (n & reqs & Hsent & _ & Hcase).
  destruct (AddCmd.uploadEach co (AddCmd.issueKey params) (AddCmd.files params) r)
    as [[u|x] r']; cbn [fst snd] in *; exists n, reqs.
  - destruct Hcase as (-> & Hl & Ht).
    split; [exact Hsent|]. split; [|discriminate].
    intros _. split; [exact Hl|]. cbn. rewrite Ht, <- app_assoc. reflexivity.
  - destruct Hcase as (_ & Hl & f & Hf & Ht).
    split; [exact Hsent|]. split; [discriminate|].
    intros y _. split; [exact Hl|].
    exists [Cli.Info ("Uploading " ++ f)]. split; [exact Ht|]. right. eauto.
Qed.

Lemma add_sequential_witness :
  exists reqs,
    sent (Cli.world (snd (AddCmd.add
      (Samples.desk Samples.upload_tracker (Ok "Submit") (fun _ => false))
      {| AddCmd.issueKey := "TEST-1"; AddCmd.files := ["a.txt"; "b.txt"];
         AddCmd.noInput := true; AddCmd.debug := false |} Samples.fresh)))
    = (sent (Cli.world Samples.fresh) ++ reqs)%list /\
    length reqs = 2%nat.
Proof.
  destruct (add_sequential
              (Samples.desk Samples.upload_tracker (Ok "Submit") (fun _ => false))
              {| AddCmd.issueKey := "TEST-1"; AddCmd.files := ["a.txt"; "b.txt"];
                 AddCmd.noInput := true; AddCmd.debug := false |} Samples.fresh)
    as (n & reqs & Hs & Hg & _).
  exists reqs. split; [exact Hs|]. apply Hg. reflexivity.
Defined.

(** ** The [remove] command *)

Lemma lookup_filename_none (attachments : list Attachment) (id : string) :
  Forall (fun a => ID a <> id) attachments ->
  RemoveCmd.lookup_filename attachments id = None.
Proof.
  intros H. induction H as [|a l Ha _ IH]; cbn; [reflexivity|].
  destruct (String.eqb_spec (ID a) id); [contradiction | exact IH].
Qed.

Lemma lookup_filename_first (attachments : list Attachment) (id name : string) :
  RemoveCmd.lookup_filename attachments id = Some name ->
  exists pre a post,
    attachments = (pre ++ a :: post)%list /\ ID a = id /\ Filename a = name /\
    Forall (fun b => ID b <> id) pre.
Proof.
  induction attachments as [|a l IH]; cbn; [discriminate|].
  destruct (String.eqb_spec (ID a) id) as [He|Hne].
  - intros [= <-]. exists [], a, l. repeat split; [exact He | constructor].
  - intros H. destruct (IH H) as (pre & b & post & -> & Hb & Hn & Hpre).
    exists (a :: pre), b, post. repeat split; [exact Hb | exact Hn | now constructor].
Qed.

(** X24. The [remove] command deletes only what is on the issue and only
    when confirmed.  When no attachment of the issue has the ID given, and
    when the prompt is answered with the cancel option, it exits without a
    request.  In every case it sends at most one request, a DELETE, and
    then some attachment of the issue has the ID given; the filename it
    announces is that of the first such attachment. *)
Theorem remove_guards (co : Cli.Collaborators) (params : RemoveCmd.removeParams)
    (r : Cli.Run) (attachments : list Attachment) :
  ProxyGetIssue (Cli.cmd_env co) (RemoveCmd.issueKey params) = Ok attachments ->
  (Forall (fun a => ID a <> RemoveCmd.attachmentID params) attachments ->
   (exists x, fst (RemoveCmd.remove co params r) = Exits x) /\
   Cli.world (snd (RemoveCmd.remove co params r)) = Cli.world r) /\
  (RemoveCmd.noInput params = false ->
   (forall format args options,
      Cli.survey_Ask co format args options = Ok (Cli.ActionCancel co)) ->
   (exists x, fst (RemoveCmd.remove co params r) = Exits x) /\
   Cli.world (snd (RemoveCmd.remove co params r)) = Cli.world r) /\
  (sent (Cli.world (snd (RemoveCmd.remove co params r))) = sent (Cli.world r) \/
   exists req pre a post,
     sent (Cli.world (snd (RemoveCmd.remove co params r)))
     = (sent (Cli.world r) ++ [req])%list /\
     Method req = "DELETE" /\
     attachments = (pre ++ a :: post)%list /\
     ID a = RemoveCmd.attachmentID params /\
     Forall (fun b => ID b <> RemoveCmd.attachmentID params) pre /\
     In (Cli.Info ("Deleting attachment " +:+ Filename a))
        (Cli.terminal (snd (RemoveCmd.remove co params r)))).
Proof.
  intros Hget. unfold RemoveCmd.remove, Cli.fetchIssue. rewrite Hget.
  destruct (String.eqb (RemoveCmd.issueKey params) "");
    [cbn; repeat split; eauto|].
  destruct (String.eqb (RemoveCmd.attachmentID params) "");
    [cbn; repeat split; eauto|].
  destruct (RemoveCmd.lookup_filename attachments (RemoveCmd.attachmentID params))
    as [name|] eqn:Hlook; [|cbn; repeat split; eauto].
  split; [|split].
  - intros Hnone. rewrite (lookup_filename_none _ _ Hnone) in Hlook. discriminate.
  - intros Hni Hask. unfold RemoveCmd.confirm. rewrite Hni, Hask. cbn [negb].
    rewrite String.eqb_refl. cbn. eauto.
  - destruct (RemoveCmd.confirm co params name); [|now left].
    destruct (lookup_filename_first _ _ _ Hlook)
      as (pre & att & post & Hatt & Hid & Hn & Hpre).
    set (r1 := Cli.show _ (Cli.Info _)).
    pose proof (ProxyDeleteAttachment_version (jira_env (Cli.cmd_env co))
                  (Cli.installation co) (RemoveCmd.attachmentID params)
                  (Cli.world r1)) as Hv.
    destruct (deleteAttachment_answer (jira_env (Cli.cmd_env co))
                (RemoveCmd.attachmentID params) (api_version (Cli.installation co))
                (Cli.world r1)) as (req & Hs & Hm & _).
    rewrite <- Hv in Hs.
    destruct (Api.ProxyDeleteAttachment (jira_env (Cli.cmd_env co))
                (Cli.installation co) (RemoveCmd.attachmentID params) (Cli.world r1))
      as [[err|] st]; cbn [snd] in Hs; right; exists req, pre, att, post;
      (split; [exact Hs|]); (split; [exact Hm|]); (split; [exact Hatt|]);
      (split; [exact Hid|]); (split; [exact Hpre|]);
      cbn; rewrite Hn; rewrite !in_app_iff; cbn; auto.
Qed.

Lemma remove_guards_witness :
  (exists x,
     fst (RemoveCmd.remove
            (Samples.desk Samples.tracker (Ok "Submit") (fun _ => false))
            {| RemoveCmd.issueKey := "TEST-1"; RemoveCmd.attachmentID := "99999";
               RemoveCmd.noInput := true; RemoveCmd.debug := false |} Samples.fresh)
     = Exits x) /\
  Cli.world (snd (RemoveCmd.remove
            (Samples.desk Samples.tracker (Ok "Submit") (fun _ => false))
            {| RemoveCmd.issueKey := "TEST-1"; RemoveCmd.attachmentID := "99999";
               RemoveCmd.noInput := true; RemoveCmd.debug := false |} Samples.fresh))
  = Cli.world Samples.fresh.
Proof.
  apply (proj1 (remove_guards
           (Samples.desk Samples.tracker (Ok "Submit") (fun _ => false))
           {| RemoveCmd.issueKey := "TEST-1"; RemoveCmd.attachmentID := "99999";
              RemoveCmd.noInput := true; RemoveCmd.debug := false |} Samples.fresh
           _ eq_refl)).
  repeat constructor; cbn; discriminate.
Defined.

(** ** The arguments of the commands *)

(** X25. A command line with at most the issue key does nothing: [add]
    exits (a file is required) and [remove] exits (an attachment ID is
    required) with the run as it was, before the issue is fetched; and
    without any argument the issue key is empty, whatever the configured
    project is. *)
Theorem short_command_lines (co : Cli.Collaborators) (args : list string)
    (flags : Cli.FlagParser) (r : Cli.Run) :
  (length args <= 1)%nat ->
  (args = [] -> Cli.issueKey_of co args = "") /\
  (forall params, AddCmd.parseArgsAndFlags co args flags = Goes params ->
     AddCmd.files params = [] /\
     exists x, AddCmd.add co params r = (Exits x, r)) /\
  (forall params, RemoveCmd.parseArgsAndFlags co args flags = Goes params ->
     RemoveCmd.attachmentID params = "" /\
     exists x, RemoveCmd.remove co params r = (Exits x, r)).
Proof.
  intros Hlen. split; [intros ->; reflexivity|]. split.
  - intros params. unfold AddCmd.parseArgsAndFlags.
    destruct (Cli.GetBool flags "debug"); [|discriminate].
    destruct (Cli.GetBool flags "no-input"); [|discriminate].
    intros [= <-]. cbn [AddCmd.files AddCmd.issueKey].
    assert (Hf : match args with _ :: (_ :: _) as rest => rest | _ => [] end
                 = @nil string).
    { destruct args as [|arg0 [|arg1 more]]; cbn in *; try reflexivity; lia. }
    rewrite Hf. split; [reflexivity|]. unfold AddCmd.add. cbn.
    destruct (String.eqb (Cli.issueKey_of co args) ""); eauto.
  - intros params. unfold RemoveCmd.parseArgsAndFlags.
    destruct (Cli.GetBool flags "debug"); [|discriminate].
    destruct (Cli.GetBool flags "no-input"); [|discriminate].
    intros [= <-]. cbn [RemoveCmd.attachmentID RemoveCmd.issueKey].
    assert (Hf : match args with _ :: a1 :: _ => a1 | _ => "" end = "").
    { destruct args as [|arg0 [|arg1 more]]; cbn in *; try reflexivity; lia. }
    rewrite Hf. split; [reflexivity|]. unfold RemoveCmd.remove. cbn.
    destruct (String.eqb (Cli.issueKey_of co args) ""); eauto.
Qed.

Lemma short_command_lines_witness :
  exists x,
    AddCmd.add (Samples.desk Samples.upload_tracker (Ok "Submit") (fun _ => false))
      {| AddCmd.issueKey := "TEST-1"; AddCmd.files := [];
         AddCmd.noInput := false; AddCmd.debug := false |} Samples.fresh
    = (Exits x, Samples.fresh).
Proof.
  apply (proj1 (proj2 (short_command_lines
           (Samples.desk Samples.upload_tracker (Ok "Submit") (fun _ => false))
           ["TEST-1"] Samples.no_flags Samples.fresh ltac:(cbn; lia)))
         {| AddCmd.issueKey := "TEST-1"; AddCmd.files := [];
            AddCmd.noInput := false; AddCmd.debug := false |} eq_refl).
Defined.

(** X26. The [download] command line needs a selection: with at most the
    issue key as argument and neither [--all] nor [--id] given, no filename
    is asked for either, and the command exits without a download request
    and without touching a file (the issue may have been fetched and the
    output directory made by then); without any argument it exits with the
    state as it was. *)
Theorem download_needs_selection (co : Cli.Collaborators) (args : list string)
    (flags : Cli.FlagParser) (st : State) :
  (length args <= 1)%nat ->
  Cli.GetBool flags "all" = Ok false ->
  Cli.GetString flags "id" = Ok "" ->
  (exists x, fst (DownloadArgs.run co args flags st) = Exits x) /\
  sent (snd (DownloadArgs.run co args flags st)) = sent st /\
  files (snd (DownloadArgs.run co args flags st)) = files st /\
  (args = [] -> snd (DownloadArgs.run co args flags st) = st).
Proof.
  intros Hlen Hall Hid. unfold DownloadArgs.run, DownloadArgs.parseArgsAndFlags.
  rewrite Hall, Hid.
  destruct (Cli.GetBool flags "debug") as [dbg|e]; [|cbn; eauto 6].
  destruct (Cli.GetString flags "output") as [dir|e]; [|cbn; eauto 6].
  assert (Hf : match args with _ :: a1 :: _ => a1 | _ => "" end = "").
  { destruct args as [|arg0 [|arg1 more]]; cbn in *; try reflexivity; lia. }
  rewrite Hf. unfold download. cbn [issueKey filename all id outputDir].
  destruct (String.eqb_spec (Cli.issueKey_of co args) "") as [Hk|Hk];
    [cbn; eauto 6|].
  assert (Hne : args <> []) by (intros ->; apply Hk; reflexivity).
  destruct (ProxyGetIssue (Cli.cmd_env co) (Cli.issueKey_of co args)) as [l|e];
    [|cbn; repeat split; eauto; contradiction].
  destruct (length l =? 0)%nat; [cbn; repeat split; eauto; contradiction|].
  destruct (negb (String.eqb dir "."));
    [destruct (os_MkdirAll_err (Cli.cmd_env co) dir)|];
    cbn; repeat split; eauto; contradiction.
Qed.

Lemma download_needs_selection_witness :
  (exists x, fst (DownloadArgs.run
                    (Samples.desk Samples.tracker (Ok "Submit") (fun _ => false))
                    ["TEST-1"] Samples.no_flags Samples.start) = Exits x) /\
  sent (snd (DownloadArgs.run
               (Samples.desk Samples.tracker (Ok "Submit") (fun _ => false))
               ["TEST-1"] Samples.no_flags Samples.start)) = sent Samples.start.
Proof.
  destruct (download_needs_selection
              (Samples.desk Samples.tracker (Ok "Submit") (fun _ => false))
              ["TEST-1"] Samples.no_flags Samples.start
              ltac:(cbn; lia) eq_refl eq_refl) as (Hx & Hs & _).
  split; assumption.
Defined.

(** ** The request of a download *)

(** X27. A download whose request can be built sends exactly the bare GET
    request for the URL, authenticated by [applyAuth], and leaves the client
    as [applyAuth] leaves it.  For a client in basic mode (set or defaulted)
    the request so carries the single header
    [Authorization: Basic base64(login:token)]. *)
Theorem DownloadAttachment_request (env : Env) (url destPath : string) (st : State) :
  http_NewRequest_err env "GET" url = None ->
  sent (snd (DownloadAttachment env url destPath st))
  = (sent st ++ [snd (applyAuth (client st)
                        {| Method := "GET"; URL := url; ReqHeader := ∅;
                           ReqBody := "" |})])%list /\
  client (snd (DownloadAttachment env url destPath st))
  = fst (applyAuth (client st)
           {| Method := "GET"; URL := url; ReqHeader := ∅; ReqBody := "" |}) /\
  (authType (client st) = None \/ authType (client st) = Some AuthTypeBasic ->
   exists req,
     sent (snd (DownloadAttachment env url destPath st)) = (sent st ++ [req])%list /\
     ReqHeader req
     = {["Authorization" :=
           ["Basic " +:+ base64_EncodeToString
                           (login (client st) +:+ ":" +:+ token (client st))]]}).
Proof.
  intros Hnr.
  assert (H : sent (snd (DownloadAttachment env url destPath st))
              = (sent st ++ [snd (applyAuth (client st)
                                    {| Method := "GET"; URL := url; ReqHeader := ∅;
                                       ReqBody := "" |})])%list /\
              client (snd (DownloadAttachment env url destPath st))
              = fst (applyAuth (client st)
                       {| Method := "GET"; URL := url; ReqHeader := ∅;
                          ReqBody := "" |})).
  { unfold DownloadAttachment, http_NewRequest. rewrite Hnr.
    destruct (applyAuth (client st) _) as [c req]. unfold httpClient_Do.
    destruct (http_Do env req) as [res|e]; cbn; [|auto].
    destruct (negb (StatusCode res =? StatusOK)); cbn; [auto|].
    destruct (os_Create_err env destPath); cbn; [auto|].
    destruct (io_Copy_to_file_err env destPath (Body res)) as [[w e]|]; cbn; auto. }
  destruct H as (Hs & Hc). split; [exact Hs|]. split; [exact Hc|].
  intros Hmode. eexists. split; [exact Hs|].
  unfold applyAuth.
  destruct Hmode as [Hm | Hm]; rewrite Hm; cbn [snd];
    destruct (client st) as [s l t a]; cbn in *; subst a; reflexivity.
Qed.

Lemma DownloadAttachment_request_witness :
  exists req,
    sent (snd (DownloadAttachment Samples.serving "http://127.0.0.1/attachments/test.txt"
                 "downloaded.txt" Samples.start))
    = (sent Samples.start ++ [req])%list /\
    ReqHeader req = {["Authorization" := ["Basic dGVzdDp0b2tlbg=="]]}.
Proof.
  apply (proj2 (proj2 (DownloadAttachment_request Samples.serving
                         "http://127.0.0.1/attachments/test.txt" "downloaded.txt"
                         Samples.start eq_refl))).
  now left.
Defined.

(** ** The lines of the CSV output *)

Lemma count_LF_append (a b : string) :
  count_LF (a ++ b) = (count_LF a + count_LF b)%nat.
Proof.
  induction a as [|c a IH]; [reflexivity|].
  rewrite append_cons. cbn [count_LF]. rewrite IH. lia.
Qed.

Lemma count_LF_uint (d : Decimal.uint) : count_LF (NilEmpty.string_of_uint d) = 0%nat.
Proof. induction d; cbn; auto. Qed.

Lemma count_LF_Sprintf_d (n : Z) : count_LF (Sprintf_d n) = 0%nat.
Proof.
  unfold Sprintf_d, NilZero.string_of_int, NilZero.string_of_uint.
  destruct (Z.to_int n) as [d|d]; destruct d; cbn -[NilEmpty.string_of_uint];
    try reflexivity;
    match goal with
    | |- context [NilEmpty.string_of_uint ?u] => exact (count_LF_uint u)
    end.
Qed.

Lemma count_LF_escapeCSV (s : string) : count_LF (escapeCSV s) = count_LF s.
Proof.
  unfold escapeCSV. destruct (containsSpecialChar s); [|reflexivity].
  rewrite !count_LF_append. change (count_LF dquote) with 0%nat. lia.
Qed.

Lemma count_LF_csv_body (attachments : list Attachment) :
  count_LF (csv_body attachments)
  = (length attachments + foldr (fun a n => field_LFs a + n) 0 attachments)%nat.
Proof.
  induction attachments as [|a l IH]; [reflexivity|].
  cbn [csv_body foldr length]. fold (csv_body l).
  rewrite count_LF_append, IH. unfold csv_line, field_LFs.
  rewrite !count_LF_append, !count_LF_escapeCSV, count_LF_Sprintf_d.
  change (count_LF ",") with 0%nat. change (count_LF nl) with 1%nat. lia.
Qed.

(** X28. The CSV output has one line feed for the header and one per
    attachment, plus the line feeds inside the ID, filename, author and
    creation fields, which are written as they are (quoting does not remove
    them).  So when no field holds a line feed the output has exactly one
    line more than there are attachments. *)
Theorem renderCSV_line_count (w : Writer) (attachments : list Attachment) :
  count_LF (renderCSV w attachments)
  = (count_LF w + 1 + length attachments
     + foldr (fun a n => field_LFs a + n) 0 attachments)%nat /\
  (Forall (fun a => field_LFs a = 0%nat) attachments ->
   count_LF (renderCSV "" attachments) = S (length attachments)).
Proof.
  assert (H : forall w', count_LF (renderCSV w' attachments)
    = (count_LF w' + 1 + length attachments
       + foldr (fun a n => field_LFs a + n) 0 attachments)%nat).
  { intros w'. unfold renderCSV. rewrite renderCSV_loop. unfold Fprintf.
    rewrite !count_LF_append, count_LF_csv_body.
    change (count_LF nl) with 1%nat.
    change (count_LF "ID,FILENAME,SIZE,AUTHOR,CREATED") with 0%nat. lia. }
  split; [apply H|]. intros Hall. rewrite H. clear H.
  assert (Hz : foldr (fun a n => (field_LFs a + n)%nat) 0%nat attachments = 0%nat).
  { induction Hall as [|a l Ha _ IH]; cbn [foldr]; [reflexivity|].
    now rewrite Ha, IH. }
  rewrite Hz. cbn. lia.
Qed.

Lemma renderCSV_line_count_witness :
  count_LF (renderCSV "" [Samples.document; Samples.comma_file]) = 3%nat.
Proof.
  apply (proj2 (renderCSV_line_count "" [Samples.document; Samples.comma_file])).
  repeat constructor.
Defined.
